(** * Online DDL executor: scheduling, admission and cut-over decisions

    A shallow embedding of the Online DDL executor
    (package [onlineddl], [executor.go]) and the properties of its
    lifecycle engine: cut-over backoff, cut-over threshold validation,
    migration conflicts, singleton admission, idempotent submission,
    cancellation, the queued->ready scheduler and the start-up guard of the
    runner.

    Conventions.
    - [time.Duration] is an [int64] count of nanoseconds; it is modelled by
      [Z].  The executor compares durations and converts them to seconds,
      so no wrap-around occurs.
    - The [schema_migrations] table is a list of rows in [id] order.  A
      statement whose error the executor returns is given by its effect
      when the database carries it out; for a statement whose error the
      executor discards, [discarded_statement_applies] tells whether the
      database carried it out.
    - [sync.Map] ([ownedRunningMigrations]) is a [gmap] from UUID to the
      migration object it points to.
    - An error is a [vterror]: an RPC code and the message template. *)

From stdpp Require Import base numbers strings list gmap.

Local Open Scope Z_scope.

(** ** Durations *)

Definition Duration := Z.

Definition Nanosecond : Duration := 1.
Definition Microsecond : Duration := 1000 * Nanosecond.
Definition Millisecond : Duration := 1000 * Microsecond.
Definition Second : Duration := 1000 * Millisecond.
Definition Minute : Duration := 60 * Second.
Definition Hour : Duration := 60 * Minute.

(** ** The seconds of a duration

    [time.Duration.Seconds] is [float64(sec) + float64(nsec)/1e9] with
    [sec := d / Second] and [nsec := d % Second]; the executor stores
    [int64(d.Seconds())].  The division and the sum are rounded as IEEE
    754 binary64 does, to nearest, ties to even; the conversion to
    [int64] truncates.  A binary64 value is kept as a pair [(m, s)]
    standing for m / 2^s, with a significand [m] of 53 bits ([s] is
    negative from 2^53 on).  The two operands are exact for an [int64]
    duration, and the values met lie far from the ends of the exponent
    range. *)

(** The integer nearest to n/d, the even one of two equally near. *)
Definition round_half_even (n d : Z) : Z :=
  let q := n / d in
  let r := n `mod` d in
  if bool_decide (2 * r < d) then q
  else if bool_decide (d < 2 * r) then q + 1
  else if Z.even q then q else q + 1.

(** 2^s, and 1 for a negative [s]. *)
Definition pow2 (s : Z) : Z := 2 ^ Z.max 0 s.

(** The [s] with 2^52 ≤ n/d * 2^s < 2^53, for positive [n] and [d]. *)
Definition float64_shift (n d : Z) : Z :=
  let s := 52 - (Z.log2 n - Z.log2 d) in
  if bool_decide (d * 2 ^ 52 * pow2 (- s) ≤ n * pow2 s) then s else s + 1.

(** The binary64 value nearest to n/d, for [0 ≤ n] and [0 < d]. *)
Definition float64_round (n d : Z) : Z * Z :=
  if bool_decide (n = 0) then (0, 0)
  else
    let s := float64_shift n d in
    (round_half_even (n * pow2 s) (d * pow2 (- s)), s).

(** [int64(d.Seconds())]. *)
Definition Seconds (d : Duration) : Z :=
  let sec := Z.abs (Z.quot d Second) in
  let nsec := Z.abs (Z.rem d Second) in
  let '(m, s) := float64_round nsec Second in
  let '(m', s') :=
    float64_round (sec * pow2 s + m * pow2 (- s)) (pow2 s) in
  Z.sgn d * (m' * pow2 (- s') / pow2 s').

(** ** Errors *)

(** [vtrpcpb.Code]: the classification carried by every wrapped error. *)
Inductive Code :=
  | Code_OK
  | Code_UNKNOWN
  | Code_INVALID_ARGUMENT
  | Code_NOT_FOUND
  | Code_FAILED_PRECONDITION
  | Code_ABORTED
  | Code_UNIMPLEMENTED
  | Code_INTERNAL
  | Code_UNAVAILABLE.

Global Instance Code_eq_dec : EqDecision Code.
Proof. solve_decision. Defined.

Record vterror := Errorf { ErrCode : Code; ErrMsg : string }.

Global Instance vterror_eq_dec : EqDecision vterror.
Proof. solve_decision. Defined.

(** ** Package-level variables and constants *)

Definition migrationCheckInterval : Duration := 1 * Minute.
Definition maxConcurrentOnlineDDLs : nat := 256.

Definition migrationNextCheckIntervals : list Duration :=
  [1 * Second; 5 * Second; 10 * Second; 20 * Second].
Definition cutoverIntervals : list Duration :=
  [0; 1 * Minute; 5 * Minute; 10 * Minute; 30 * Minute].

Definition defaultCutOverThreshold : Duration := 10 * Second.
Definition minCutOverThreshold : Duration := 5 * Second.
Definition maxCutOverThreshold : Duration := 30 * Second.

(** ** [safeMigrationCutOverThreshold] *)

(** The Go function returns a pair [(time.Duration, error)]; [None] is the
    [nil] error. *)
Definition safeMigrationCutOverThreshold (threshold : Duration)
  : Duration * option vterror :=
  if bool_decide (threshold = 0) then
    (defaultCutOverThreshold, None)
  else if bool_decide (threshold < minCutOverThreshold) then
    (defaultCutOverThreshold,
     Some (Errorf Code_FAILED_PRECONDITION "cut-over min value is %v"))
  else if bool_decide (threshold > maxCutOverThreshold) then
    (defaultCutOverThreshold,
     Some (Errorf Code_FAILED_PRECONDITION "cut-over max value is %v"))
  else
    (threshold, None).

(** ** [shouldCutOverAccordingToBackoff] *)

(** Indexing a Go slice panics when the index is out of range; [None]
    stands for the panic.  [cutoverAttempts] is an [int64] and the
    conversion [int(cutoverAttempts)] is the identity on a 64-bit
    platform. *)
Definition slice_index {A} (l : list A) (i : Z) : option A :=
  if bool_decide (0 <= i) then l !! Z.to_nat i else None.

Definition shouldCutOverAccordingToBackoff
    (shouldForceCutOverIndicator : bool)
    (forceCutOverAfter : Duration)
    (sinceReadyToComplete : Duration)
    (sinceLastCutoverAttempt : Duration)
    (cutoverAttempts : Z)
  : option (bool * bool) :=
  (* Backoff mechanism: the statements after the two force checks. *)
  let backoff : option (bool * bool) :=
    desiredTimeSinceLastCutover0 ←
      slice_index cutoverIntervals (Z.of_nat (length cutoverIntervals) - 1);
    desiredTimeSinceLastCutover ←
      (if bool_decide (cutoverAttempts < Z.of_nat (length cutoverIntervals))
       then slice_index cutoverIntervals cutoverAttempts
       else Some desiredTimeSinceLastCutover0);
    if bool_decide (sinceLastCutoverAttempt >= desiredTimeSinceLastCutover)
    then Some (true, false)
    else Some (false, false) in
  if shouldForceCutOverIndicator then Some (true, true)
  else if bool_decide (forceCutOverAfter > 0) then
    if bool_decide (sinceReadyToComplete > forceCutOverAfter) then
      Some (true, true)
    else if bool_decide (forceCutOverAfter <= Millisecond) then
      Some (true, true)
    else backoff
  else backoff.

(** ** The data model *)

(** [schema.OnlineDDLStatus]. *)
Inductive OnlineDDLStatus :=
  | OnlineDDLStatusQueued
  | OnlineDDLStatusReady
  | OnlineDDLStatusRunning
  | OnlineDDLStatusComplete
  | OnlineDDLStatusFailed
  | OnlineDDLStatusCancelled.

Global Instance OnlineDDLStatus_eq_dec : EqDecision OnlineDDLStatus.
Proof. solve_decision. Defined.

Definition is_terminal (s : OnlineDDLStatus) : bool :=
  match s with
  | OnlineDDLStatusComplete | OnlineDDLStatusFailed
  | OnlineDDLStatusCancelled => true
  | _ => false
  end.

(** Modelled from the spec: [sqlparser.DDLAction] is declared in the SQL
    parser, outside the sources at hand.  The data model lists the actions
    [create], [drop], [alter] and [revert].  In Go it is an integer
    enumeration whose first constant is [CreateDDLAction], so that
    [CreateDDLAction] is the value of a result variable of this type that
    was never assigned. *)
Inductive DDLAction :=
  | CreateDDLAction
  | AlterDDLAction
  | DropDDLAction
  | RevertDDLAction.

Global Instance DDLAction_eq_dec : EqDecision DDLAction.
Proof. solve_decision. Defined.

Definition DDLAction_zero : DDLAction := CreateDDLAction.

(** [schema.DDLStrategy] is a string type. *)
Definition DDLStrategyDirect : string := "direct".
Definition DDLStrategyVitess : string := "vitess".
Definition DDLStrategyOnline : string := "online".
Definition DDLStrategyMySQL : string := "mysql".

(** The strategy and its options as [StrategySetting()] parses them.  The
    parser of the [options] column lives in package [schema]; a migration
    carries the values its accessors return. *)
Record DDLStrategySetting := {
  Strategy : string;
  IsAllowConcurrent : bool;
  IsSingleton : bool;
  IsSingletonContext : bool;
  IsSingletonTable : bool;
  IsPostponeLaunch : bool;
  IsPostponeCompletion : bool;
  IsInOrderCompletion : bool;
  (** [CutOverThreshold()]: the requested threshold, or a parse error. *)
  CutOverThresholdFlag : vterror + Duration;
  (** [RetainArtifactsDuration()]. *)
  RetainArtifactsDuration : Duration;
}.

(** A migration statement: its text, and what the SQL parser reports on
    it, the result of [GetAction] (an action and an error, [None] being
    [nil]) and of [GetRevertUUID] ([None] when the call fails: the
    statement is not a REVERT). *)
Record MigrationStatement := {
  Text : string;
  GetAction : DDLAction * option vterror;
  GetRevertUUID : option string;
}.

Global Instance MigrationStatement_eq_dec : EqDecision MigrationStatement.
Proof. solve_decision. Defined.

(** [schema.OnlineDDL], with the fields [readMigration] fills in. *)
Record OnlineDDL := {
  UUID : string;
  Table : string;
  SQL : MigrationStatement;
  StrategySetting : DDLStrategySetting;
  Status : OnlineDDLStatus;
  Retries : Z;
  ReadyToComplete : Z;
  WasReadyToComplete : Z;
  TabletAlias : string;
  MigrationContext : string;
  CutOverThreshold : Duration;
}.

(** A row of [schema_migrations]: the columns the operations below read or
    write.  Timestamps are [option Z], [None] being SQL NULL. *)
Record Row := {
  migration_uuid : string;
  mysql_table : string;
  migration_statement : MigrationStatement;
  strategy_options : DDLStrategySetting;
  migration_context : string;
  migration_status : OnlineDDLStatus;
  tablet : string;
  retries : Z;
  postpone_launch : bool;
  postpone_completion : bool;
  ready_to_complete : bool;
  was_ready_to_complete : bool;
  is_immediate_operation : bool;
  force_cutover : bool;
  cancelled_timestamp : option Z;
  reviewed_timestamp : option Z;
  cutover_threshold_seconds : Z;
  retain_artifacts_seconds : Z;
  message : string;
}.

(** A submitted [sqlparser.Statement], as far as [SubmitMigration] looks at
    it: whether it is a DDL statement, whether that statement is fully
    parsed, and the migration [schema.OnlineDDLFromCommentedStatement]
    builds from its comments ([None] when that fails). *)
Record Statement := {
  IsDDLStatement : bool;
  IsFullyParsed : bool;
  OnlineDDLFromCommentedStatement : option OnlineDDL;
}.

(** [sqltypes.Result]. *)
Record Result := { RowsAffected : nat; Rows : list Row }.

Definition emptyResult : Result := {| RowsAffected := 0; Rows := [] |}.

(** A Go [(value, error)] pair whose value is only meaningful without an
    error. *)
Inductive outcome (A : Type) :=
  | Ok (a : A)
  | Err (e : vterror).
Arguments Ok {A} a.
Arguments Err {A} e.

(** The text of the sentinel [schema.ErrOnlineDDLDisabled]. *)
Definition ErrOnlineDDLDisabled : string := "online DDL is disabled".
(** [errors.New("migration not found")]: an error without a code of its
    own, which [vterrors.Code] reports as UNKNOWN. *)
Definition ErrMigrationNotFound : vterror :=
  Errorf Code_UNKNOWN "migration not found".

(** [vterrors.Wrapf] keeps the code of the wrapped error. *)
Definition Wrapf (err : vterror) (msg : string) : vterror :=
  Errorf (ErrCode err) (msg +:+ ": " +:+ ErrMsg err).

(** Column updates ([SET column = v]). *)
Definition set_migration_status (v : OnlineDDLStatus) (r : Row) : Row :=
  {|
    migration_uuid := migration_uuid r;
    mysql_table := mysql_table r;
    migration_statement := migration_statement r;
    strategy_options := strategy_options r;
    migration_context := migration_context r;
    migration_status := v;
    tablet := tablet r;
    retries := retries r;
    postpone_launch := postpone_launch r;
    postpone_completion := postpone_completion r;
    ready_to_complete := ready_to_complete r;
    was_ready_to_complete := was_ready_to_complete r;
    is_immediate_operation := is_immediate_operation r;
    force_cutover := force_cutover r;
    cancelled_timestamp := cancelled_timestamp r;
    reviewed_timestamp := reviewed_timestamp r;
    cutover_threshold_seconds := cutover_threshold_seconds r;
    retain_artifacts_seconds := retain_artifacts_seconds r;
    message := message r
  |}.
Definition set_tablet (v : string) (r : Row) : Row :=
  {|
    migration_uuid := migration_uuid r;
    mysql_table := mysql_table r;
    migration_statement := migration_statement r;
    strategy_options := strategy_options r;
    migration_context := migration_context r;
    migration_status := migration_status r;
    tablet := v;
    retries := retries r;
    postpone_launch := postpone_launch r;
    postpone_completion := postpone_completion r;
    ready_to_complete := ready_to_complete r;
    was_ready_to_complete := was_ready_to_complete r;
    is_immediate_operation := is_immediate_operation r;
    force_cutover := force_cutover r;
    cancelled_timestamp := cancelled_timestamp r;
    reviewed_timestamp := reviewed_timestamp r;
    cutover_threshold_seconds := cutover_threshold_seconds r;
    retain_artifacts_seconds := retain_artifacts_seconds r;
    message := message r
  |}.
Definition set_retries (v : Z) (r : Row) : Row :=
  {|
    migration_uuid := migration_uuid r;
    mysql_table := mysql_table r;
    migration_statement := migration_statement r;
    strategy_options := strategy_options r;
    migration_context := migration_context r;
    migration_status := migration_status r;
    tablet := tablet r;
    retries := v;
    postpone_launch := postpone_launch r;
    postpone_completion := postpone_completion r;
    ready_to_complete := ready_to_complete r;
    was_ready_to_complete := was_ready_to_complete r;
    is_immediate_operation := is_immediate_operation r;
    force_cutover := force_cutover r;
    cancelled_timestamp := cancelled_timestamp r;
    reviewed_timestamp := reviewed_timestamp r;
    cutover_threshold_seconds := cutover_threshold_seconds r;
    retain_artifacts_seconds := retain_artifacts_seconds r;
    message := message r
  |}.
Definition set_postpone_launch (v : bool) (r : Row) : Row :=
  {|
    migration_uuid := migration_uuid r;
    mysql_table := mysql_table r;
    migration_statement := migration_statement r;
    strategy_options := strategy_options r;
    migration_context := migration_context r;
    migration_status := migration_status r;
    tablet := tablet r;
    retries := retries r;
    postpone_launch := v;
    postpone_completion := postpone_completion r;
    ready_to_complete := ready_to_complete r;
    was_ready_to_complete := was_ready_to_complete r;
    is_immediate_operation := is_immediate_operation r;
    force_cutover := force_cutover r;
    cancelled_timestamp := cancelled_timestamp r;
    reviewed_timestamp := reviewed_timestamp r;
    cutover_threshold_seconds := cutover_threshold_seconds r;
    retain_artifacts_seconds := retain_artifacts_seconds r;
    message := message r
  |}.
Definition set_postpone_completion (v : bool) (r : Row) : Row :=
  {|
    migration_uuid := migration_uuid r;
    mysql_table := mysql_table r;
    migration_statement := migration_statement r;
    strategy_options := strategy_options r;
    migration_context := migration_context r;
    migration_status := migration_status r;
    tablet := tablet r;
    retries := retries r;
    postpone_launch := postpone_launch r;
    postpone_completion := v;
    ready_to_complete := ready_to_complete r;
    was_ready_to_complete := was_ready_to_complete r;
    is_immediate_operation := is_immediate_operation r;
    force_cutover := force_cutover r;
    cancelled_timestamp := cancelled_timestamp r;
    reviewed_timestamp := reviewed_timestamp r;
    cutover_threshold_seconds := cutover_threshold_seconds r;
    retain_artifacts_seconds := retain_artifacts_seconds r;
    message := message r
  |}.
Definition set_ready_to_complete (v : bool) (r : Row) : Row :=
  {|
    migration_uuid := migration_uuid r;
    mysql_table := mysql_table r;
    migration_statement := migration_statement r;
    strategy_options := strategy_options r;
    migration_context := migration_context r;
    migration_status := migration_status r;
    tablet := tablet r;
    retries := retries r;
    postpone_launch := postpone_launch r;
    postpone_completion := postpone_completion r;
    ready_to_complete := v;
    was_ready_to_complete := was_ready_to_complete r;
    is_immediate_operation := is_immediate_operation r;
    force_cutover := force_cutover r;
    cancelled_timestamp := cancelled_timestamp r;
    reviewed_timestamp := reviewed_timestamp r;
    cutover_threshold_seconds := cutover_threshold_seconds r;
    retain_artifacts_seconds := retain_artifacts_seconds r;
    message := message r
  |}.
Definition set_was_ready_to_complete (v : bool) (r : Row) : Row :=
  {|
    migration_uuid := migration_uuid r;
    mysql_table := mysql_table r;
    migration_statement := migration_statement r;
    strategy_options := strategy_options r;
    migration_context := migration_context r;
    migration_status := migration_status r;
    tablet := tablet r;
    retries := retries r;
    postpone_launch := postpone_launch r;
    postpone_completion := postpone_completion r;
    ready_to_complete := ready_to_complete r;
    was_ready_to_complete := v;
    is_immediate_operation := is_immediate_operation r;
    force_cutover := force_cutover r;
    cancelled_timestamp := cancelled_timestamp r;
    reviewed_timestamp := reviewed_timestamp r;
    cutover_threshold_seconds := cutover_threshold_seconds r;
    retain_artifacts_seconds := retain_artifacts_seconds r;
    message := message r
  |}.
Definition set_force_cutover (v : bool) (r : Row) : Row :=
  {|
    migration_uuid := migration_uuid r;
    mysql_table := mysql_table r;
    migration_statement := migration_statement r;
    strategy_options := strategy_options r;
    migration_context := migration_context r;
    migration_status := migration_status r;
    tablet := tablet r;
    retries := retries r;
    postpone_launch := postpone_launch r;
    postpone_completion := postpone_completion r;
    ready_to_complete := ready_to_complete r;
    was_ready_to_complete := was_ready_to_complete r;
    is_immediate_operation := is_immediate_operation r;
    force_cutover := v;
    cancelled_timestamp := cancelled_timestamp r;
    reviewed_timestamp := reviewed_timestamp r;
    cutover_threshold_seconds := cutover_threshold_seconds r;
    retain_artifacts_seconds := retain_artifacts_seconds r;
    message := message r
  |}.
Definition set_cancelled_timestamp (v : option Z) (r : Row) : Row :=
  {|
    migration_uuid := migration_uuid r;
    mysql_table := mysql_table r;
    migration_statement := migration_statement r;
    strategy_options := strategy_options r;
    migration_context := migration_context r;
    migration_status := migration_status r;
    tablet := tablet r;
    retries := retries r;
    postpone_launch := postpone_launch r;
    postpone_completion := postpone_completion r;
    ready_to_complete := ready_to_complete r;
    was_ready_to_complete := was_ready_to_complete r;
    is_immediate_operation := is_immediate_operation r;
    force_cutover := force_cutover r;
    cancelled_timestamp := v;
    reviewed_timestamp := reviewed_timestamp r;
    cutover_threshold_seconds := cutover_threshold_seconds r;
    retain_artifacts_seconds := retain_artifacts_seconds r;
    message := message r
  |}.

Definition set_reviewed_timestamp (v : option Z) (r : Row) : Row :=
  {|
    migration_uuid := migration_uuid r;
    mysql_table := mysql_table r;
    migration_statement := migration_statement r;
    strategy_options := strategy_options r;
    migration_context := migration_context r;
    migration_status := migration_status r;
    tablet := tablet r;
    retries := retries r;
    postpone_launch := postpone_launch r;
    postpone_completion := postpone_completion r;
    ready_to_complete := ready_to_complete r;
    was_ready_to_complete := was_ready_to_complete r;
    is_immediate_operation := is_immediate_operation r;
    force_cutover := force_cutover r;
    cancelled_timestamp := cancelled_timestamp r;
    reviewed_timestamp := v;
    cutover_threshold_seconds := cutover_threshold_seconds r;
    retain_artifacts_seconds := retain_artifacts_seconds r;
    message := message r
  |}.
Definition set_cutover_threshold_seconds (v : Z) (r : Row) : Row :=
  {|
    migration_uuid := migration_uuid r;
    mysql_table := mysql_table r;
    migration_statement := migration_statement r;
    strategy_options := strategy_options r;
    migration_context := migration_context r;
    migration_status := migration_status r;
    tablet := tablet r;
    retries := retries r;
    postpone_launch := postpone_launch r;
    postpone_completion := postpone_completion r;
    ready_to_complete := ready_to_complete r;
    was_ready_to_complete := was_ready_to_complete r;
    is_immediate_operation := is_immediate_operation r;
    force_cutover := force_cutover r;
    cancelled_timestamp := cancelled_timestamp r;
    reviewed_timestamp := reviewed_timestamp r;
    cutover_threshold_seconds := v;
    retain_artifacts_seconds := retain_artifacts_seconds r;
    message := message r
  |}.
Definition set_retain_artifacts_seconds (v : Z) (r : Row) : Row :=
  {|
    migration_uuid := migration_uuid r;
    mysql_table := mysql_table r;
    migration_statement := migration_statement r;
    strategy_options := strategy_options r;
    migration_context := migration_context r;
    migration_status := migration_status r;
    tablet := tablet r;
    retries := retries r;
    postpone_launch := postpone_launch r;
    postpone_completion := postpone_completion r;
    ready_to_complete := ready_to_complete r;
    was_ready_to_complete := was_ready_to_complete r;
    is_immediate_operation := is_immediate_operation r;
    force_cutover := force_cutover r;
    cancelled_timestamp := cancelled_timestamp r;
    reviewed_timestamp := reviewed_timestamp r;
    cutover_threshold_seconds := cutover_threshold_seconds r;
    retain_artifacts_seconds := v;
    message := message r
  |}.
Definition set_message (v : string) (r : Row) : Row :=
  {|
    migration_uuid := migration_uuid r;
    mysql_table := mysql_table r;
    migration_statement := migration_statement r;
    strategy_options := strategy_options r;
    migration_context := migration_context r;
    migration_status := migration_status r;
    tablet := tablet r;
    retries := retries r;
    postpone_launch := postpone_launch r;
    postpone_completion := postpone_completion r;
    ready_to_complete := ready_to_complete r;
    was_ready_to_complete := was_ready_to_complete r;
    is_immediate_operation := is_immediate_operation r;
    force_cutover := force_cutover r;
    cancelled_timestamp := cancelled_timestamp r;
    reviewed_timestamp := reviewed_timestamp r;
    cutover_threshold_seconds := cutover_threshold_seconds r;
    retain_artifacts_seconds := retain_artifacts_seconds r;
    message := v
  |}.

(** Stores into the fields of a shared [*schema.OnlineDDL]. *)
Definition store_ReadyToComplete (v : Z) (o : OnlineDDL) : OnlineDDL :=
  {|
    UUID := UUID o;
    Table := Table o;
    SQL := SQL o;
    StrategySetting := StrategySetting o;
    Status := Status o;
    Retries := Retries o;
    ReadyToComplete := v;
    WasReadyToComplete := WasReadyToComplete o;
    TabletAlias := TabletAlias o;
    MigrationContext := MigrationContext o;
    CutOverThreshold := CutOverThreshold o
  |}.
Definition store_SQL (v : MigrationStatement) (o : OnlineDDL) : OnlineDDL :=
  {|
    UUID := UUID o;
    Table := Table o;
    SQL := v;
    StrategySetting := StrategySetting o;
    Status := Status o;
    Retries := Retries o;
    ReadyToComplete := ReadyToComplete o;
    WasReadyToComplete := WasReadyToComplete o;
    TabletAlias := TabletAlias o;
    MigrationContext := MigrationContext o;
    CutOverThreshold := CutOverThreshold o
  |}.
Definition store_WasReadyToComplete (v : Z) (o : OnlineDDL) : OnlineDDL :=
  {|
    UUID := UUID o;
    Table := Table o;
    SQL := SQL o;
    StrategySetting := StrategySetting o;
    Status := Status o;
    Retries := Retries o;
    ReadyToComplete := ReadyToComplete o;
    WasReadyToComplete := v;
    TabletAlias := TabletAlias o;
    MigrationContext := MigrationContext o;
    CutOverThreshold := CutOverThreshold o
  |}.

(** ** The executor *)

(** Modelled from the spec: the lag throttler is an external collaborator
    with app-scoped throttle control; the executor uses its open check and
    the set of throttled apps. *)
Record Throttler := {
  throttlerIsOpen : bool;
  throttledApps : gset string;
}.

(** The [Executor] struct together with the collaborators it mutates: the
    [schema_migrations] table behind [execQuery] (rows in [id] order), the
    database clock [NOW()] and the lag throttler.  Mutexes, the connection
    pool and the tick timer carry no state the properties depend on. *)
Record Executor := {
  isOpen : Z;
  EnableOnlineDDL : bool;
  reviewedRunningMigrationsFlag : bool;
  ownedRunningMigrations : gmap string OnlineDDL;
  tabletAlias : string;
  shard : string;
  lagThrottler : Throttler;
  schema_migrations : list Row;
  now : Z;
}.
Definition with_isOpen (v : Z) (e : Executor) : Executor :=
  {|
    isOpen := v;
    EnableOnlineDDL := EnableOnlineDDL e;
    reviewedRunningMigrationsFlag := reviewedRunningMigrationsFlag e;
    ownedRunningMigrations := ownedRunningMigrations e;
    tabletAlias := tabletAlias e;
    shard := shard e;
    lagThrottler := lagThrottler e;
    schema_migrations := schema_migrations e;
    now := now e
  |}.
Definition with_reviewedRunningMigrationsFlag (v : bool) (e : Executor) : Executor :=
  {|
    isOpen := isOpen e;
    EnableOnlineDDL := EnableOnlineDDL e;
    reviewedRunningMigrationsFlag := v;
    ownedRunningMigrations := ownedRunningMigrations e;
    tabletAlias := tabletAlias e;
    shard := shard e;
    lagThrottler := lagThrottler e;
    schema_migrations := schema_migrations e;
    now := now e
  |}.
Definition with_ownedRunningMigrations (v : gmap string OnlineDDL) (e : Executor) : Executor :=
  {|
    isOpen := isOpen e;
    EnableOnlineDDL := EnableOnlineDDL e;
    reviewedRunningMigrationsFlag := reviewedRunningMigrationsFlag e;
    ownedRunningMigrations := v;
    tabletAlias := tabletAlias e;
    shard := shard e;
    lagThrottler := lagThrottler e;
    schema_migrations := schema_migrations e;
    now := now e
  |}.
Definition with_lagThrottler (v : Throttler) (e : Executor) : Executor :=
  {|
    isOpen := isOpen e;
    EnableOnlineDDL := EnableOnlineDDL e;
    reviewedRunningMigrationsFlag := reviewedRunningMigrationsFlag e;
    ownedRunningMigrations := ownedRunningMigrations e;
    tabletAlias := tabletAlias e;
    shard := shard e;
    lagThrottler := v;
    schema_migrations := schema_migrations e;
    now := now e
  |}.
Definition with_schema_migrations (v : list Row) (e : Executor) : Executor :=
  {|
    isOpen := isOpen e;
    EnableOnlineDDL := EnableOnlineDDL e;
    reviewedRunningMigrationsFlag := reviewedRunningMigrationsFlag e;
    ownedRunningMigrations := ownedRunningMigrations e;
    tabletAlias := tabletAlias e;
    shard := shard e;
    lagThrottler := lagThrottler e;
    schema_migrations := v;
    now := now e
  |}.

(** ** The statements run against [schema_migrations]

    The SQL templates ([sqlSelectPendingMigrations], [sqlRetryMigration],
    ...) are declared next to the executor, outside the sources at hand.
    Each one is given here by its effect on the table, as the executor's
    comments and the specification describe it.  The executor's MySQL
    client reports as [RowsAffected] the rows matched by [WHERE]. *)

Definition uuid_is (uuid : string) (r : Row) : bool :=
  bool_decide (migration_uuid r = uuid).

(** [UPDATE schema_migrations SET ... WHERE cond]. *)
Definition sqlUpdate (cond : Row → bool) (f : Row → Row) (e : Executor)
  : Executor * Result :=
  (with_schema_migrations
     ((λ r, if cond r then f r else r) <$> schema_migrations e) e,
   {| RowsAffected := length (filter (λ r, cond r = true) (schema_migrations e));
      Rows := [] |}).

(** [SELECT ... WHERE cond ORDER BY id]. *)
Definition sqlSelect (cond : Row → bool) (e : Executor) : Result :=
  {| RowsAffected := 0;
     Rows := filter (λ r, cond r = true) (schema_migrations e) |}.

(** Modelled from the spec: pending migrations are those in a non-terminal
    status (queued, ready or running). *)
Definition sqlSelectPendingMigrations (e : Executor) : Result :=
  sqlSelect (λ r, negb (is_terminal (migration_status r))) e.

(** Modelled from the spec: the scheduler works on the queued rows that
    have been reviewed ([reviewQueuedMigration]: "it sets
    `reviewed_timestamp` which then allows the state machine to schedule
    the migration"). *)
Definition sqlSelectQueuedMigrations (e : Executor) : Result :=
  sqlSelect
    (λ r, bool_decide (migration_status r = OnlineDDLStatusQueued)
          && bool_decide (reviewed_timestamp r ≠ None)) e.

(** Modelled from the spec: "For each `reviewed_timestamp IS NULL` row",
    among the queued ones. *)
Definition sqlSelectQueuedUnreviewedMigrations (e : Executor) : Result :=
  sqlSelect
    (λ r, bool_decide (migration_status r = OnlineDDLStatusQueued)
          && bool_decide (reviewed_timestamp r = None)) e.

(** Modelled from the spec: the runner picks among the ready rows. *)
Definition sqlSelectReadyMigrations (e : Executor) : Result :=
  sqlSelect (λ r, bool_decide (migration_status r = OnlineDDLStatusReady)) e.

Definition sqlSelectMigration (uuid : string) (e : Executor) : Result :=
  sqlSelect (uuid_is uuid) e.

(** The rows before the one of the given UUID (those of lower [id]). *)
Fixpoint rows_before (uuid : string) (t : list Row) : list Row :=
  match t with
  | [] => []
  | r :: t' => if uuid_is uuid r then [] else r :: rows_before uuid t'
  end.

(** Modelled from the spec: the failed or cancelled migrations of the
    given context that precede the given migration. *)
Definition sqlSelectFailedCancelledMigrationsInContextBeforeMigration
    (context uuid : string) (e : Executor) : Result :=
  {| RowsAffected := 0;
     Rows := filter
       (λ r, bool_decide (migration_context r = context)
             && (bool_decide (migration_status r = OnlineDDLStatusFailed)
                 || bool_decide (migration_status r = OnlineDDLStatusCancelled))
             = true)
       (rows_before uuid (schema_migrations e)) |}.

Definition sqlUpdateMigrationStatus
    (status : OnlineDDLStatus) (uuid : string) (e : Executor) :=
  sqlUpdate (uuid_is uuid) (set_migration_status status) e.

(** Modelled from the spec: the row is marked failed or cancelled, based
    on [cancelled_timestamp]. *)
Definition sqlUpdateMigrationStatusFailedOrCancelled
    (uuid : string) (e : Executor) :=
  sqlUpdate (uuid_is uuid)
    (λ r, set_migration_status
            (match cancelled_timestamp r with
             | None => OnlineDDLStatusFailed
             | Some _ => OnlineDDLStatusCancelled
             end) r) e.

Definition sqlUpdateMessage (message uuid : string) (e : Executor) :=
  sqlUpdate (uuid_is uuid) (set_message message) e.

(** Modelled from the spec: [ready_to_complete] tracks the instantaneous
    condition; [was_ready_to_complete] is set once and never cleared. *)
Definition sqlSetMigrationReadyToComplete (uuid : string) (e : Executor) :=
  sqlUpdate (uuid_is uuid)
    (λ r, set_was_ready_to_complete true (set_ready_to_complete true r)) e.

Definition sqlClearMigrationReadyToComplete (uuid : string) (e : Executor) :=
  sqlUpdate (uuid_is uuid) (set_ready_to_complete false) e.

(** Modelled from the spec: retry takes a failed or cancelled migration
    back to queued; the statement binds the tablet alias and the UUID, and
    [retries] counts the attempts. *)
Definition sqlRetryMigration (tabletAlias uuid : string) (e : Executor) :=
  sqlUpdate
    (λ r, uuid_is uuid r
          && (bool_decide (migration_status r = OnlineDDLStatusFailed)
              || bool_decide (migration_status r = OnlineDDLStatusCancelled)))
    (λ r, set_migration_status OnlineDDLStatusQueued
            (set_tablet tabletAlias (set_retries (retries r + 1) r))) e.

(** [CleanupMigration]: "set retain_artifacts_seconds to a very small
    number (it's actually a negative)". *)
Definition sqlUpdateReadyForCleanup (uuid : string) (e : Executor) :=
  sqlUpdate (uuid_is uuid) (set_retain_artifacts_seconds (-1)) e.

Definition sqlUpdateForceCutOver (uuid : string) (e : Executor) :=
  sqlUpdate (uuid_is uuid) (set_force_cutover true) e.

Definition sqlUpdateCutOverThresholdSeconds
    (seconds : Z) (uuid : string) (e : Executor) :=
  sqlUpdate (uuid_is uuid) (set_cutover_threshold_seconds seconds) e.

Definition sqlClearPostponeCompletion (uuid : string) (e : Executor) :=
  sqlUpdate (uuid_is uuid) (set_postpone_completion false) e.

Definition sqlUpdateLaunchMigration (uuid : string) (e : Executor) :=
  sqlUpdate (uuid_is uuid) (set_postpone_launch false) e.

(** [sqlUpdateMigrationTimestamp] sets the named column to [NOW()].  Of the
    timestamp columns [cancelled_timestamp] and [reviewed_timestamp] are
    part of [Row]. *)
Definition sqlUpdateMigrationTimestamp
    (timestampColumn uuid : string) (e : Executor) :=
  if bool_decide (timestampColumn = "cancelled_timestamp") then
    sqlUpdate (uuid_is uuid) (set_cancelled_timestamp (Some (now e))) e
  else if bool_decide (timestampColumn = "reviewed_timestamp") then
    sqlUpdate (uuid_is uuid) (set_reviewed_timestamp (Some (now e))) e
  else
    sqlUpdate (uuid_is uuid) (λ r, r) e.

(** Modelled from the spec: a UUID appears at most once in the table; the
    insertion of a UUID that is present adds no row. *)
Definition sqlInsertMigration (row : Row) (e : Executor) : Executor * Result :=
  if bool_decide (Exists (λ r, migration_uuid r = migration_uuid row)
                         (schema_migrations e))
  then (e, {| RowsAffected := 0; Rows := [] |})
  else (with_schema_migrations (schema_migrations e ++ [row]) e,
        {| RowsAffected := 1; Rows := [] |}).

(** The statements the executor runs with their errors discarded
    ([_ = ...]): in [failMigration], [updateMigrationStatusFailedOrCancelled]
    and [updateMigrationMessage]; in [executeMigration], for a duplicate
    of a complete migration, [onSchemaMigrationStatus] and
    [updateMigrationMessage]. *)
Inductive DiscardedStatement :=
  | StatusFailedOrCancelled
  | MessageOfFailure
  | StatusOfDuplicate
  | MessageOfDuplicate.

(** The calls by which the strategy handlers ([executeDropDDLActionMigration],
    [executeCreateDDLActionMigration], [executeAlterDDLActionMigration],
    [executeRevert], with the cut-over and [executeDirectly]) and the
    loop of [reviewRunningMigrations] change the table and the ownership
    map: they write [migration_status] through [onSchemaMigrationStatus]
    and [failMigration] only. *)
Inductive Call :=
  (** [onSchemaMigrationStatus(ctx, uuid, schema.OnlineDDLStatusRunning,
      false, progressPctStarted, etaSecondsUnknown, rowsCopiedUnknown,
      emptyHint)] *)
  | CallReportRunning (uuid : string)
  (** [onSchemaMigrationStatus(ctx, uuid, schema.OnlineDDLStatusComplete,
      false, progressPctFull, etaSecondsNow, rowsCopied, emptyHint)] *)
  | CallReportComplete (uuid : string) (rowsCopied : Z)
  (** [failMigration(ctx, onlineDDL, err)] *)
  | CallFailMigration (onlineDDL : OnlineDDL) (withError : option string)
  (** [updateMigrationReadyToComplete(ctx, uuid, isReady)] *)
  | CallUpdateMigrationReadyToComplete (uuid : string) (isReady : bool)
  (** a statement that sets, in the row of the UUID, columns other than
      the UUID and the status: [updateMigrationMessage],
      [updateMigrationTablet], [updateDDLAction], [updateArtifacts], ... *)
  | CallUpdateColumns (uuid : string) (columns : Row → Row)
  (** [ownedRunningMigrations.Store(uuid, onlineDDL)] and
      [ownedRunningMigrations.Delete(uuid)] *)
  | CallStore (onlineDDL : OnlineDDL)
  | CallDelete (uuid : string).

(** What [reviewQueuedMigration] does between [readMigration] and the
    stamp of the review. *)
Inductive Review :=
  (** [reviewEmptyTableRevertMigrations] fails the migration itself, by
      [failMigration(ctx, onlineDDL, err)], and returns that error *)
  | ReviewFailed (err : vterror)
  (** the columns backfilled in the row ([mysql_table],
      [is_immediate_operation], and columns that are not part of [Row]),
      and the error the review stopped on *)
  | ReviewBackfilled (columns : Row → Row) (err : option vterror).

(** ** Collaborators

    Code the executor calls but does not define: the UUID syntax check and
    text utilities, the replication runtime, the database where the
    executor discards its answer, and a flag.  The bodies of the strategy
    handlers, of the loop of [reviewRunningMigrations] and of the checks of
    [reviewQueuedMigration] are given by what they do to the table and the
    ownership map. *)
Record Collaborators := {
  IsOnlineDDLUUID : string → bool;
  SplitDelimitedList : string → list string;
  ParseDuration : string → option Duration;
  ToValidUTF8 : string → string;
  (** [readVReplStream]: is there a stream for the UUID, and is it running *)
  vreplStreamIsRunning : Executor → string → bool;
  (** [terminateVReplMigration]: the error, if any *)
  terminateVReplMigration : Executor → string → option vterror;
  (** the database: whether it carries out a statement whose error the
      executor discards, for the given UUID in the given state; when it
      does not, the row is left as it was *)
  discarded_statement_applies :
    Executor → DiscardedStatement → string → bool;
  (** the flag [retain_online_ddl_tables], which sets the variable
      [retainOnlineDDLTables] (24 hours unless given) *)
  retainOnlineDDLTables : Duration;
  (** [executeMigration] past the check for a duplicate: the calls of the
      declarative block and of the handler of the action, as far as it
      runs before [executeMigration] returns (DROP and CREATE run in a
      goroutine of their own) *)
  executeMigration_calls : Executor → OnlineDDL → list Call;
  (** the calls of the loop of [reviewRunningMigrations], and the error it
      stopped on ([None]: it ran to its end) *)
  reviewRunningMigrations_calls : Executor → list Call * option vterror;
  (** [reviewQueuedMigration] between [readMigration] and the stamp *)
  reviewQueuedMigration_checks : Executor → string → Review;
  (** [ParseOnlineDDLStatement], [SetComments(sqlparser.Comments{})] and
      [sqlparser.String]: the statement without its query comments; the
      statement itself when it does not parse *)
  withoutComments : MigrationStatement → MigrationStatement;
}.

Section Executor.

Context (c : Collaborators).

(** *** Open and Close *)

Definition Open (e : Executor) : Executor :=
  if bool_decide (isOpen e > 0) || negb (EnableOnlineDDL e) then e
  else
    with_isOpen 1
      (with_ownedRunningMigrations ∅
         (with_reviewedRunningMigrationsFlag false e)).

Definition Close (e : Executor) : Executor :=
  if bool_decide (isOpen e = 0) then e else with_isOpen 0 e.

Definition matchesShards (commaDelimitedShards : string) (e : Executor)
  : bool :=
  let shards := SplitDelimitedList c commaDelimitedShards in
  if bool_decide (length shards = 0%nat) then true
  else bool_decide (shard e ∈ shards).

(** *** Concurrency of migrations *)

Definition countOwnedRunningMigrations (e : Executor) : nat :=
  size (ownedRunningMigrations e).

Definition allowConcurrentMigration (onlineDDL : OnlineDDL)
  : DDLAction * bool :=
  if negb (IsAllowConcurrent (StrategySetting onlineDDL)) then
    (DDLAction_zero, false)
  else
    let '(action, err) := GetAction (SQL onlineDDL) in
    match err with
    | Some _ => (action, false)
    | None =>
      match action with
      | CreateDDLAction | DropDDLAction => (action, true)
      | AlterDDLAction =>
        let strategy := Strategy (StrategySetting onlineDDL) in
        (action,
         bool_decide (strategy = DDLStrategyOnline)
         || bool_decide (strategy = DDLStrategyVitess))
      | RevertDDLAction => (action, true)
      end
    end.

Definition proposedMigrationConflictsWithRunningMigration
    (runningMigration proposedMigration : OnlineDDL) : bool :=
  if bool_decide (Table runningMigration = Table proposedMigration) then true
  else
    let '(_, isRunningMigrationAllowConcurrent) :=
      allowConcurrentMigration runningMigration in
    let '(proposedMigrationAction, isProposedMigrationAllowConcurrent) :=
      allowConcurrentMigration proposedMigration in
    if negb isRunningMigrationAllowConcurrent
       && negb isProposedMigrationAllowConcurrent then true
    else if bool_decide (proposedMigrationAction = AlterDDLAction)
            && bool_decide (WasReadyToComplete runningMigration = 0)
    then true
    else false.

(** [sync.Map.Range] visits the entries in no particular order; the order
    of [map_to_list] stands for it.  The first conflicting migration met
    is returned. *)
Definition isAnyConflictingMigrationRunning
    (onlineDDL : OnlineDDL) (e : Executor) : bool * option OnlineDDL :=
  let conflictingMigration :=
    snd <$> list_find
      (λ runningMigration,
         proposedMigrationConflictsWithRunningMigration
           runningMigration onlineDDL = true)
      ((map_to_list (ownedRunningMigrations e)).*2) in
  (bool_decide (conflictingMigration ≠ None), conflictingMigration).

(** *** Reading and updating rows *)

Definition onlineDDL_of_row (row : Row) : OnlineDDL :=
  {| UUID := migration_uuid row;
     Table := mysql_table row;
     SQL := migration_statement row;
     StrategySetting := strategy_options row;
     Status := migration_status row;
     Retries := retries row;
     ReadyToComplete := Z.b2z (ready_to_complete row);
     WasReadyToComplete := Z.b2z (was_ready_to_complete row);
     TabletAlias := tablet row;
     MigrationContext := migration_context row;
     CutOverThreshold :=
       fst (safeMigrationCutOverThreshold
              (Second * cutover_threshold_seconds row)) |}.

(** [r.Named().Row()] is the row of a result with exactly one row. *)
Definition readMigration (uuid : string) (e : Executor)
  : outcome (OnlineDDL * Row) :=
  match Rows (sqlSelectMigration uuid e) with
  | [row] => Ok (onlineDDL_of_row row, row)
  | _ => Err ErrMigrationNotFound
  end.

Definition readPendingMigrationsUUIDs (e : Executor) : list string :=
  migration_uuid <$> Rows (sqlSelectPendingMigrations e).

Definition updateMigrationTimestamp
    (timestampColumn uuid : string) (e : Executor) : Executor :=
  fst (sqlUpdateMigrationTimestamp timestampColumn uuid e).

Definition updateMigrationStatusFailedOrCancelled
    (uuid : string) (e : Executor) : Executor :=
  fst (sqlUpdateMigrationStatusFailedOrCancelled uuid e).

Definition updateMigrationStatus
    (uuid : string) (status : OnlineDDLStatus) (e : Executor) : Executor :=
  fst (sqlUpdateMigrationStatus status uuid e).

(** [message[0:n]]. *)
Fixpoint string_take (n : Z) (s : string) : string :=
  match s with
  | String a s' =>
    if bool_decide (0 < n) then String a (string_take (n - 1) s') else ""
  | EmptyString => ""
  end.

(** The text the [update] closure of [updateMigrationMessage] binds. *)
Definition boundMessage (message : string) : string :=
  let maxlen := 16383 in
  let message :=
    if bool_decide (Z.of_nat (String.length message) > maxlen)
    then string_take maxlen message else message in
  ToValidUTF8 c message.

Definition updateMigrationMessage
    (uuid message : string) (e : Executor) : Executor :=
  fst (sqlUpdateMessage (boundMessage message) uuid e).

Definition updateMigrationReadyToComplete
    (uuid : string) (isReady : bool) (e : Executor) : Executor :=
  let e :=
    if isReady then fst (sqlSetMigrationReadyToComplete uuid e)
    else fst (sqlClearMigrationReadyToComplete uuid e) in
  with_ownedRunningMigrations
    (alter (λ runningMigration,
              let storeValue := if isReady then 1 else 0 in
              store_ReadyToComplete storeValue
                (if isReady then store_WasReadyToComplete 1 runningMigration
                 else runningMigration))
           uuid (ownedRunningMigrations e)) e.

(** [failMigration]; [withError] is the text of the error, [None] for
    [nil].  The errors of the two updates are discarded ([_ = ...]): an
    update the database does not carry out leaves the row as it was, and
    the function goes on. *)
Definition failMigration
    (onlineDDL : OnlineDDL) (withError : option string) (e : Executor)
  : Executor :=
  let e :=
    if discarded_statement_applies c e StatusFailedOrCancelled (UUID onlineDDL)
    then updateMigrationStatusFailedOrCancelled (UUID onlineDDL) e
    else e in
  let e :=
    match withError with
    | Some msg =>
      if discarded_statement_applies c e MessageOfFailure (UUID onlineDDL)
      then updateMigrationMessage (UUID onlineDDL) msg e
      else e
    | None => e
    end in
  with_ownedRunningMigrations
    (delete (UUID onlineDDL) (ownedRunningMigrations e)) e.

(** *** Cancellation *)

(** [terminateMigration]: the result, and the deferred removal from the
    ownership map. *)
Definition terminateMigration (onlineDDL : OnlineDDL) (e : Executor)
  : Executor * (bool * option vterror) :=
  let strategy := Strategy (StrategySetting onlineDDL) in
  let result :=
    if bool_decide (strategy = DDLStrategyOnline)
       || bool_decide (strategy = DDLStrategyVitess)
    then
      let foundRunning := vreplStreamIsRunning c e (UUID onlineDDL) in
      match terminateVReplMigration c e (UUID onlineDDL) with
      | Some _ =>
        (foundRunning,
         Some (Errorf Code_UNKNOWN
           "Error terminating migration, vreplication exec error: %+v"))
      | None => (foundRunning, None)
      end
    else (false, None) in
  (with_ownedRunningMigrations
     (delete (UUID onlineDDL) (ownedRunningMigrations e)) e,
   result).

(** The closed-executor error every entry point of the API returns. *)
Definition errOnlineDDLDisabled : vterror :=
  Errorf Code_FAILED_PRECONDITION ErrOnlineDDLDisabled.

Definition CancelMigration
    (uuid message : string) (issuedByUser : bool) (e : Executor)
  : Executor * outcome Result :=
  if bool_decide (isOpen e = 0) then (e, Err errOnlineDDLDisabled)
  else
    match readMigration uuid e with
    | Err err => (e, Err err)
    | Ok (onlineDDL, _) =>
      match Status onlineDDL with
      | OnlineDDLStatusComplete | OnlineDDLStatusFailed
      | OnlineDDLStatusCancelled => (e, Ok emptyResult)
      | status =>
        (* From this point on, we're actually cancelling a migration *)
        let e :=
          if issuedByUser
          then updateMigrationTimestamp "cancelled_timestamp" uuid e
          else e in
        (* [defer e.failMigration(...)] runs when the function returns *)
        match status with
        | OnlineDDLStatusQueued | OnlineDDLStatusReady =>
          (failMigration onlineDDL (Some message) e,
           Ok {| RowsAffected := 1; Rows := [] |})
        | _ =>
          let '(e, (migrationFound, err)) := terminateMigration onlineDDL e in
          let rowsAffected := if migrationFound then 1%nat else 0%nat in
          (failMigration onlineDDL (Some message) e,
           match err with
           | Some err => Err err
           | None => Ok {| RowsAffected := rowsAffected; Rows := [] |}
           end)
        end
      end
    end.

(** *** Throttling *)

(** Modelled from the spec: [CheckIsOpen] and [UnthrottleApp] belong to the
    lag throttler; unthrottling removes the app from the throttled ones. *)
Definition CheckIsOpen (t : Throttler) : option vterror :=
  if throttlerIsOpen t then None
  else Some (Errorf Code_UNKNOWN "throttler not open").

Definition UnthrottleApp (appName : string) (t : Throttler) : Throttler :=
  {| throttlerIsOpen := throttlerIsOpen t;
     throttledApps := throttledApps t ∖ {[appName]} |}.

Definition UnthrottleMigration (uuid : string) (e : Executor)
  : Executor * outcome Result :=
  match CheckIsOpen (lagThrottler e) with
  | Some err => (e, Err err)
  | None =>
    (with_lagThrottler (UnthrottleApp uuid (lagThrottler e)) e,
     Ok emptyResult)
  end.

(** *** The scheduler *)

(** The loop of [scheduleNextMigration] over the rows the query returned;
    [scheduled] is the state of [onlyScheduleOneMigration] ([sync.Once]). *)
Fixpoint scheduleNextMigration_loop
    (rows : list Row) (scheduled : bool) (e : Executor) : Executor :=
  match rows with
  | [] => e
  | row :: rows =>
    let uuid := migration_uuid row in
    let postponeLaunch := postpone_launch row in
    let postponeCompletion := postpone_completion row in
    let readyToComplete := ready_to_complete row in
    let isImmediateOperation := is_immediate_operation row in
    if postponeLaunch then scheduleNextMigration_loop rows scheduled e
    else
      let e :=
        if negb readyToComplete && isImmediateOperation
        then updateMigrationReadyToComplete uuid true e
        else e in
      if negb (isImmediateOperation && postponeCompletion) then
        let e :=
          if scheduled then e
          else updateMigrationStatus uuid OnlineDDLStatusReady e in
        scheduleNextMigration_loop rows true e
      else scheduleNextMigration_loop rows scheduled e
  end.

Definition scheduleNextMigration (e : Executor) : Executor :=
  scheduleNextMigration_loop (Rows (sqlSelectQueuedMigrations e)) false e.

(** *** The runner *)

Definition readFailedCancelledMigrationsInContextBeforeMigration
    (onlineDDL : OnlineDDL) (e : Executor) : list string :=
  if bool_decide (MigrationContext onlineDDL = "") then []
  else
    migration_uuid <$>
      Rows (sqlSelectFailedCancelledMigrationsInContextBeforeMigration
              (MigrationContext onlineDDL) (UUID onlineDDL) e).

Definition validateInOrderMigration (onlineDDL : OnlineDDL) (e : Executor)
  : Executor * (bool * option vterror) :=
  if negb (IsInOrderCompletion (StrategySetting onlineDDL)) then
    (e, (false, None))
  else
    let uuids :=
      readFailedCancelledMigrationsInContextBeforeMigration onlineDDL e in
    if bool_decide (length uuids = 0%nat) then (e, (false, None))
    else
      let msg := "migration %v cannot run because prior migration %v in same context has failed/was cancelled" in
      (failMigration onlineDDL (Some msg) e,
       (true, Some (Errorf Code_UNKNOWN msg))).

Fixpoint getNonConflictingMigration_loop
    (pendingMigrationsUUIDs : list string) (rows : list Row) (e : Executor)
  : Executor * outcome (option OnlineDDL) :=
  match rows with
  | [] => (e, Ok None)
  | row :: rows =>
    let uuid := migration_uuid row in
    match readMigration uuid e with
    | Err err => (e, Err err)
    | Ok (onlineDDL, migrationRow) =>
      let isImmediateOperation := is_immediate_operation migrationRow in
      if fst (isAnyConflictingMigrationRunning onlineDDL e) then
        getNonConflictingMigration_loop pendingMigrationsUUIDs rows e
      else if bool_decide
                (maxConcurrentOnlineDDLs ≤ countOwnedRunningMigrations e)%nat
      then (e, Ok None)
      else if isImmediateOperation
              && IsInOrderCompletion (StrategySetting onlineDDL)
              && bool_decide (0 < length pendingMigrationsUUIDs)%nat
              && bool_decide (head pendingMigrationsUUIDs ≠ Some (UUID onlineDDL))
      then getNonConflictingMigration_loop pendingMigrationsUUIDs rows e
      else if IsInOrderCompletion (StrategySetting onlineDDL) then
        match validateInOrderMigration onlineDDL e with
        | (e, (_, Some err)) => (e, Err err)
        | (e, (true, None)) =>
          getNonConflictingMigration_loop pendingMigrationsUUIDs rows e
        | (e, (false, None)) => (e, Ok (Some onlineDDL))
        end
      else (e, Ok (Some onlineDDL))
    end
  end.

Definition getNonConflictingMigration (e : Executor)
  : Executor * outcome (option OnlineDDL) :=
  let pendingMigrationsUUIDs := readPendingMigrationsUUIDs e in
  getNonConflictingMigration_loop
    pendingMigrationsUUIDs (Rows (sqlSelectReadyMigrations e)) e.

(** *** Operations on one migration *)

Definition RetryMigration (uuid : string) (e : Executor)
  : Executor * outcome Result :=
  if bool_decide (isOpen e = 0) then (e, Err errOnlineDDLDisabled)
  else if negb (IsOnlineDDLUUID c uuid) then
    (e, Err (Errorf Code_UNKNOWN "Not a valid migration ID in RETRY: %s"))
  else
    let '(e, rs) := sqlRetryMigration (tabletAlias e) uuid e in
    (e, Ok rs).

Definition CleanupMigration (uuid : string) (e : Executor)
  : Executor * outcome Result :=
  if bool_decide (isOpen e = 0) then (e, Err errOnlineDDLDisabled)
  else if negb (IsOnlineDDLUUID c uuid) then
    (e, Err (Errorf Code_UNKNOWN "Not a valid migration ID in CLEANUP: %s"))
  else
    let '(e, rs) := sqlUpdateReadyForCleanup uuid e in
    (e, Ok rs).

Definition ForceCutOverMigration (uuid : string) (e : Executor)
  : Executor * outcome Result :=
  if bool_decide (isOpen e = 0) then (e, Err errOnlineDDLDisabled)
  else if negb (IsOnlineDDLUUID c uuid) then
    (e, Err (Errorf Code_UNKNOWN
               "Not a valid migration ID in FORCE_CUTOVER: %s"))
  else
    let '(e, rs) := sqlUpdateForceCutOver uuid e in
    (e, Ok rs).

Definition SetMigrationCutOverThreshold
    (uuid thresholdString : string) (e : Executor)
  : Executor * outcome Result :=
  if bool_decide (isOpen e = 0) then (e, Err errOnlineDDLDisabled)
  else if negb (IsOnlineDDLUUID c uuid) then
    (e, Err (Errorf Code_UNKNOWN
               "Not a valid migration ID in FORCE_CUTOVER: %s"))
  else
    match ParseDuration c thresholdString with
    | None =>
      (e, Err (Errorf Code_INVALID_ARGUMENT
                 "invalid cut-over threshold value: %s. Try '5s' to '30s'"))
    | Some threshold =>
      match safeMigrationCutOverThreshold threshold with
      | (_, Some err) => (e, Err err)
      | (threshold, None) =>
        let '(e, rs) :=
          sqlUpdateCutOverThresholdSeconds (Seconds threshold) uuid e in
        (e, Ok rs)
      end
    end.

Definition CompleteMigration (uuid shardsArg : string) (e : Executor)
  : Executor * outcome Result :=
  if bool_decide (isOpen e = 0) then (e, Err errOnlineDDLDisabled)
  else if negb (IsOnlineDDLUUID c uuid) then
    (e, Err (Errorf Code_UNKNOWN "Not a valid migration ID in COMPLETE: %s"))
  else if negb (matchesShards shardsArg e) then (e, Ok emptyResult)
  else
    let '(e, rs) := sqlClearPostponeCompletion uuid e in
    (e, Ok rs).

Definition LaunchMigration (uuid shardsArg : string) (e : Executor)
  : Executor * outcome Result :=
  if bool_decide (isOpen e = 0) then (e, Err errOnlineDDLDisabled)
  else if negb (IsOnlineDDLUUID c uuid) then
    (e, Err (Errorf Code_UNKNOWN "Not a valid migration ID in EXECUTE: %s"))
  else if negb (matchesShards shardsArg e) then (e, Ok emptyResult)
  else
    let '(e, rs) := sqlUpdateLaunchMigration uuid e in
    (e, Ok rs).

(** *** Submission *)

Definition submittedMigrationConflictsWithPendingMigrationInSingletonContext
    (submittedMigration pendingOnlineDDL : OnlineDDL) : bool :=
  if bool_decide (MigrationContext pendingOnlineDDL
                  = MigrationContext submittedMigration) then false
  else
    match GetRevertUUID (SQL pendingOnlineDDL) with
    | None => true
    | Some _ =>
      if negb (IsSingletonContext (StrategySetting pendingOnlineDDL))
      then false else true
    end.

(** The loops of the singleton gate over the pending rows: the first
    conflict found is the error returned. *)
Fixpoint singletonContext_loop
    (onlineDDL : OnlineDDL) (rows : list Row) (e : Executor)
  : option vterror :=
  match rows with
  | [] => None
  | row :: rows =>
    if bool_decide (MigrationContext onlineDDL = migration_context row) then
      singletonContext_loop onlineDDL rows e
    else
      let pendingUUID := migration_uuid row in
      match readMigration pendingUUID e with
      | Err err => Some (Wrapf err "validateSingleton() migration: %s")
      | Ok (pendingOnlineDDL, _) =>
        if submittedMigrationConflictsWithPendingMigrationInSingletonContext
             onlineDDL pendingOnlineDDL
        then Some (Errorf Code_FAILED_PRECONDITION
          "singleton-context migration rejected: found pending migration: %s in different context: %s")
        else singletonContext_loop onlineDDL rows e
      end
  end.

Fixpoint singletonTable_loop (onlineDDL : OnlineDDL) (rows : list Row)
  : option vterror :=
  match rows with
  | [] => None
  | row :: rows =>
    if bool_decide (Table onlineDDL = mysql_table row) then
      Some (Errorf Code_FAILED_PRECONDITION
        "singleton-table migration rejected: found pending migration: %s for the same table: %s")
    else singletonTable_loop onlineDDL rows
  end.

(** The anonymous function of [submitCallbackIfNonConflicting]. *)
Definition singletonGate (onlineDDL : OnlineDDL) (e : Executor)
  : option vterror :=
  let rows := Rows (sqlSelectPendingMigrations e) in
  let setting := StrategySetting onlineDDL in
  if IsSingleton setting then
    if bool_decide (0 < length rows)%nat then
      Some (Errorf Code_FAILED_PRECONDITION
        "singleton migration rejected: found pending migrations [sample: %s]")
    else None
  else if IsSingletonContext setting then
    singletonContext_loop onlineDDL rows e
  else if IsSingletonTable setting then
    singletonTable_loop onlineDDL rows
  else None.

Definition submitCallbackIfNonConflicting
    (onlineDDL : OnlineDDL)
    (callback : Executor → Executor * outcome Result)
    (e : Executor) : Executor * outcome Result :=
  let setting := StrategySetting onlineDDL in
  if negb (IsSingleton setting) && negb (IsSingletonContext setting)
     && negb (IsSingletonTable setting)
  then callback e
  else
    match singletonGate onlineDDL e with
    | Some err => (e, Err err)
    | None => callback e
    end.

(** The row [sqlInsertMigration] is bound to. *)
Definition submittedRow
    (onlineDDL : OnlineDDL) (retainArtifactsSeconds : Z)
    (cutoverThreshold : Duration) (e : Executor) : Row :=
  {| migration_uuid := UUID onlineDDL;
     mysql_table := Table onlineDDL;
     migration_statement := SQL onlineDDL;
     strategy_options := StrategySetting onlineDDL;
     migration_context := MigrationContext onlineDDL;
     migration_status := OnlineDDLStatusQueued;
     tablet := tabletAlias e;
     retries := 0;
     postpone_launch := IsPostponeLaunch (StrategySetting onlineDDL);
     postpone_completion := IsPostponeCompletion (StrategySetting onlineDDL);
     ready_to_complete := false;
     was_ready_to_complete := false;
     is_immediate_operation := false;
     force_cutover := false;
     cancelled_timestamp := None;
     reviewed_timestamp := None;
     cutover_threshold_seconds := Seconds cutoverThreshold;
     retain_artifacts_seconds := retainArtifactsSeconds;
     message := "" |}.

Definition SubmitMigration (stmt : Statement) (e : Executor)
  : Executor * outcome Result :=
  if bool_decide (isOpen e = 0) then (e, Err errOnlineDDLDisabled)
  else if IsDDLStatement stmt && negb (IsFullyParsed stmt) then
    (e, Err (Errorf Code_FAILED_PRECONDITION "error parsing statement"))
  else
    match OnlineDDLFromCommentedStatement stmt with
    | None =>
      (e, Err (Errorf Code_INVALID_ARGUMENT
                 "Error submitting migration %s: %v"))
    | Some onlineDDL =>
      (* Is there already a migration by this same UUID? *)
      match readMigration (UUID onlineDDL) e with
      | Ok (storedMigration, _) =>
        if bool_decide (MigrationContext storedMigration
                        ≠ MigrationContext onlineDDL)
        then
          (e, Err (Errorf Code_FAILED_PRECONDITION
            "migration rejected: found migration %s with different context: %s than submitted migration's context: %s"))
        else
          submitCallbackIfNonConflicting onlineDDL
            (RetryMigration (UUID onlineDDL)) e
      | Err _ =>
        (* OK, this is a new UUID.  [GetActionStr] fails when [GetAction]
           does. *)
        match snd (GetAction (SQL onlineDDL)) with
        | Some err => (e, Err err)
        | None =>
          let retainArtifactsSeconds :=
            let retainArtifacts :=
              RetainArtifactsDuration (StrategySetting onlineDDL) in
            if bool_decide (retainArtifacts ≠ 0) then Seconds retainArtifacts
            else Seconds (retainOnlineDDLTables c) in
          match CutOverThresholdFlag (StrategySetting onlineDDL) with
          | inl err =>
            (e, Err (Wrapf err "parsing cut-over threshold in migration %v"))
          | inr cutoverThreshold =>
            match safeMigrationCutOverThreshold cutoverThreshold with
            | (_, Some err) =>
              (e, Err (Wrapf err
                         "validating cut-over threshold in migration %v"))
            | (cutoverThreshold, None) =>
              let submitQuery :=
                sqlInsertMigration
                  (submittedRow onlineDDL retainArtifactsSeconds
                     cutoverThreshold e) in
              match submitCallbackIfNonConflicting onlineDDL
                      (λ e, let '(e, rs) := submitQuery e in (e, Ok rs)) e
              with
              | (e, Err err) =>
                (e, Err (Wrapf err "submitting migration %v"))
              | (e, Ok result) => (e, Ok result)
              end
            end
          end
        end
      end
    end.

End Executor.

(** ** Operations on every migration of a kind

    [CancelPendingMigrations] and its siblings run the operation on one
    migration for each UUID a query returned, stop at the first error and
    gather the results with [AppendResult], a method of the SQL result
    type. *)

(** The struct [cancellableMigration], with its fields [uuid] and
    [message]. *)
Record cancellableMigration := {
  cancellable_uuid : string;
  cancellable_message : string;
}.

(** Modelled from the spec: [postpone_completion] is a flag of the row;
    [sqlPostponeCompletion] sets it for the migration of the UUID. *)
Definition sqlPostponeCompletion (uuid : string) (e : Executor) :=
  sqlUpdate (uuid_is uuid) (set_postpone_completion true) e.

Section Batch.

Context (c : Collaborators).

(** [sqltypes.Result.AppendResult]. *)
Context (AppendResult : Result → Result → Result).

Fixpoint cancelMigrations
    (cancellable : list cancellableMigration) (issuedByUser : bool)
    (e : Executor) : Executor * option vterror :=
  match cancellable with
  | [] => (e, None)
  | migration :: cancellable =>
    match CancelMigration c (cancellable_uuid migration)
            (cancellable_message migration) issuedByUser e with
    | (e, Err err) => (e, Some err)
    | (e, Ok _) => cancelMigrations cancellable issuedByUser e
    end
  end.

(** The loop the [...PendingMigrations] functions and [LaunchMigrations]
    share: [return result, err] on the first error, the results gathered
    so far included. *)
Fixpoint appendResults
    (op : string → Executor → Executor * outcome Result)
    (uuids : list string) (result : Result) (e : Executor)
  : Executor * (option Result * option vterror) :=
  match uuids with
  | [] => (e, (Some result, None))
  | uuid :: uuids =>
    match op uuid e with
    | (e, Err err) => (e, (Some result, Some err))
    | (e, Ok res) => appendResults op uuids (AppendResult result res) e
    end
  end.

Definition CancelPendingMigrations
    (message : string) (issuedByUser : bool) (e : Executor)
  : Executor * (option Result * option vterror) :=
  if bool_decide (isOpen e = 0) then (e, (None, Some errOnlineDDLDisabled))
  else
    let uuids := readPendingMigrationsUUIDs e in
    appendResults (λ uuid, CancelMigration c uuid message issuedByUser)
      uuids emptyResult e.

Definition ForceCutOverPendingMigrations (e : Executor)
  : Executor * (option Result * option vterror) :=
  if bool_decide (isOpen e = 0) then (e, (None, Some errOnlineDDLDisabled))
  else
    let uuids := readPendingMigrationsUUIDs e in
    appendResults (ForceCutOverMigration c) uuids emptyResult e.

Definition CompletePendingMigrations (e : Executor)
  : Executor * (option Result * option vterror) :=
  if bool_decide (isOpen e = 0) then (e, (None, Some errOnlineDDLDisabled))
  else
    let uuids := readPendingMigrationsUUIDs e in
    appendResults (λ uuid, CompleteMigration c uuid "") uuids emptyResult e.

Definition PostponeCompleteMigration (uuid : string) (e : Executor)
  : Executor * outcome Result :=
  if bool_decide (isOpen e = 0) then (e, Err errOnlineDDLDisabled)
  else if negb (IsOnlineDDLUUID c uuid) then
    (e, Err (Errorf Code_UNKNOWN
               "Not a valid migration ID in POSTPONE COMPLETE: %s"))
  else
    let '(e, rs) := sqlPostponeCompletion uuid e in
    (e, Ok rs).

Definition PostponeCompletePendingMigrations (e : Executor)
  : Executor * (option Result * option vterror) :=
  if bool_decide (isOpen e = 0) then (e, (None, Some errOnlineDDLDisabled))
  else
    let uuids := readPendingMigrationsUUIDs e in
    appendResults PostponeCompleteMigration uuids emptyResult e.

(** [LaunchMigrations] reads the pending UUIDs for its log only and
    iterates over the queued rows that have been reviewed. *)
Definition LaunchMigrations (e : Executor)
  : Executor * (option Result * option vterror) :=
  if bool_decide (isOpen e = 0) then (e, (None, Some errOnlineDDLDisabled))
  else
    let rows := Rows (sqlSelectQueuedMigrations e) in
    appendResults (λ uuid, LaunchMigration c uuid "")
      (migration_uuid <$> rows) emptyResult e.

End Batch.

(** ** Readiness of a replication stream *)

(** Modelled from the spec: the workflow handle of a migration; the
    readiness check reads its id, its position and its current lag
    ([s.Lag()]). *)
Record VReplStream := {
  stream_id : Z;
  pos : string;
  Lag : Duration;
}.

Section Readiness.

(** The query [sqlReadCountCopyState] for a stream id: the error of the
    query, or the row of the result if it has exactly one, with its
    [cnt]. *)
Context (readCountCopyState : Z → outcome (option Z)).

Definition isVReplMigrationReadyToCutOver
    (onlineDDL : OnlineDDL) (s : VReplStream) : bool * option vterror :=
  if bool_decide (pos s = "") then (false, None)
  else if bool_decide (Lag s > CutOverThreshold onlineDDL) then (false, None)
  else
    match readCountCopyState (stream_id s) with
    | Err err => (false, Some err)
    | Ok None => (false, None)
    | Ok (Some count) =>
      if bool_decide (count > 0) then (false, None) else (true, None)
    end.

End Readiness.

(** ** The review of a queued migration *)

(** Modelled from the spec: the values of [ddl_action] are [create],
    [drop], [alter] and [revert]. *)
Definition CreateStr : string := "create".
Definition DropStr : string := "drop".
Definition AlterStr : string := "alter".

Section Review.

(** [analyzeSpecialAlterPlan]: the plan found, if any, or an error. *)
Context {SpecialAlterPlan : Type}.
Context (analyzeSpecialAlterPlan
           : OnlineDDL → outcome (option SpecialAlterPlan)).

Definition reviewImmediateOperations
    (onlineDDL : OnlineDDL) (ddlAction : string) (isRevert isView : bool)
  : outcome bool :=
  if bool_decide (ddlAction = CreateStr) || bool_decide (ddlAction = DropStr)
  then Ok true
  else if bool_decide (ddlAction = AlterStr) then
    if isView then Ok true
    else if isRevert then Ok false
    else
      match analyzeSpecialAlterPlan onlineDDL with
      | Err err => Err err
      | Ok specialPlan =>
        Ok (match specialPlan with Some _ => true | None => false end)
      end
  else Ok false.

End Review.

(** ** Foreign keys *)

(** The two queries of [tableParticipatesInForeignKeyRelationship]. *)
Inductive FKQuery :=
  | selSelectCountFKParentConstraints
  | selSelectCountFKChildConstraints.

Section ForeignKeys.

(** A query on [INFORMATION_SCHEMA.KEY_COLUMN_USAGE] for a schema and a
    table: the error of the query, or the row of the result if it has
    exactly one, with its [num_fk_constraints]. *)
Context (execFKQuery : FKQuery → string → string → outcome (option Z)).

(** The field [Schema] of a migration and the strategy flag
    [--unsafe-allow-foreign-keys]. *)
Context (Schema : OnlineDDL → string).
Context (IsAllowForeignKeysFlag : DDLStrategySetting → bool).

(** [isPreserveForeignKeySupported]: does the server know the variable
    [rename_table_preserve_foreign_key]. *)
Context (isPreserveForeignKeySupported : outcome bool).

Fixpoint tableParticipatesInForeignKeyRelationship_loop
    (fkQueries : list FKQuery) (schema table : string) : outcome bool :=
  match fkQueries with
  | [] => Ok false
  | fkQuery :: fkQueries =>
    match execFKQuery fkQuery schema table with
    | Err err => Err err
    | Ok None =>
      Err (Errorf Code_UNKNOWN
             "unexpected result from INFORMATION_SCHEMA.KEY_COLUMN_USAGE query: %s")
    | Ok (Some countFKConstraints) =>
      if bool_decide (countFKConstraints > 0) then Ok true
      else tableParticipatesInForeignKeyRelationship_loop
             fkQueries schema table
    end
  end.

Definition tableParticipatesInForeignKeyRelationship
    (schema table : string) : outcome bool :=
  tableParticipatesInForeignKeyRelationship_loop
    [selSelectCountFKParentConstraints; selSelectCountFKChildConstraints]
    schema table.

Definition validateTableForAlterAction (onlineDDL : OnlineDDL)
  : option vterror :=
  match tableParticipatesInForeignKeyRelationship
          (Schema onlineDDL) (Table onlineDDL) with
  | Err err =>
    Some (Wrapf err "error while attempting to validate whether table %s participates in FOREIGN KEY constraint")
  | Ok participatesInFK =>
    if participatesInFK then
      if negb (IsAllowForeignKeysFlag (StrategySetting onlineDDL)) then
        Some (Errorf Code_INVALID_ARGUMENT
          "table %s participates in a FOREIGN KEY constraint and FOREIGN KEY constraints are not supported in Online DDL unless the *experimental and unsafe* --unsafe-allow-foreign-keys strategy flag is specified")
      else
        match isPreserveForeignKeySupported with
        | Err err =>
          Some (Wrapf err "error while attempting to validate whether 'rename_table_preserve_foreign_key' is supported")
        | Ok preserveFKSupported =>
          if negb preserveFKSupported then
            Some (Errorf Code_INVALID_ARGUMENT
              "table %s participates in a FOREIGN KEY constraint and underlying database server does not support `rename_table_preserve_foreign_key`")
          else None
        end
    else None
  end.

End ForeignKeys.

(** ** The collection of artifacts

    Of [gcArtifacts], the loop over the artifact tables of one migration
    and the treatment of its log path.  Times are in nanoseconds. *)

(** The range of an [int64], for [time.Duration(-i) * time.Second]. *)
Definition wrap64 (x : Z) : Z := (x + 2 ^ 63) `mod` 2 ^ 64 - 2 ^ 63.

Section Artifacts.

(** [gcArtifactTable] for an artifact table, a UUID and a time: the name
    the table was renamed to, or the error. *)
Context (gcArtifactTable : string → string → Z → outcome string).

(** The loop over [artifactTables], from index [i] on: the calls of
    [gcArtifactTable] in order, each with its table and its time, and the
    error the loop returned on. *)
Fixpoint gcArtifacts_loop
    (uuid : string) (timeNow : Z) (i : Z) (artifactTables : list string)
  : list (string * Z) * option vterror :=
  match artifactTables with
  | [] => ([], None)
  | artifactTable :: artifactTables =>
    let timestampInThePast := timeNow + wrap64 (wrap64 (- i) * Second) in
    match gcArtifactTable artifactTable uuid timestampInThePast with
    | Ok toTableName =>
      let '(calls, err) :=
        gcArtifacts_loop uuid timeNow (i + 1) artifactTables in
      ((artifactTable, timestampInThePast) :: calls, err)
    | Err err =>
      ([(artifactTable, timestampInThePast)],
       Some (Wrapf err "in gcArtifacts() for %s"))
    end
  end.

End Artifacts.

(** [strings.SplitN(s, ":", 2)]. *)
Fixpoint SplitN_colon_2 (s : string) : list string :=
  match s with
  | EmptyString => [""]
  | String a s' =>
    if bool_decide (String a "" = ":") then [""; s']
    else
      match SplitN_colon_2 s' with
      | token :: tokens => String a token :: tokens
      | [] => []
      end
  end.

(** The log path [gcArtifacts] removes: [logPath] is in
    'hostname:/path/to/logs' format. *)
Definition gcArtifacts_logPath (logPath : string) : option string :=
  let tokens := SplitN_colon_2 logPath in
  slice_index tokens (Z.of_nat (length tokens) - 1).

(** ** Status reports and stale migrations *)

(** The updates of a column that is not part of [Row]
    ([started_timestamp], [tablet_failure], [progress], [eta_seconds],
    [rows_copied]): the columns of [Row] are left as they are. *)
Definition sqlUpdateOtherColumn (uuid : string) (e : Executor) :=
  sqlUpdate (uuid_is uuid) (λ r, r) e.

Definition updateMigrationStartedTimestamp (uuid : string) (e : Executor)
  : Executor :=
  fst (sqlUpdateOtherColumn uuid e).

Definition updateTabletFailure (uuid : string) (e : Executor) : Executor :=
  fst (sqlUpdateOtherColumn uuid e).

Definition updateMigrationETASeconds (uuid : string) (etaSeconds : Z)
    (e : Executor) : Executor :=
  fst (sqlUpdateOtherColumn uuid e).

Definition updateRowsCopied (uuid : string) (rowsCopied : Z) (e : Executor)
  : Executor :=
  fst (sqlUpdateOtherColumn uuid e).

Definition staleMigrationFailMinutes : Z := 180.
Definition staleMigrationWarningMinutes : Z := 5.
Definition readyToCompleteHint : string := "ready_to_complete".

Section Reports.

Context (c : Collaborators).

(** The type [float64] of the progress and its value [progressPctFull];
    the progress is stored in a column that is not part of [Row]. *)
Context {float64 : Type} (progressPctFull : float64).

Definition updateMigrationProgress (uuid : string) (progress : float64)
    (e : Executor) : Executor :=
  fst (sqlUpdateOtherColumn uuid e).

Definition onSchemaMigrationStatus
    (uuid : string) (status : OnlineDDLStatus) (dryRun : bool)
    (progressPct : float64) (etaSeconds rowsCopied : Z) (hint : string)
    (e : Executor) : Executor :=
  if dryRun && bool_decide (status ≠ OnlineDDLStatusFailed) then e
  else
    let '(progressPct, e) :=
      match status with
      | OnlineDDLStatusReady =>
        (progressPct, updateMigrationTimestamp "ready_timestamp" uuid e)
      | OnlineDDLStatusRunning =>
        (progressPct,
         updateMigrationTimestamp "liveness_timestamp" uuid
           (updateMigrationStartedTimestamp uuid e))
      | OnlineDDLStatusComplete =>
        (progressPctFull,
         updateMigrationTimestamp "completed_timestamp" uuid
           (updateMigrationStartedTimestamp uuid e))
      | OnlineDDLStatusFailed =>
        (progressPct,
         updateMigrationTimestamp "completed_timestamp" uuid
           (updateMigrationStartedTimestamp uuid e))
      | _ => (progressPct, e)
      end in
    let e := updateMigrationStatus uuid status e in
    let e := updateMigrationProgress uuid progressPct e in
    let e := updateMigrationETASeconds uuid etaSeconds e in
    let e := updateRowsCopied uuid rowsCopied e in
    if bool_decide (hint = readyToCompleteHint)
    then updateMigrationReadyToComplete uuid true e
    else e.

(** The minutes since a row last showed liveness, as the database
    computes them from [liveness_timestamp]. *)
Context (stale_minutes : Executor → Row → Z).

(** Modelled from the spec: the stale migrations are the rows in
    [running] whose liveness is at least the given minutes old. *)
Definition sqlSelectStaleMigrations (minutes : Z) (e : Executor) : Result :=
  sqlSelect
    (λ r, bool_decide (migration_status r = OnlineDDLStatusRunning)
          && bool_decide (minutes ≤ stale_minutes e r)) e.

(** The body of the loop of [reviewStaleMigrations], from the migration
    read on. *)
Definition reviewStaleMigrations_body
    (uuid : string) (onlineDDL : OnlineDDL) (e : Executor) : Executor :=
  let message :=
    "stale migration %s: found running but indicates no liveness in the past %v minutes" in
  let '(e, message) :=
    if bool_decide (TabletAlias onlineDDL ≠ tabletAlias e)
    then (updateTabletFailure (UUID onlineDDL) e,
          "%s; executed by different tablet %s")
    else (e, message) in
  match terminateMigration c onlineDDL e with
  | (e, (_, Some err)) =>
    let message := "error terminating migration (%v): %v" in
    (* [continue]: we still want to handle rest of migrations *)
    updateMigrationMessage c (UUID onlineDDL) message e
  | (e, (_, None)) =>
    let e := updateMigrationMessage c (UUID onlineDDL) message e in
    let e := updateMigrationStatus (UUID onlineDDL) OnlineDDLStatusFailed e in
    let e := updateMigrationStartedTimestamp uuid e in
    updateMigrationTimestamp "completed_timestamp" (UUID onlineDDL) e
  end.

Fixpoint reviewStaleMigrations_loop (rows : list Row) (e : Executor)
  : Executor * option vterror :=
  match rows with
  | [] => (e, None)
  | row :: rows =>
    let uuid := migration_uuid row in
    match readMigration uuid e with
    | Err err => (e, Some err)
    | Ok (onlineDDL, _) =>
      reviewStaleMigrations_loop rows
        (reviewStaleMigrations_body uuid onlineDDL e)
    end
  end.

Definition reviewStaleMigrations (e : Executor) : Executor * option vterror :=
  reviewStaleMigrations_loop
    (Rows (sqlSelectStaleMigrations staleMigrationFailMinutes e)) e.

End Reports.

(** ** The runner and the reviews *)

Definition progressPctStarted : Z := 0.
Definition progressPctFull : Z := 100.
Definition etaSecondsUnknown : Z := -1.
Definition etaSecondsNow : Z := 0.
Definition rowsCopiedUnknown : Z := 0.
Definition emptyHint : string := "".

(** Modelled from the spec: the complete migrations of the given context
    whose statement has the given text. *)
Definition sqlSelectCompleteMigrationsByContextAndSQL
    (context : string) (sql : MigrationStatement) (e : Executor) : Result :=
  sqlSelect
    (λ r, bool_decide (migration_status r = OnlineDDLStatusComplete)
          && bool_decide (migration_context r = context)
          && bool_decide (Text (migration_statement r) = Text sql)) e.

(** Modelled from the spec: [sqlRetryMigrationWhere] is [sqlRetryMigration]
    with the given WHERE clause in place of the UUID: of the failed or
    cancelled rows, those the clause selects go back to queued. *)
Definition sqlRetryMigrationWhere
    (tabletAlias : string) (whereExpr : Row → bool) (e : Executor) :=
  sqlUpdate
    (λ r, (bool_decide (migration_status r = OnlineDDLStatusFailed)
           || bool_decide (migration_status r = OnlineDDLStatusCancelled))
          && whereExpr r)
    (λ r, set_migration_status OnlineDDLStatusQueued
            (set_tablet tabletAlias (set_retries (retries r + 1) r))) e.

(** The row [r'] with the UUID and the status of [r]. *)
Definition keep_uuid_and_status (r r' : Row) : Row :=
  {| migration_uuid := migration_uuid r;
     mysql_table := mysql_table r';
     migration_statement := migration_statement r';
     strategy_options := strategy_options r';
     migration_context := migration_context r';
     migration_status := migration_status r;
     tablet := tablet r';
     retries := retries r';
     postpone_launch := postpone_launch r';
     postpone_completion := postpone_completion r';
     ready_to_complete := ready_to_complete r';
     was_ready_to_complete := was_ready_to_complete r';
     is_immediate_operation := is_immediate_operation r';
     force_cutover := force_cutover r';
     cancelled_timestamp := cancelled_timestamp r';
     reviewed_timestamp := reviewed_timestamp r';
     cutover_threshold_seconds := cutover_threshold_seconds r';
     retain_artifacts_seconds := retain_artifacts_seconds r';
     message := message r' |}.

(** [&schema.OnlineDDL{UUID: uuid}]: the other fields at their zero
    values. *)
Definition OnlineDDL_of_UUID (uuid : string) : OnlineDDL :=
  {| UUID := uuid;
     Table := "";
     SQL := {| Text := ""; GetAction := (DDLAction_zero, None);
               GetRevertUUID := None |};
     StrategySetting :=
       {| Strategy := "";
          IsAllowConcurrent := false;
          IsSingleton := false;
          IsSingletonContext := false;
          IsSingletonTable := false;
          IsPostponeLaunch := false;
          IsPostponeCompletion := false;
          IsInOrderCompletion := false;
          CutOverThresholdFlag := inr 0;
          RetainArtifactsDuration := 0 |};
     Status := OnlineDDLStatusQueued;
     Retries := 0;
     ReadyToComplete := 0;
     WasReadyToComplete := 0;
     TabletAlias := "";
     MigrationContext := "";
     CutOverThreshold := 0 |}.

Section Runner.

Context (c : Collaborators).

Definition apply_call (call : Call) (e : Executor) : Executor :=
  match call with
  | CallReportRunning uuid =>
    onSchemaMigrationStatus progressPctFull uuid OnlineDDLStatusRunning false
      progressPctStarted etaSecondsUnknown rowsCopiedUnknown emptyHint e
  | CallReportComplete uuid rowsCopied =>
    onSchemaMigrationStatus progressPctFull uuid OnlineDDLStatusComplete false
      progressPctFull etaSecondsNow rowsCopied emptyHint e
  | CallFailMigration onlineDDL withError =>
    failMigration c onlineDDL withError e
  | CallUpdateMigrationReadyToComplete uuid isReady =>
    updateMigrationReadyToComplete uuid isReady e
  | CallUpdateColumns uuid columns =>
    fst (sqlUpdate (uuid_is uuid)
           (λ r, keep_uuid_and_status r (columns r)) e)
  | CallStore onlineDDL =>
    with_ownedRunningMigrations
      (<[UUID onlineDDL := onlineDDL]> (ownedRunningMigrations e)) e
  | CallDelete uuid =>
    with_ownedRunningMigrations (delete uuid (ownedRunningMigrations e)) e
  end.

Fixpoint apply_calls (calls : list Call) (e : Executor) : Executor :=
  match calls with
  | [] => e
  | call :: calls => apply_calls calls (apply_call call e)
  end.

(** The UUID of the last row returned, the empty string when there is
    none. *)
Definition getCompletedMigrationByContextAndSQL
    (onlineDDL : OnlineDDL) (e : Executor) : string :=
  if bool_decide (MigrationContext onlineDDL = "") then ""
  else
    default ""
      (last (migration_uuid <$>
               Rows (sqlSelectCompleteMigrationsByContextAndSQL
                       (MigrationContext onlineDDL) (SQL onlineDDL) e))).

Definition executeMigration (onlineDDL : OnlineDDL) (e : Executor)
  : Executor :=
  let uuid := UUID onlineDDL in
  match GetAction (SQL onlineDDL) with
  | (_, Some err) => failMigration c onlineDDL (Some (ErrMsg err)) e
  | (_, None) =>
    let completedUUID := getCompletedMigrationByContextAndSQL onlineDDL e in
    if bool_decide (completedUUID ≠ "") then
      (* We mark this migration as implicitly complete *)
      let e :=
        if discarded_statement_applies c e StatusOfDuplicate uuid
        then apply_call (CallReportComplete uuid rowsCopiedUnknown) e
        else e in
      if discarded_statement_applies c e MessageOfDuplicate uuid
      then updateMigrationMessage c uuid
             ("duplicate DDL as " +:+ completedUUID
              +:+ " for migration context " +:+ MigrationContext onlineDDL) e
      else e
    else apply_calls (executeMigration_calls c e onlineDDL) e
  end.

(** [runNextMigration] returns an error only; the second component also
    reports the migration handed to [executeMigration], if any. *)
Definition runNextMigration (e : Executor)
  : Executor * outcome (option OnlineDDL) :=
  if negb (reviewedRunningMigrationsFlag e) then (e, Ok None)
  else
    match getNonConflictingMigration c e with
    | (e, Err err) => (e, Err err)
    | (e, Ok None) => (e, Ok None)
    | (e, Ok (Some onlineDDL)) =>
      (* We strip out any VT query comments *)
      let onlineDDL :=
        store_SQL (withoutComments c (SQL onlineDDL)) onlineDDL in
      (executeMigration onlineDDL e, Ok (Some onlineDDL))
    end.

(** [reviewRunningMigrations]: the flag is set by the last statement, on
    the path without error. *)
Definition reviewRunningMigrations (e : Executor)
  : Executor * option vterror :=
  if bool_decide (isOpen e = 0) then (e, None)
  else
    let '(calls, err) := reviewRunningMigrations_calls c e in
    let e := apply_calls calls e in
    match err with
    | Some err => (e, Some err)
    | None => (with_reviewedRunningMigrationsFlag true e, None)
    end.

Definition reviewQueuedMigration (uuid : string) (e : Executor)
  : Executor * option vterror :=
  match readMigration uuid e with
  | Err err => (e, Some err)
  | Ok (onlineDDL, _) =>
    match reviewQueuedMigration_checks c e uuid with
    | ReviewFailed err =>
      (failMigration c onlineDDL (Some (ErrMsg err)) e, Some err)
    | ReviewBackfilled columns err =>
      let e := apply_call (CallUpdateColumns uuid columns) e in
      match err with
      | Some err => (e, Some err)
      | None =>
        (* The review is complete. *)
        (updateMigrationTimestamp "reviewed_timestamp" uuid e, None)
      end
    end
  end.

Fixpoint reviewQueuedMigrations_loop (uuids : list string) (e : Executor)
  : Executor :=
  match uuids with
  | [] => e
  | uuid :: uuids =>
    let e :=
      match reviewQueuedMigration uuid e with
      | (e, Some err) =>
        failMigration c (OnlineDDL_of_UUID uuid) (Some (ErrMsg err)) e
      | (e, None) => e
      end in
    reviewQueuedMigrations_loop uuids e
  end.

Definition reviewQueuedMigrations (e : Executor) : Executor :=
  reviewQueuedMigrations_loop
    (migration_uuid <$> Rows (sqlSelectQueuedUnreviewedMigrations e)) e.

(** [whereExpr] stands for the WHERE clause, by the rows it selects. *)
Definition retryMigrationWhere (whereExpr : Row → bool) (e : Executor)
  : Executor * Result :=
  sqlRetryMigrationWhere (tabletAlias e) whereExpr e.

End Runner.

(** ** The specification's wording of two decisions

    These two definitions follow the sentences of the specification, not
    the code; they are what the code is compared with. *)

(** The desired wait: the element of [{0, 1m, 5m, 10m, 30m}] indexed by
    the number of attempts, the last one when the index is out of range. *)
Definition desired_wait (cutover_attempts : Z) : Duration :=
  default (30 * Minute)
    (slice_index [0; 1 * Minute; 5 * Minute; 10 * Minute; 30 * Minute]
       cutover_attempts).

(** "Attempt only when [since_last_attempt ≥ desired].  Override to
    immediate + force KILL when [force_cutover=true] or
    [since_ready_to_complete ≥ force_cut_over_after > 0] or
    [force_cut_over_after ≤ 1ms]." *)
Definition backoff_as_specified
    (force_cutover : bool)
    (force_cut_over_after since_ready_to_complete since_last_attempt : Duration)
    (cutover_attempts : Z) : bool * bool :=
  if force_cutover
     || (bool_decide (since_ready_to_complete >= force_cut_over_after)
         && bool_decide (force_cut_over_after > 0))
     || bool_decide (force_cut_over_after <= Millisecond)
  then (true, true)
  else (bool_decide (since_last_attempt >= desired_wait cutover_attempts),
        false).

(** "Conflict is: same [mysql_table] OR (neither migration is
    [allow-concurrent]) OR (the candidate is an [alter] AND a running
    migration has [was_ready_to_complete=false])." *)
Definition conflict_as_specified (running candidate : OnlineDDL) : bool :=
  bool_decide (Table running = Table candidate)
  || (negb (snd (allowConcurrentMigration running))
      && negb (snd (allowConcurrentMigration candidate)))
  || (bool_decide (fst (GetAction (SQL candidate)) = AlterDDLAction)
      && bool_decide (WasReadyToComplete running = 0)).

(** ** Effects on a row

    Closed forms of what an operation leaves in a row, used to state its
    effect on the table. *)

(** What [failMigration] leaves in the row of the migration, given
    whether the database carried out its status update and its message
    update. *)
Definition failMigration_row (c : Collaborators)
    (statusApplied messageApplied : bool) (withError : option string)
    (r : Row) : Row :=
  let r :=
    if statusApplied then
      set_migration_status
        (match cancelled_timestamp r with
         | None => OnlineDDLStatusFailed
         | Some _ => OnlineDDLStatusCancelled
         end) r
    else r in
  match withError with
  | Some msg =>
    if messageApplied then set_message (boundMessage c msg) r else r
  | None => r
  end.

(** What a cancellation leaves in the row of the migration. *)
Definition cancelled_row (c : Collaborators)
    (message : string) (issuedByUser : bool) (now : Z)
    (statusApplied messageApplied : bool) (r : Row) : Row :=
  failMigration_row c statusApplied messageApplied (Some message)
    (if issuedByUser then set_cancelled_timestamp (Some now) r else r).

(** The database carries out every status update of [failMigration] for
    the UUID, and every message update. *)
Definition status_update_applies (c : Collaborators) (uuid : string) : Prop :=
  ∀ e, discarded_statement_applies c e StatusFailedOrCancelled uuid = true.

Definition message_update_applies (c : Collaborators) (uuid : string)
  : Prop :=
  ∀ e, discarded_statement_applies c e MessageOfFailure uuid = true.

Definition failed_or_cancelled (s : OnlineDDLStatus) : bool :=
  bool_decide (s = OnlineDDLStatusFailed)
  || bool_decide (s = OnlineDDLStatusCancelled).

(** What [sqlRetryMigration] leaves in a row it matches. *)
Definition requeued_row (tabletAlias : string) (r : Row) : Row :=
  set_migration_status OnlineDDLStatusQueued
    (set_tablet tabletAlias (set_retries (retries r + 1) r)).

(** ** Vocabulary of the admission properties *)

Definition pending_rows (e : Executor) : list Row :=
  Rows (sqlSelectPendingMigrations e).

(** A pending REVERT that itself lacks [--singleton-context]. *)
Definition revert_without_singleton_context (p : Row) : Prop :=
  GetRevertUUID (migration_statement p) ≠ None
  ∧ IsSingletonContext (strategy_options p) = false.

(** The submission is rejected: an error is returned and the executor,
    the table included, is as it was. *)
Definition rejected (c : Collaborators) (stmt : Statement) (e : Executor)
  : Prop :=
  ∃ err, SubmitMigration c stmt e = (e, Err err).

(** The UUIDs of the table are pairwise distinct. *)
Definition unique_uuids (e : Executor) : Prop :=
  NoDup (migration_uuid <$> schema_migrations e).

(** ** Vocabulary of the scheduler properties *)

(** The rows the scheduler's query returns: queued and reviewed. *)
Definition queued (r : Row) : bool :=
  bool_decide (migration_status r = OnlineDDLStatusQueued).

Definition reviewed (r : Row) : bool :=
  bool_decide (reviewed_timestamp r ≠ None).

Definition schedulable (r : Row) : bool := queued r && reviewed r.

(** A row may be promoted unless its launch is postponed or it is both an
    immediate operation and postponed for completion. *)
Definition eligible (r : Row) : bool :=
  negb (postpone_launch r)
  && negb (is_immediate_operation r && postpone_completion r).

(** The effect on a table row [r] of the loop body run for the selected
    row [row], and of the whole loop. *)
Definition scheduleNextMigration_row
    (row : Row) (scheduled : bool) (r : Row) : Row :=
  if postpone_launch row then r
  else
    let r :=
      if negb (ready_to_complete row) && is_immediate_operation row
      then (if uuid_is (migration_uuid row) r
            then set_was_ready_to_complete true (set_ready_to_complete true r)
            else r)
      else r in
    if negb (is_immediate_operation row && postpone_completion row) then
      if scheduled then r
      else if uuid_is (migration_uuid row) r
           then set_migration_status OnlineDDLStatusReady r else r
    else r.

Fixpoint scheduleNextMigration_rows
    (rows : list Row) (scheduled : bool) (r : Row) : Row :=
  match rows with
  | [] => r
  | row :: rows =>
    scheduleNextMigration_rows rows (scheduled || eligible row)
      (scheduleNextMigration_row row scheduled r)
  end.

(** What the scheduler leaves in a queued row, [already] telling whether
    an earlier row was promoted. *)
Definition scheduled_row (already : bool) (r : Row) : Row :=
  if postpone_launch r then r
  else
    let r1 :=
      if negb (ready_to_complete r) && is_immediate_operation r
      then set_was_ready_to_complete true (set_ready_to_complete true r)
      else r in
    if eligible r && negb already
    then set_migration_status OnlineDDLStatusReady r1 else r1.

(** ** Operations and traces

    The operations of the executor as steps of a state machine: the
    submission API; the steps of the tick ([retryTabletFailureMigrations],
    the review of queued migrations, the scheduler, the runner, the review
    of running migrations, the review of stale ones); and the calls of a
    handler that runs in a goroutine of its own, each a step between the
    others.  The operations on every migration of a kind
    ([CancelPendingMigrations] and its siblings, [cancelMigrations]) are
    runs of the operation on one migration. *)

Inductive Operation :=
  | OpOpen
  | OpClose
  | OpSubmitMigration (stmt : Statement)
  | OpCancelMigration (uuid message : string) (issuedByUser : bool)
  | OpRetryMigration (uuid : string)
  | OpCleanupMigration (uuid : string)
  | OpForceCutOverMigration (uuid : string)
  | OpSetMigrationCutOverThreshold (uuid thresholdString : string)
  | OpCompleteMigration (uuid shardsArg : string)
  | OpLaunchMigration (uuid shardsArg : string)
  | OpUnthrottleMigration (uuid : string)
  | OpScheduleNextMigration
  | OpRunNextMigration
  | OpReviewRunningMigrations
  | OpPostponeCompleteMigration (uuid : string)
  (** [retryMigrationWhere], by the rows its WHERE clause selects *)
  | OpRetryMigrationWhere (whereExpr : Row → bool)
  | OpReviewQueuedMigrations
  (** [reviewStaleMigrations], with the minutes since each row last showed
      liveness, as the database computes them at that time *)
  | OpReviewStaleMigrations (stale_minutes : Executor → Row → Z)
  (** a call of a handler that runs in its own goroutine *)
  | OpCall (call : Call).

Definition perform (c : Collaborators) (op : Operation) (e : Executor)
  : Executor :=
  match op with
  | OpOpen => Open e
  | OpClose => Close e
  | OpSubmitMigration stmt => fst (SubmitMigration c stmt e)
  | OpCancelMigration uuid message issuedByUser =>
    fst (CancelMigration c uuid message issuedByUser e)
  | OpRetryMigration uuid => fst (RetryMigration c uuid e)
  | OpCleanupMigration uuid => fst (CleanupMigration c uuid e)
  | OpForceCutOverMigration uuid => fst (ForceCutOverMigration c uuid e)
  | OpSetMigrationCutOverThreshold uuid thresholdString =>
    fst (SetMigrationCutOverThreshold c uuid thresholdString e)
  | OpCompleteMigration uuid shardsArg =>
    fst (CompleteMigration c uuid shardsArg e)
  | OpLaunchMigration uuid shardsArg =>
    fst (LaunchMigration c uuid shardsArg e)
  | OpUnthrottleMigration uuid => fst (UnthrottleMigration uuid e)
  | OpScheduleNextMigration => scheduleNextMigration e
  | OpRunNextMigration => fst (runNextMigration c e)
  | OpReviewRunningMigrations => fst (reviewRunningMigrations c e)
  | OpPostponeCompleteMigration uuid =>
    fst (PostponeCompleteMigration c uuid e)
  | OpRetryMigrationWhere whereExpr => fst (retryMigrationWhere whereExpr e)
  | OpReviewQueuedMigrations => reviewQueuedMigrations c e
  | OpReviewStaleMigrations stale_minutes =>
    fst (reviewStaleMigrations c stale_minutes e)
  | OpCall call => apply_call c call e
  end.

Fixpoint perform_all (c : Collaborators) (ops : list Operation) (e : Executor)
  : Executor :=
  match ops with
  | [] => e
  | op :: ops => perform_all c ops (perform c op e)
  end.

(** The operation is a review of the running migrations that runs to its
    end: the executor is open and the review returns no error. *)
Definition review_completes
    (c : Collaborators) (op : Operation) (e : Executor) : bool :=
  match op with
  | OpReviewRunningMigrations =>
    negb (bool_decide (isOpen e = 0))
    && bool_decide (snd (reviewRunningMigrations c e) = None)
  | _ => false
  end.

(** No review of the running migrations runs to its end along the trace. *)
Fixpoint no_review_completes
    (c : Collaborators) (ops : list Operation) (e : Executor) : Prop :=
  match ops with
  | [] => True
  | op :: ops =>
    review_completes c op e = false
    ∧ no_review_completes c ops (perform c op e)
  end.









(** ** Concrete migrations, rows and executors

    The values the properties below are evaluated at. *)

Definition example_setting
    (strategy : string)
    (allowConcurrent singleton singletonContext singletonTable : bool)
  : DDLStrategySetting :=
  {| Strategy := strategy;
     IsAllowConcurrent := allowConcurrent;
     IsSingleton := singleton;
     IsSingletonContext := singletonContext;
     IsSingletonTable := singletonTable;
     IsPostponeLaunch := false;
     IsPostponeCompletion := false;
     IsInOrderCompletion := false;
     CutOverThresholdFlag := inr 0;
     RetainArtifactsDuration := 0 |}.

Definition example_statement (action : DDLAction) : MigrationStatement :=
  {| Text :=
       match action with
       | CreateDDLAction => "create table t (id int primary key)"
       | AlterDDLAction => "alter table t engine=innodb"
       | DropDDLAction => "drop table t"
       | RevertDDLAction => "revert vitess_migration 'reverted'"
       end;
     GetAction := (action, None);
     GetRevertUUID :=
       match action with
       | RevertDDLAction => Some "reverted"
       | _ => None
       end |}.

Definition example_row
    (uuid table context : string) (action : DDLAction)
    (setting : DDLStrategySetting) (status : OnlineDDLStatus)
    (cancelled : option Z) : Row :=
  {| migration_uuid := uuid;
     mysql_table := table;
     migration_statement := example_statement action;
     strategy_options := setting;
     migration_context := context;
     migration_status := status;
     tablet := "zone1-100";
     retries := 0;
     postpone_launch := false;
     postpone_completion := false;
     ready_to_complete := false;
     was_ready_to_complete := false;
     is_immediate_operation := false;
     force_cutover := false;
     cancelled_timestamp := cancelled;
     reviewed_timestamp := Some 0;
     cutover_threshold_seconds := 10;
     retain_artifacts_seconds := 86400;
     message := "" |}.

(** A migration as submitted: the fields a stored row does not determine
    are at their zero values. *)
Definition example_migration
    (uuid table context : string) (action : DDLAction)
    (setting : DDLStrategySetting) : OnlineDDL :=
  {| UUID := uuid;
     Table := table;
     SQL := example_statement action;
     StrategySetting := setting;
     Status := OnlineDDLStatusQueued;
     Retries := 0;
     ReadyToComplete := 0;
     WasReadyToComplete := 0;
     TabletAlias := "";
     MigrationContext := context;
     CutOverThreshold := 0 |}.

Definition example_submission (onlineDDL : OnlineDDL) : Statement :=
  {| IsDDLStatement := true;
     IsFullyParsed := true;
     OnlineDDLFromCommentedStatement := Some onlineDDL |}.

(** An open executor over the given table, with nothing running. *)
Definition example_executor (open : Z) (table : list Row) : Executor :=
  {| isOpen := open;
     EnableOnlineDDL := true;
     reviewedRunningMigrationsFlag := true;
     ownedRunningMigrations := ∅;
     tabletAlias := "zone1-100";
     shard := "0";
     lagThrottler := {| throttlerIsOpen := true; throttledApps := {["u1"]} |};
     schema_migrations := table;
     now := 1000 |}.

(** Collaborators that accept every UUID and leave everything as it is. *)
Definition example_collaborators : Collaborators :=
  {| IsOnlineDDLUUID := λ _, true;
     SplitDelimitedList := λ _, [];
     ParseDuration := λ _, Some (10 * Second);
     ToValidUTF8 := λ s, s;
     vreplStreamIsRunning := λ _ _, false;
     terminateVReplMigration := λ _ _, None;
     discarded_statement_applies := λ _ _ _, true;
     retainOnlineDDLTables := 24 * Hour;
     executeMigration_calls := λ _ _, [];
     reviewRunningMigrations_calls := λ _, ([], None);
     reviewQueuedMigration_checks := λ _ _, ReviewBackfilled (λ r, r) None;
     withoutComments := λ sql, sql |}.

(** Collaborators whose replication stream is running and whose database
    rejects the status update of [failMigration]. *)
Definition lossy_collaborators : Collaborators :=
  {| IsOnlineDDLUUID := λ _, true;
     SplitDelimitedList := λ _, [];
     ParseDuration := λ _, Some (10 * Second);
     ToValidUTF8 := λ s, s;
     vreplStreamIsRunning := λ _ _, true;
     terminateVReplMigration := λ _ _, None;
     discarded_statement_applies :=
       λ _ statement _,
         match statement with
         | StatusFailedOrCancelled => false
         | _ => true
         end;
     retainOnlineDDLTables := 24 * Hour;
     executeMigration_calls := λ _ _, [];
     reviewRunningMigrations_calls := λ _, ([], None);
     reviewQueuedMigration_checks := λ _ _, ReviewBackfilled (λ r, r) None;
     withoutComments := λ sql, sql |}.

(** A running vitess ALTER that declares [--allow-concurrent] and is still
    copying rows, and a ready ALTER of another table that does not declare
    it. *)
Definition running_concurrent_alter_row : Row :=
  example_row "r1" "t1" "" AlterDDLAction
    (example_setting DDLStrategyVitess true false false false)
    OnlineDDLStatusRunning None.

Definition running_concurrent_alter : OnlineDDL :=
  onlineDDL_of_row running_concurrent_alter_row.

Definition ready_plain_alter_row : Row :=
  example_row "c1" "t2" "" AlterDDLAction
    (example_setting DDLStrategyVitess false false false false)
    OnlineDDLStatusReady None.

Definition runner_example : Executor :=
  with_ownedRunningMigrations {["r1" := running_concurrent_alter]}
    (example_executor 1 [running_concurrent_alter_row; ready_plain_alter_row]).

(** A running migration. *)
Definition running_row : Row :=
  example_row "u1" "t1" "" AlterDDLAction
    (example_setting DDLStrategyVitess false false false false)
    OnlineDDLStatusRunning None.

(** A queued migration of table [t1] in context [ctx], and a submission
    for the same table and context that carries both [--singleton-context]
    and [--singleton-table]. *)
Definition pending_same_table_row : Row :=
  example_row "p1" "t1" "ctx" AlterDDLAction
    (example_setting DDLStrategyVitess false false false false)
    OnlineDDLStatusQueued None.

Definition context_and_table_submission : OnlineDDL :=
  example_migration "s1" "t1" "ctx" CreateDDLAction
    (example_setting DDLStrategyVitess false false true true).

(** A submission with [--singleton-table] alone. *)
Definition table_submission : OnlineDDL :=
  example_migration "s1" "t1" "other" CreateDDLAction
    (example_setting DDLStrategyVitess false false false true).

(** A failed migration submitted with [--singleton], beside a pending
    migration of another table. *)
Definition failed_singleton_row : Row :=
  example_row "s1" "t2" "ctx" CreateDDLAction
    (example_setting DDLStrategyVitess false true false false)
    OnlineDDLStatusFailed None.

Definition singleton_resubmission : OnlineDDL :=
  example_migration "s1" "t2" "ctx" CreateDDLAction
    (example_setting DDLStrategyVitess false true false false).

(** A resubmission without singleton flags of a failed migration. *)
Definition failed_row : Row :=
  example_row "s1" "t2" "ctx" CreateDDLAction
    (example_setting DDLStrategyVitess false false false false)
    OnlineDDLStatusFailed None.

Definition plain_resubmission : OnlineDDL :=
  example_migration "s1" "t2" "ctx" CreateDDLAction
    (example_setting DDLStrategyVitess false false false false).

(** Three queued migrations: one whose launch is postponed, an immediate
    operation postponed for completion, and a plain one. *)
Definition postponed_launch_row : Row :=
  set_postpone_launch true
    (example_row "q1" "t1" "" AlterDDLAction
       (example_setting DDLStrategyVitess false false false false)
       OnlineDDLStatusQueued None).

Definition postponed_immediate_row : Row :=
  {| migration_uuid := "q2";
     mysql_table := "t2";
     migration_statement := example_statement CreateDDLAction;
     strategy_options :=
       example_setting DDLStrategyVitess false false false false;
     migration_context := "";
     migration_status := OnlineDDLStatusQueued;
     tablet := "zone1-100";
     retries := 0;
     postpone_launch := false;
     postpone_completion := true;
     ready_to_complete := false;
     was_ready_to_complete := false;
     is_immediate_operation := true;
     force_cutover := false;
     cancelled_timestamp := None;
     reviewed_timestamp := Some 0;
     cutover_threshold_seconds := 10;
     retain_artifacts_seconds := 86400;
     message := "" |}.

Definition queued_row : Row :=
  example_row "q3" "t3" "" AlterDDLAction
    (example_setting DDLStrategyVitess false false false false)
    OnlineDDLStatusQueued None.

Definition scheduler_example : Executor :=
  example_executor 1
    [postponed_launch_row; postponed_immediate_row; queued_row].




(** Collaborators whose review of the running migrations fails. *)
Definition failing_review_collaborators : Collaborators :=
  {| IsOnlineDDLUUID := λ _, true;
     SplitDelimitedList := λ _, [];
     ParseDuration := λ _, Some (10 * Second);
     ToValidUTF8 := λ s, s;
     vreplStreamIsRunning := λ _ _, false;
     terminateVReplMigration := λ _ _, None;
     discarded_statement_applies := λ _ _ _, true;
     retainOnlineDDLTables := 24 * Hour;
     executeMigration_calls := λ _ _, [];
     reviewRunningMigrations_calls :=
       λ _, ([], Some (Errorf Code_UNKNOWN "connection lost"));
     reviewQueuedMigration_checks := λ _ _, ReviewBackfilled (λ r, r) None;
     withoutComments := λ sql, sql |}.

(** A trace after [Open]: a migration is scheduled, the review fails, the
    runner is called. *)
Definition startup_trace : list Operation :=
  [OpScheduleNextMigration; OpReviewRunningMigrations; OpRunNextMigration].

(** A table with a queued migration whose launch is postponed, a queued
    one, a running one and a failed one; the sum of two results; and
    collaborators that take every UUID but [q3] for a valid one, or that
    split a list of shards of one element. *)
Definition mixed_example : Executor :=
  example_executor 1 [postponed_launch_row; queued_row; running_row; failed_row].

Definition example_AppendResult (result src : Result) : Result :=
  {| RowsAffected := RowsAffected result + RowsAffected src;
     Rows := Rows result ++ Rows src |}.

Definition strict_collaborators : Collaborators :=
  {| IsOnlineDDLUUID := λ uuid, bool_decide (uuid ≠ "q3");
     SplitDelimitedList := λ _, [];
     ParseDuration := λ _, Some (10 * Second);
     ToValidUTF8 := λ s, s;
     vreplStreamIsRunning := λ _ _, false;
     terminateVReplMigration := λ _ _, None;
     discarded_statement_applies := λ _ _ _, true;
     retainOnlineDDLTables := 24 * Hour;
     executeMigration_calls := λ _ _, [];
     reviewRunningMigrations_calls := λ _, ([], None);
     reviewQueuedMigration_checks := λ _ _, ReviewBackfilled (λ r, r) None;
     withoutComments := λ sql, sql |}.

Definition sharded_collaborators : Collaborators :=
  {| IsOnlineDDLUUID := λ _, true;
     SplitDelimitedList := λ s, if bool_decide (s = "") then [] else [s];
     ParseDuration := λ _, Some (10 * Second);
     ToValidUTF8 := λ s, s;
     vreplStreamIsRunning := λ _ _, false;
     terminateVReplMigration := λ _ _, None;
     discarded_statement_applies := λ _ _ _, true;
     retainOnlineDDLTables := 24 * Hour;
     executeMigration_calls := λ _ _, [];
     reviewRunningMigrations_calls := λ _, ([], None);
     reviewQueuedMigration_checks := λ _ _, ReviewBackfilled (λ r, r) None;
     withoutComments := λ sql, sql |}.

(** Two migrations found fit to cancel, a stream that lags by one second
    and a running migration under the [mysql] strategy. *)
Definition example_cancellable : list cancellableMigration :=
  [ {| cancellable_uuid := "q3"; cancellable_message := "stale" |};
    {| cancellable_uuid := "u1"; cancellable_message := "stale" |} ].

Definition example_stream : VReplStream :=
  {| stream_id := 1; pos := "MySQL56/1-10"; Lag := 1 * Second |}.

Definition running_mysql_row : Row :=
  example_row "m1" "t1" "" AlterDDLAction
    (example_setting DDLStrategyMySQL false false false false)
    OnlineDDLStatusRunning None.

(** * Properties *)

(** ** Cut-over threshold *)

(** C6.  The threshold validation maps [0] to the default of 10s without
    error, fails with code FAILED_PRECONDITION on a value strictly between
    0 and 5s or above 30s, and returns a value between 5s and 30s
    unchanged, without error. *)
Theorem safeMigrationCutOverThreshold_cases (d : Duration) :
  (d = 0 → safeMigrationCutOverThreshold d = (10 * Second, None))
  ∧ (0 < d < 5 * Second ∨ d > 30 * Second →
     ∃ err, snd (safeMigrationCutOverThreshold d) = Some err
            ∧ ErrCode err = Code_FAILED_PRECONDITION)
  ∧ (5 * Second ≤ d ≤ 30 * Second →
     safeMigrationCutOverThreshold d = (d, None)).
Proof.
  unfold safeMigrationCutOverThreshold, defaultCutOverThreshold,
    minCutOverThreshold, maxCutOverThreshold, Second, Millisecond,
    Microsecond, Nanosecond.
  repeat split.
  - intros ->. reflexivity.
  - intros Hd. repeat case_bool_decide; try lia; eexists; split; reflexivity.
  - intros Hd. repeat case_bool_decide; try lia. reflexivity.
Qed.

Lemma safeMigrationCutOverThreshold_cases_witness :
  safeMigrationCutOverThreshold (7 * Second) = (7 * Second, None)
  ∧ ∃ err, snd (safeMigrationCutOverThreshold (31 * Second)) = Some err
           ∧ ErrCode err = Code_FAILED_PRECONDITION.
Proof.
  split.
  - apply (proj2 (proj2 (safeMigrationCutOverThreshold_cases (7 * Second)))).
    vm_compute. split; discriminate.
  - apply (proj1 (proj2 (safeMigrationCutOverThreshold_cases (31 * Second)))).
    right. vm_compute. reflexivity.
Defined.

(** A negative threshold is refused like one below the minimum. *)
Lemma safeMigrationCutOverThreshold_negative (d : Duration) :
  d < 0 →
  safeMigrationCutOverThreshold d
  = (defaultCutOverThreshold,
     Some (Errorf Code_FAILED_PRECONDITION "cut-over min value is %v")).
Proof.
  intros Hd. unfold safeMigrationCutOverThreshold, minCutOverThreshold,
    Second, Millisecond, Microsecond, Nanosecond.
  repeat case_bool_decide; try lia. reflexivity.
Qed.

(** The result of the validation is always a usable threshold. *)
Lemma safeMigrationCutOverThreshold_range (d : Duration) :
  minCutOverThreshold ≤ fst (safeMigrationCutOverThreshold d)
                      ≤ maxCutOverThreshold.
Proof.
  unfold safeMigrationCutOverThreshold, defaultCutOverThreshold,
    minCutOverThreshold, maxCutOverThreshold, Second, Millisecond,
    Microsecond, Nanosecond.
  repeat case_bool_decide; simpl; lia.
Qed.

(** ** Cut-over backoff *)

Lemma desired_wait_clamped (n : Z) :
  desired_wait n
  = if bool_decide (n = 0) then 0
    else if bool_decide (n = 1) then 1 * Minute
    else if bool_decide (n = 2) then 5 * Minute
    else if bool_decide (n = 3) then 10 * Minute
    else 30 * Minute.
Proof.
  unfold desired_wait, slice_index.
  destruct (decide (n < 0)) as [Hneg | Hpos].
  - rewrite bool_decide_eq_false_2 by lia.
    repeat (rewrite bool_decide_eq_false_2 by lia). reflexivity.
  - rewrite bool_decide_eq_true_2 by lia.
    assert (n = 0 ∨ n = 1 ∨ n = 2 ∨ n = 3 ∨ n = 4 ∨ 5 ≤ n) as Hcases by lia.
    destruct Hcases as [-> | [-> | [-> | [-> | [-> | Hn]]]]];
      try reflexivity.
    rewrite lookup_ge_None_2 by (simpl; lia).
    repeat (rewrite bool_decide_eq_false_2 by lia). reflexivity.
Qed.

(** The wait the code computes is the clamped table entry, for a number of
    attempts that is not negative. *)
Lemma shouldCutOverAccordingToBackoff_unforced
    (fcoa srtc sla attempts : Z) :
  0 ≤ attempts →
  ¬ (0 < fcoa ∧ (fcoa < srtc ∨ fcoa ≤ Millisecond)) →
  shouldCutOverAccordingToBackoff false fcoa srtc sla attempts
  = Some (bool_decide (sla >= desired_wait attempts), false).
Proof.
  intros Hn Hforce.
  unfold shouldCutOverAccordingToBackoff. cbv zeta.
  match goal with
  | |- context [mbind ?f ?x] => set (backoff := mbind f x)
  end.
  assert (Hback :
    backoff = Some (bool_decide (sla >= desired_wait attempts), false)).
  { subst backoff. rewrite desired_wait_clamped. simpl length.
    case_bool_decide as Hlt.
    - assert (attempts = 0 ∨ attempts = 1 ∨ attempts = 2 ∨ attempts = 3
              ∨ attempts = 4) as Hcases by lia.
      destruct Hcases as [-> | [-> | [-> | [-> | ->]]]]; simpl;
        case_bool_decide; reflexivity.
    - rewrite (bool_decide_eq_false_2 (attempts = 0)),
        (bool_decide_eq_false_2 (attempts = 1)),
        (bool_decide_eq_false_2 (attempts = 2)),
        (bool_decide_eq_false_2 (attempts = 3)) by lia.
      simpl. case_bool_decide; reflexivity. }
  rewrite Hback. clear Hback backoff.
  repeat case_bool_decide; try reflexivity; lia.
Qed.

(** C1 (as amended).  The decision is attempt-immediately-with-force-KILL
    when [force_cutover] is set, or when [force_cut_over_after] is positive
    and either [since_ready_to_complete] is strictly beyond it or it is at
    most 1ms.  Otherwise, for a number of attempts that is not negative,
    the desired wait is the element of [{0, 1m, 5m, 10m, 30m}] indexed by
    the number of attempts, the last one when the index is past the end,
    and a cut-over is attempted, without force, exactly when
    [since_last_attempt ≥ desired]. *)
Theorem shouldCutOverAccordingToBackoff_decision
    (force_cutover : bool)
    (force_cut_over_after since_ready_to_complete since_last_attempt : Duration)
    (cutover_attempts : Z) :
  (force_cutover = true
   ∨ (0 < force_cut_over_after
      ∧ (force_cut_over_after < since_ready_to_complete
         ∨ force_cut_over_after ≤ Millisecond)) →
   shouldCutOverAccordingToBackoff force_cutover force_cut_over_after
     since_ready_to_complete since_last_attempt cutover_attempts
   = Some (true, true))
  ∧ (force_cutover = false →
     ¬ (0 < force_cut_over_after
        ∧ (force_cut_over_after < since_ready_to_complete
           ∨ force_cut_over_after ≤ Millisecond)) →
     0 ≤ cutover_attempts →
     shouldCutOverAccordingToBackoff force_cutover force_cut_over_after
       since_ready_to_complete since_last_attempt cutover_attempts
     = Some (bool_decide (since_last_attempt >= desired_wait cutover_attempts),
             false)).
Proof.
  split.
  - intros [-> | [Hpos Hor]]; [reflexivity |].
    unfold shouldCutOverAccordingToBackoff. cbv zeta.
    destruct force_cutover; [reflexivity |].
    repeat case_bool_decide; try reflexivity; lia.
  - intros -> Hforce Hn.
    by apply shouldCutOverAccordingToBackoff_unforced.
Qed.

Lemma shouldCutOverAccordingToBackoff_decision_witness :
  shouldCutOverAccordingToBackoff false (2 * Second) (3 * Second) 0 7
  = Some (true, true)
  ∧ shouldCutOverAccordingToBackoff false (2 * Second) (2 * Second)
      (30 * Minute) 7
    = Some (true, false).
Proof.
  split.
  - apply (proj1 (shouldCutOverAccordingToBackoff_decision
                    false (2 * Second) (3 * Second) 0 7)).
    right. vm_compute. repeat split; (reflexivity || (left; reflexivity)).
  - apply (proj2 (shouldCutOverAccordingToBackoff_decision
                    false (2 * Second) (2 * Second) (30 * Minute) 7)).
    + reflexivity.
    + vm_compute. intros [_ [H | H]]; [discriminate H | apply H; reflexivity].
    + vm_compute. discriminate.
Defined.

(** C1 (as stated) fails: at [since_ready_to_complete =
    force_cut_over_after] the code does not force, and neither does it for
    [force_cut_over_after = 0], the unset value, which the specification's
    "[≤ 1ms]" would cover. *)
Lemma backoff_as_specified_differs :
  shouldCutOverAccordingToBackoff false (1 * Second) (1 * Second) 0 1
  = Some (false, false)
  ∧ backoff_as_specified false (1 * Second) (1 * Second) 0 1 = (true, true)
  ∧ shouldCutOverAccordingToBackoff false 0 0 0 1 = Some (false, false)
  ∧ backoff_as_specified false 0 0 0 1 = (true, true).
Proof. repeat split. Qed.

(** With a negative number of attempts the index expression is out of
    range and the function panics, unless a force condition returned
    first. *)
Lemma shouldCutOverAccordingToBackoff_negative_attempts
    (fcoa srtc sla attempts : Z) :
  attempts < 0 →
  ¬ (0 < fcoa ∧ (fcoa < srtc ∨ fcoa ≤ Millisecond)) →
  shouldCutOverAccordingToBackoff false fcoa srtc sla attempts = None.
Proof.
  intros Hn Hforce. unfold shouldCutOverAccordingToBackoff, slice_index.
  cbv zeta. simpl length.
  repeat case_bool_decide; try reflexivity; lia.
Qed.

Lemma shouldCutOverAccordingToBackoff_negative_attempts_witness :
  shouldCutOverAccordingToBackoff false 0 0 0 (-1) = None.
Proof.
  apply shouldCutOverAccordingToBackoff_negative_attempts.
  - reflexivity.
  - intros [H _]. discriminate H.
Defined.

(** ** Conflicts between a running and a proposed migration *)

(** The action [allowConcurrentMigration] returns is the migration's own
    only when the migration declares [--allow-concurrent]; otherwise it is
    the zero value of the result variable. *)
Lemma allowConcurrentMigration_action (onlineDDL : OnlineDDL) :
  fst (allowConcurrentMigration onlineDDL)
  = if IsAllowConcurrent (StrategySetting onlineDDL)
    then fst (GetAction (SQL onlineDDL))
    else DDLAction_zero.
Proof.
  unfold allowConcurrentMigration.
  destruct (IsAllowConcurrent _); [| reflexivity]. simpl.
  destruct (GetAction _) as [action [err |]]; [reflexivity |].
  destruct action; reflexivity.
Qed.

(** What the conflict predicate of the code decides. *)
Lemma proposedMigrationConflictsWithRunningMigration_iff
    (running proposed : OnlineDDL) :
  proposedMigrationConflictsWithRunningMigration running proposed = true
  ↔ Table running = Table proposed
    ∨ (snd (allowConcurrentMigration running) = false
       ∧ snd (allowConcurrentMigration proposed) = false)
    ∨ (IsAllowConcurrent (StrategySetting proposed) = true
       ∧ fst (GetAction (SQL proposed)) = AlterDDLAction
       ∧ WasReadyToComplete running = 0).
Proof.
  unfold proposedMigrationConflictsWithRunningMigration.
  pose proof (allowConcurrentMigration_action proposed) as Hact.
  destruct (allowConcurrentMigration running) as [ra rc].
  destruct (allowConcurrentMigration proposed) as [pa pc].
  simpl in *. subst pa.
  case_bool_decide as Htable; [tauto |].
  destruct rc, pc, (IsAllowConcurrent (StrategySetting proposed)); simpl;
    unfold DDLAction_zero;
    repeat case_bool_decide; simpl; split; intros; try tauto;
      try discriminate; try (right; right; tauto);
      try (right; left; tauto);
      repeat match goal with
             | H : _ ∨ _ |- _ => destruct H
             | H : _ ∧ _ |- _ => destruct H
             end; try tauto; try discriminate; try congruence.
Qed.

(** For a candidate that declares [--allow-concurrent] the code decides
    what the specification says. *)
Lemma proposedMigrationConflictsWithRunningMigration_declared
    (running candidate : OnlineDDL) :
  IsAllowConcurrent (StrategySetting candidate) = true →
  proposedMigrationConflictsWithRunningMigration running candidate
  = conflict_as_specified running candidate.
Proof.
  intros Hdecl. unfold proposedMigrationConflictsWithRunningMigration,
    conflict_as_specified.
  pose proof (allowConcurrentMigration_action candidate) as Hact.
  rewrite Hdecl in Hact.
  destruct (allowConcurrentMigration running) as [ra rc].
  destruct (allowConcurrentMigration candidate) as [pa pc].
  simpl in *. subst pa.
  case_bool_decide; [reflexivity |]. simpl.
  destruct (negb rc && negb pc); [reflexivity |]. simpl.
  destruct (bool_decide _ && bool_decide _); reflexivity.
Qed.

Lemma isAnyConflictingMigrationRunning_false
    (onlineDDL : OnlineDDL) (e : Executor) :
  fst (isAnyConflictingMigrationRunning onlineDDL e) = false
  ↔ ∀ uuid running,
      ownedRunningMigrations e !! uuid = Some running →
      proposedMigrationConflictsWithRunningMigration running onlineDDL = false.
Proof.
  unfold isAnyConflictingMigrationRunning. simpl.
  rewrite bool_decide_eq_false.
  set (P := λ running : OnlineDDL,
         proposedMigrationConflictsWithRunningMigration running onlineDDL
         = true).
  set (l := (map_to_list (ownedRunningMigrations e)).*2).
  assert (Hl : ∀ running, running ∈ l
               ↔ ∃ uuid, ownedRunningMigrations e !! uuid = Some running).
  { intros running. subst l. rewrite list_elem_of_fmap. split.
    - intros [[uuid r] [-> Hin]]. exists uuid.
      by apply elem_of_map_to_list in Hin.
    - intros [uuid Hin]. exists (uuid, running). split; [reflexivity |].
      by apply elem_of_map_to_list. }
  split.
  - intros Hnone uuid running Hin.
    destruct (proposedMigrationConflictsWithRunningMigration running onlineDDL)
      eqn:Hc; [| reflexivity].
    exfalso. apply Hnone.
    destruct (list_find P l) as [[i r] |] eqn:Hfind; [discriminate |].
    apply list_find_None in Hfind.
    rewrite Forall_forall in Hfind.
    exfalso. apply (Hfind running); [apply Hl; eauto | exact Hc].
  - intros Hall Hsome. apply Hsome. clear Hsome.
    destruct (list_find P l) as [[i r] |] eqn:Hfind; [| reflexivity].
    apply list_find_Some in Hfind as (Hi & HP & _).
    apply list_elem_of_lookup_2 in Hi. apply Hl in Hi as [uuid Hin].
    specialize (Hall uuid r Hin). unfold P in HP. congruence.
Qed.

Section Runner.

Context (c : Collaborators).

Lemma readMigration_Ok (uuid : string) (e : Executor) onlineDDL row :
  readMigration uuid e = Ok (onlineDDL, row) →
  filter (λ r, uuid_is uuid r = true) (schema_migrations e) = [row]
  ∧ onlineDDL = onlineDDL_of_row row.
Proof.
  unfold readMigration, sqlSelectMigration, sqlSelect. simpl.
  destruct (filter _ _) as [| r [| r' l]] eqn:Hf; try discriminate.
  by intros [= <- <-].
Qed.

Lemma readMigration_row (uuid : string) (e : Executor) onlineDDL row :
  readMigration uuid e = Ok (onlineDDL, row) →
  row ∈ schema_migrations e ∧ migration_uuid row = uuid
  ∧ ∀ r, r ∈ schema_migrations e → migration_uuid r = uuid → r = row.
Proof.
  intros H. apply readMigration_Ok in H as [Hf _].
  assert (Hin : ∀ r, r ∈ schema_migrations e ∧ migration_uuid r = uuid
                     ↔ r = row).
  { intros r. split.
    - intros [Hr Hu]. apply (list_elem_of_singleton r row). rewrite <- Hf.
      apply list_elem_of_filter. split; [| exact Hr].
      unfold uuid_is. by apply bool_decide_eq_true.
    - intros ->.
      assert (Hrow : row ∈ filter (λ r, uuid_is uuid r = true)
                             (schema_migrations e))
        by (rewrite Hf; apply list_elem_of_here).
      apply list_elem_of_filter in Hrow as [Hu Hr].
      unfold uuid_is in Hu. apply bool_decide_eq_true in Hu. done. }
  split; [by apply Hin |]. split; [by apply Hin |].
  intros r Hr Hu. by apply Hin.
Qed.

Lemma getNonConflictingMigration_loop_Some
    (pending : list string) (rows : list Row) (e e' : Executor)
    (m : OnlineDDL) :
  (∀ r, r ∈ rows → r ∈ schema_migrations e) →
  getNonConflictingMigration_loop c pending rows e = (e', Ok (Some m)) →
  e' = e
  ∧ (∃ row, row ∈ rows ∧ m = onlineDDL_of_row row)
  ∧ fst (isAnyConflictingMigrationRunning m e) = false.
Proof.
  induction rows as [| row0 rows IH]; cbn [getNonConflictingMigration_loop];
    [discriminate |].
  intros Hsub.
  assert (Hrec :
    getNonConflictingMigration_loop c pending rows e = (e', Ok (Some m)) →
    e' = e
    ∧ (∃ row, row ∈ row0 :: rows ∧ m = onlineDDL_of_row row)
    ∧ fst (isAnyConflictingMigrationRunning m e) = false).
  { intros H. destruct IH as (-> & (row & Hr & Hm) & Hc); [| exact H |].
    - intros r Hr. apply Hsub. by apply list_elem_of_further.
    - split; [reflexivity |]. split; [| exact Hc].
      exists row. split; [by apply list_elem_of_further | exact Hm]. }
  destruct (readMigration (migration_uuid row0) e) as [[onlineDDL row] | err]
    eqn:Hread; [| discriminate].
  pose proof (readMigration_Ok _ _ _ _ Hread) as [_ ->].
  apply readMigration_row in Hread as (_ & _ & Huniq).
  assert (row0 = row) as <-
    by (apply Huniq; [apply Hsub, list_elem_of_here | reflexivity]).
  destruct (fst (isAnyConflictingMigrationRunning (onlineDDL_of_row row0) e))
    eqn:Hconf; [exact Hrec |].
  assert (Hhere :
    (e, Ok (Some (onlineDDL_of_row row0))) = (e', Ok (Some m)) →
    e' = e
    ∧ (∃ row, row ∈ row0 :: rows ∧ m = onlineDDL_of_row row)
    ∧ fst (isAnyConflictingMigrationRunning m e) = false).
  { intros [= <- <-]. split; [reflexivity |]. split; [| exact Hconf].
    exists row0. split; [apply list_elem_of_here | done]. }
  case_bool_decide; [discriminate |].
  destruct (_ && _ && _ && _); [exact Hrec |].
  destruct (IsInOrderCompletion (StrategySetting (onlineDDL_of_row row0)))
    eqn:Hio; [| exact Hhere].
  unfold validateInOrderMigration. rewrite Hio. cbn [negb].
  case_bool_decide; [exact Hhere | discriminate].
Qed.

(** The runner hands a migration to its handler only if it is a ready
    row that conflicts with no owned running migration, and it changes
    nothing before the hand-over. *)
Lemma getNonConflictingMigration_Some (e e' : Executor) (m : OnlineDDL) :
  getNonConflictingMigration c e = (e', Ok (Some m)) →
  e' = e
  ∧ (∃ row, row ∈ schema_migrations e
            ∧ migration_status row = OnlineDDLStatusReady
            ∧ m = onlineDDL_of_row row)
  ∧ ∀ uuid running,
      ownedRunningMigrations e !! uuid = Some running →
      proposedMigrationConflictsWithRunningMigration running m = false.
Proof.
  unfold getNonConflictingMigration. intros H.
  assert (Hready : ∀ r, r ∈ Rows (sqlSelectReadyMigrations e) →
            r ∈ schema_migrations e
            ∧ migration_status r = OnlineDDLStatusReady).
  { intros r Hr. unfold sqlSelectReadyMigrations, sqlSelect in Hr.
    simpl in Hr. apply list_elem_of_filter in Hr as [Hs Hin].
    by apply bool_decide_eq_true in Hs. }
  apply getNonConflictingMigration_loop_Some in H
    as (-> & (row & Hr & ->) & Hc); [| intros r Hr; by apply Hready].
  split; [reflexivity |]. split.
  - exists row. destruct (Hready row Hr). done.
  - by apply isAnyConflictingMigrationRunning_false.
Qed.

End Runner.

Lemma getNonConflictingMigration_Some_witness :
  proposedMigrationConflictsWithRunningMigration
    running_concurrent_alter (onlineDDL_of_row ready_plain_alter_row) = false.
Proof.
  apply (proj2 (proj2 (getNonConflictingMigration_Some example_collaborators
    runner_example runner_example (onlineDDL_of_row ready_plain_alter_row)
    eq_refl)) "r1" running_concurrent_alter).
  reflexivity.
Defined.

(** C2.  Evaluation at the input where the code departs from the
    specification of a conflict: a ready ALTER without [--allow-concurrent] does not conflict with a
    running [--allow-concurrent] migration of another table that was never
    ready to complete, although the candidate is an ALTER; the runner
    hands it to its handler. *)
Theorem plain_alter_beside_copying_migration :
  proposedMigrationConflictsWithRunningMigration
    running_concurrent_alter (onlineDDL_of_row ready_plain_alter_row) = false
  ∧ conflict_as_specified
      running_concurrent_alter (onlineDDL_of_row ready_plain_alter_row) = true
  ∧ snd (runNextMigration example_collaborators runner_example)
    = Ok (Some (onlineDDL_of_row ready_plain_alter_row)).
Proof. repeat split. Qed.

(** ** Updates of the table *)

Lemma sqlUpdate_table (cond : Row → bool) (f : Row → Row) (e : Executor) :
  schema_migrations (fst (sqlUpdate cond f e))
  = (λ r, if cond r then f r else r) <$> schema_migrations e.
Proof. reflexivity. Qed.

Lemma filter_uuid_fmap (g : Row → Row) (uuid : string) (t : list Row) :
  (∀ r, migration_uuid (g r) = migration_uuid r) →
  filter (λ r, uuid_is uuid r = true) (g <$> t)
  = g <$> filter (λ r, uuid_is uuid r = true) t.
Proof.
  intros Hg. induction t as [| r t IH]; [reflexivity |].
  rewrite fmap_cons.
  assert (Hu : uuid_is uuid (g r) = uuid_is uuid r)
    by (unfold uuid_is; by rewrite Hg).
  destruct (uuid_is uuid r) eqn:Hr.
  - rewrite !filter_cons_True by done. by rewrite fmap_cons, IH.
  - rewrite !filter_cons_False by (rewrite ?Hu, ?Hr; done). exact IH.
Qed.

(** Reading a migration back after an update of rows that keeps the
    UUIDs. *)
Lemma readMigration_fmap (g : Row → Row) (uuid : string) (e e' : Executor)
    onlineDDL row :
  (∀ r, migration_uuid (g r) = migration_uuid r) →
  schema_migrations e' = g <$> schema_migrations e →
  readMigration uuid e = Ok (onlineDDL, row) →
  readMigration uuid e' = Ok (onlineDDL_of_row (g row), g row).
Proof.
  intros Hg He' Hread. apply readMigration_Ok in Hread as [Hf _].
  unfold readMigration, sqlSelectMigration, sqlSelect. simpl.
  by rewrite He', filter_uuid_fmap, Hf.
Qed.

Lemma with_schema_migrations_same (e : Executor) :
  with_schema_migrations (schema_migrations e) e = e.
Proof. by destruct e. Qed.

Lemma fmap_if_id (cond : Row → bool) (t : list Row) :
  (λ r : Row, if cond r then r else r) <$> t = t.
Proof.
  rewrite <- (list_fmap_id t) at 2. apply list_fmap_ext.
  intros i r _. by destruct (cond r).
Qed.

(** ** Failure and cancellation *)

Section Cancel.

Context (c : Collaborators).

(** [failMigration] disowns the migration and leaves in its row what the
    database carried out of the two updates. *)
Lemma failMigration_effect
    (onlineDDL : OnlineDDL) (withError : option string) (e : Executor) :
  ∃ statusApplied messageApplied,
    failMigration c onlineDDL withError e
    = with_ownedRunningMigrations
        (delete (UUID onlineDDL) (ownedRunningMigrations e))
        (with_schema_migrations
           ((λ r, if uuid_is (UUID onlineDDL) r
                  then failMigration_row c statusApplied messageApplied withError r
                  else r) <$> schema_migrations e) e)
    ∧ (status_update_applies c (UUID onlineDDL) → statusApplied = true)
    ∧ (message_update_applies c (UUID onlineDDL) → messageApplied = true).
Proof.
  unfold failMigration, status_update_applies, message_update_applies.
  set (uuid := UUID onlineDDL).
  destruct (discarded_statement_applies c e StatusFailedOrCancelled uuid)
    eqn:Hstatus.
  - set (e1 := updateMigrationStatusFailedOrCancelled uuid e).
    destruct withError as [msg |].
    + destruct (discarded_statement_applies c e1 MessageOfFailure uuid)
        eqn:Hmessage.
      * exists true, true. split; [| done].
        unfold e1, updateMigrationMessage, updateMigrationStatusFailedOrCancelled,
          sqlUpdateMessage, sqlUpdateMigrationStatusFailedOrCancelled, sqlUpdate.
        unfold with_ownedRunningMigrations, with_schema_migrations. simpl.
        f_equal. rewrite <- list_fmap_compose.
        apply list_fmap_ext. intros i r _. unfold failMigration_row, uuid_is. simpl.
        destruct (bool_decide (migration_uuid r = uuid)) eqn:Hr; simpl;
          by rewrite ?Hr.
      * exists true, false. split.
        { reflexivity. }
        split; [done |]. intros Hall. by rewrite Hall in Hmessage.
    + exists true, true. split; [reflexivity | done].
  - destruct withError as [msg |].
    + destruct (discarded_statement_applies c e MessageOfFailure uuid)
        eqn:Hmessage.
      * exists false, true. split; [reflexivity |].
        split; [| done]. intros Hall. by rewrite Hall in Hstatus.
      * exists false, false. split.
        { unfold failMigration_row. rewrite fmap_if_id.
          by rewrite with_schema_migrations_same. }
        split; intros Hall; [by rewrite Hall in Hstatus
                            | by rewrite Hall in Hmessage].
    + exists false, true. split.
      { unfold failMigration_row. rewrite fmap_if_id.
        by rewrite with_schema_migrations_same. }
      split; [| done]. intros Hall. by rewrite Hall in Hstatus.
Qed.

Lemma failMigration_owned
    (onlineDDL : OnlineDDL) (withError : option string) (e : Executor) :
  ownedRunningMigrations (failMigration c onlineDDL withError e)
  = delete (UUID onlineDDL) (ownedRunningMigrations e).
Proof.
  destruct (failMigration_effect onlineDDL withError e)
    as (statusApplied & messageApplied & -> & _).
  reflexivity.
Qed.

Lemma failMigration_row_uuid
    (statusApplied messageApplied : bool) (withError : option string)
    (r : Row) :
  migration_uuid (failMigration_row c statusApplied messageApplied withError r)
  = migration_uuid r.
Proof.
  unfold failMigration_row.
  by destruct statusApplied, withError, messageApplied.
Qed.

(** The row keeps its status or ends failed or cancelled; it ends so when
    the status update is carried out. *)
Lemma failMigration_row_status
    (statusApplied messageApplied : bool) (withError : option string)
    (r : Row) :
  migration_status (failMigration_row c statusApplied messageApplied withError r)
  = (if statusApplied
     then match cancelled_timestamp r with
          | None => OnlineDDLStatusFailed
          | Some _ => OnlineDDLStatusCancelled
          end
     else migration_status r)
  ∧ cancelled_timestamp
      (failMigration_row c statusApplied messageApplied withError r)
    = cancelled_timestamp r.
Proof.
  unfold failMigration_row.
  by destruct statusApplied, withError, messageApplied.
Qed.

Lemma CancelMigration_table
    (uuid message : string) (issuedByUser : bool) (e : Executor)
    onlineDDL row :
  isOpen e ≠ 0 →
  readMigration uuid e = Ok (onlineDDL, row) →
  is_terminal (migration_status row) = false →
  ∃ statusApplied messageApplied,
    let e' := fst (CancelMigration c uuid message issuedByUser e) in
    schema_migrations e'
    = (λ r, if uuid_is uuid r
            then cancelled_row c message issuedByUser (now e)
                   statusApplied messageApplied r
            else r)
      <$> schema_migrations e
    ∧ isOpen e' = isOpen e
    ∧ (status_update_applies c uuid → statusApplied = true)
    ∧ (message_update_applies c uuid → messageApplied = true).
Proof.
  intros Hopen Hread Hterm.
  pose proof (readMigration_Ok _ _ _ _ Hread) as [_ ->].
  apply readMigration_row in Hread as Hrow. destruct Hrow as (_ & Hu & _).
  subst uuid. unfold CancelMigration.
  rewrite bool_decide_eq_false_2 by exact Hopen. rewrite Hread.
  set (uuid := migration_uuid row) in *.
  set (e1 := if issuedByUser
             then updateMigrationTimestamp "cancelled_timestamp" uuid e
             else e).
  assert (He1 : schema_migrations e1
                = (λ r, if uuid_is uuid r
                        then (if issuedByUser
                              then set_cancelled_timestamp (Some (now e)) r
                              else r)
                        else r) <$> schema_migrations e
                ∧ isOpen e1 = isOpen e).
  { unfold e1. destruct issuedByUser; [split; reflexivity |].
    by rewrite fmap_if_id. }
  destruct He1 as [Htable1 Hopen1].
  assert (Hfail : ∀ e2,
    schema_migrations e2 = schema_migrations e1 → isOpen e2 = isOpen e1 →
    ∃ statusApplied messageApplied,
      schema_migrations
        (failMigration c (onlineDDL_of_row row) (Some message) e2)
      = (λ r, if uuid_is uuid r
              then cancelled_row c message issuedByUser (now e)
                     statusApplied messageApplied r
              else r) <$> schema_migrations e
      ∧ isOpen (failMigration c (onlineDDL_of_row row) (Some message) e2)
        = isOpen e
      ∧ (status_update_applies c uuid → statusApplied = true)
      ∧ (message_update_applies c uuid → messageApplied = true)).
  { intros e2 Htable2 Hopen2.
    destruct (failMigration_effect (onlineDDL_of_row row) (Some message) e2)
      as (statusApplied & messageApplied & -> & Hstatus & Hmessage).
    exists statusApplied, messageApplied.
    split; [| split; [simpl; congruence | split; assumption]].
    simpl. rewrite Htable2, Htable1, <- list_fmap_compose.
    apply list_fmap_ext. intros i r _.
    unfold cancelled_row, uuid_is, uuid. simpl.
    destruct (bool_decide (migration_uuid r = migration_uuid row)) eqn:Hr;
      destruct issuedByUser; simpl; rewrite ?failMigration_row_uuid, ?Hr;
      reflexivity. }
  cbn [Status onlineDDL_of_row UUID]. fold e1.
  destruct (migration_status row) eqn:Hs; try discriminate Hterm;
    try (apply Hfail; reflexivity).
  destruct (terminateMigration c (onlineDDL_of_row row) e1)
    as [e2 [migrationFound err]] eqn:Hterminate.
  assert (He2 : schema_migrations e2 = schema_migrations e1
                ∧ isOpen e2 = isOpen e1).
  { unfold terminateMigration in Hterminate.
    by injection Hterminate as <- _. }
  destruct He2 as [Htable2 Hopen2].
  destruct (Hfail e2 Htable2 Hopen2)
    as (statusApplied & messageApplied & Hresult).
  exists statusApplied, messageApplied. exact Hresult.
Qed.

Lemma CancelMigration_terminal
    (uuid message : string) (issuedByUser : bool) (e : Executor)
    onlineDDL row :
  isOpen e ≠ 0 →
  readMigration uuid e = Ok (onlineDDL, row) →
  is_terminal (migration_status row) = true →
  CancelMigration c uuid message issuedByUser e = (e, Ok emptyResult).
Proof.
  intros Hopen Hread Hterm.
  pose proof (readMigration_Ok _ _ _ _ Hread) as [_ ->].
  unfold CancelMigration.
  rewrite bool_decide_eq_false_2 by exact Hopen. rewrite Hread.
  cbn [Status onlineDDL_of_row].
  by destruct (migration_status row).
Qed.

(** The outcome of a cancellation whose status update the database
    carries out.  On an open executor, for a migration that exists: if it
    is in a terminal status, Cancel returns the empty result and changes
    nothing; if it is not, Cancel stamps [cancelled_timestamp] exactly
    when the call is issued by the user, the row ends in a terminal status
    that is [cancelled] exactly when the row carries a cancellation stamp,
    and hence, for a row that carried none before, [cancelled] rather than
    [failed] exactly in the user-issued case.  A second Cancel returns the
    empty result and changes nothing. *)
Lemma CancelMigration_outcome
    (uuid message : string) (issuedByUser : bool) (e : Executor)
    (onlineDDL : OnlineDDL) (row : Row) :
  status_update_applies c uuid →
  isOpen e ≠ 0 →
  readMigration uuid e = Ok (onlineDDL, row) →
  (is_terminal (migration_status row) = true →
   CancelMigration c uuid message issuedByUser e = (e, Ok emptyResult))
  ∧ (is_terminal (migration_status row) = false →
     ∃ row',
       readMigration uuid (fst (CancelMigration c uuid message issuedByUser e))
       = Ok (onlineDDL_of_row row', row')
       ∧ cancelled_timestamp row'
         = (if issuedByUser then Some (now e) else cancelled_timestamp row)
       ∧ is_terminal (migration_status row') = true
       ∧ (migration_status row' = OnlineDDLStatusCancelled
          ↔ cancelled_timestamp row' ≠ None)
       ∧ (cancelled_timestamp row = None →
          migration_status row'
          = if issuedByUser then OnlineDDLStatusCancelled
            else OnlineDDLStatusFailed))
  ∧ CancelMigration c uuid message issuedByUser
      (fst (CancelMigration c uuid message issuedByUser e))
    = (fst (CancelMigration c uuid message issuedByUser e), Ok emptyResult).
Proof.
  intros Happlies Hopen Hread.
  assert (Hnonterm :
    is_terminal (migration_status row) = false →
    ∃ messageApplied,
      readMigration uuid (fst (CancelMigration c uuid message issuedByUser e))
      = Ok (onlineDDL_of_row
              (cancelled_row c message issuedByUser (now e) true
                 messageApplied row),
            cancelled_row c message issuedByUser (now e) true
              messageApplied row)
      ∧ isOpen (fst (CancelMigration c uuid message issuedByUser e))
        = isOpen e).
  { intros Hterm.
    destruct (CancelMigration_table uuid message issuedByUser e _ _
                Hopen Hread Hterm)
      as (statusApplied & messageApplied & Htable & Hopen' & Hstatus & _).
    rewrite (Hstatus Happlies) in Htable.
    exists messageApplied. split; [| exact Hopen'].
    pose proof (readMigration_row _ _ _ _ Hread) as (_ & Hu & _).
    set (g := λ r, if uuid_is uuid r
                   then cancelled_row c message issuedByUser (now e) true
                          messageApplied r
                   else r) in *.
    assert (Hg : ∀ r, migration_uuid (g r) = migration_uuid r).
    { intros r. unfold g, cancelled_row.
      destruct (uuid_is uuid r); [| reflexivity].
      rewrite failMigration_row_uuid. by destruct issuedByUser. }
    assert (Hrow : g row
                   = cancelled_row c message issuedByUser (now e) true
                       messageApplied row).
    { unfold g, uuid_is. by rewrite bool_decide_eq_true_2. }
    rewrite <- Hrow.
    exact (readMigration_fmap g uuid e _ onlineDDL row Hg Htable Hread). }
  assert (Hfinal : ∀ messageApplied,
    is_terminal (migration_status
                   (cancelled_row c message issuedByUser (now e) true
                      messageApplied row)) = true).
  { intros messageApplied. unfold cancelled_row.
    rewrite (proj1 (failMigration_row_status _ _ _ _)).
    by destruct issuedByUser, (cancelled_timestamp row). }
  split; [| split].
  - intros Hterm. by eapply CancelMigration_terminal.
  - intros Hterm. destruct (Hnonterm Hterm) as (messageApplied & Hback & _).
    eexists. split; [exact Hback |].
    split; [| split; [apply Hfinal |]].
    + unfold cancelled_row. rewrite (proj2 (failMigration_row_status _ _ _ _)).
      by destruct issuedByUser.
    + unfold cancelled_row.
      rewrite (proj1 (failMigration_row_status _ _ _ _)),
        (proj2 (failMigration_row_status _ _ _ _)).
      destruct issuedByUser, (cancelled_timestamp row) eqn:Hts; simpl;
        rewrite ?Hts; (split; [split |]); try done; try congruence.
  - destruct (is_terminal (migration_status row)) eqn:Hterm.
    + rewrite (CancelMigration_terminal _ _ _ _ _ _ Hopen Hread Hterm).
      by eapply CancelMigration_terminal.
    + destruct (Hnonterm eq_refl) as (messageApplied & Hback & Hopen').
      eapply CancelMigration_terminal;
        [congruence | exact Hback | apply Hfinal].
Qed.

End Cancel.

(** C5.  [failMigration] discards the error of its status update, so a
    cancellation can report success and leave the migration where it was.
    A running migration is cancelled by the user while the database
    rejects that one update: the call returns one affected row, and the
    row is still running, now with a cancellation stamp and the message.
    Cancelling again is then no no-op; and the internal cancellation that
    follows, not issued by the user, ends in [cancelled], not in
    [failed]. *)
Theorem cancel_after_lost_status_update :
  let e := example_executor 1 [running_row] in
  let first := CancelMigration lossy_collaborators "u1" "stop" true e in
  let again := CancelMigration example_collaborators "u1" "stop" true (fst first) in
  let internal :=
    CancelMigration example_collaborators "u1" "stale" false (fst first) in
  snd first = Ok {| RowsAffected := 1; Rows := [] |}
  ∧ (λ r, (migration_status r, cancelled_timestamp r, message r))
      <$> schema_migrations (fst first)
    = [(OnlineDDLStatusRunning, Some 1000, "stop")]
  ∧ fst again ≠ fst first
  ∧ snd internal = Ok emptyResult
  ∧ (λ r, (migration_status r, cancelled_timestamp r, message r))
      <$> schema_migrations (fst internal)
    = [(OnlineDDLStatusCancelled, Some 1000, "stale")].
Proof.
  cbv zeta. split; [reflexivity |]. split; [reflexivity |].
  split; [| split; reflexivity].
  intros Hsame. apply (f_equal schema_migrations) in Hsame.
  vm_compute in Hsame. discriminate.
Qed.

(** ** A closed executor *)

(** C7 (as amended).  When the executor is closed, which is also the
    state [Open] leaves it in when online DDL is disabled, Submit, Cancel,
    Retry, Cleanup, Complete, Launch, ForceCutOver and SetCutOverThreshold
    return an error whose code is FAILED_PRECONDITION and change no
    state. *)
Theorem closed_executor_rejects (c : Collaborators) (e : Executor) :
  isOpen e = 0 →
  (EnableOnlineDDL e = false → Open e = e)
  ∧ ErrCode errOnlineDDLDisabled = Code_FAILED_PRECONDITION
  ∧ (∀ stmt, SubmitMigration c stmt e = (e, Err errOnlineDDLDisabled))
  ∧ (∀ uuid message issuedByUser,
       CancelMigration c uuid message issuedByUser e
       = (e, Err errOnlineDDLDisabled))
  ∧ (∀ uuid, RetryMigration c uuid e = (e, Err errOnlineDDLDisabled))
  ∧ (∀ uuid, CleanupMigration c uuid e = (e, Err errOnlineDDLDisabled))
  ∧ (∀ uuid shardsArg,
       CompleteMigration c uuid shardsArg e = (e, Err errOnlineDDLDisabled))
  ∧ (∀ uuid shardsArg,
       LaunchMigration c uuid shardsArg e = (e, Err errOnlineDDLDisabled))
  ∧ (∀ uuid, ForceCutOverMigration c uuid e = (e, Err errOnlineDDLDisabled))
  ∧ (∀ uuid thresholdString,
       SetMigrationCutOverThreshold c uuid thresholdString e
       = (e, Err errOnlineDDLDisabled)).
Proof.
  intros Hclosed.
  split. { intros Hoff. unfold Open. rewrite Hoff. by rewrite orb_true_r. }
  split; [reflexivity |].
  unfold SubmitMigration, CancelMigration, RetryMigration, CleanupMigration,
    CompleteMigration, LaunchMigration, ForceCutOverMigration,
    SetMigrationCutOverThreshold.
  rewrite !bool_decide_eq_true_2 by exact Hclosed.
  repeat split.
Qed.

Lemma closed_executor_rejects_witness :
  CancelMigration example_collaborators "u1" "stop" true
    (example_executor 0 [running_row])
  = (example_executor 0 [running_row], Err errOnlineDDLDisabled).
Proof.
  apply (proj1 (proj2 (proj2 (proj2
    (closed_executor_rejects example_collaborators
       (example_executor 0 [running_row]) eq_refl))))).
Defined.

(** C7 (as stated) fails: the code of the error is FAILED_PRECONDITION,
    not UNAVAILABLE; and unthrottling is not guarded by the executor's
    open flag: on a closed executor, with the throttler open, it succeeds
    and changes the throttler. *)
Lemma closed_executor_error_is_not_unavailable :
  (∃ err,
     snd (CancelMigration example_collaborators "u1" "stop" true
            (example_executor 0 [running_row])) = Err err
     ∧ ErrCode err = Code_FAILED_PRECONDITION
     ∧ ErrCode err ≠ Code_UNAVAILABLE)
  ∧ snd (UnthrottleMigration "u1" (example_executor 0 [running_row]))
    = Ok emptyResult
  ∧ throttledApps (lagThrottler (example_executor 0 [running_row])) = {["u1"]}
  ∧ throttledApps
      (lagThrottler
         (fst (UnthrottleMigration "u1" (example_executor 0 [running_row]))))
    = ∅.
Proof.
  split; [| repeat split].
  eexists. split; [reflexivity |]. split; [reflexivity | discriminate].
Qed.

(** ** Unique UUIDs *)

Lemma filter_uuid_NoDup (t : list Row) (r : Row) :
  NoDup (migration_uuid <$> t) → r ∈ t →
  filter (λ r', uuid_is (migration_uuid r) r' = true) t = [r].
Proof.
  induction t as [| r0 t IH]; intros Hnd Hin.
  - by apply not_elem_of_nil in Hin.
  - rewrite fmap_cons in Hnd. apply NoDup_cons in Hnd as [Hnotin Hnd].
    assert (Hnone : ∀ u, u ∉ migration_uuid <$> t →
              filter (λ r', uuid_is u r' = true) t = []).
    { clear. intros u Hu. induction t as [| r1 t IH]; [reflexivity |].
      rewrite fmap_cons in Hu. apply not_elem_of_cons in Hu as [Hne Hu].
      rewrite filter_cons_False; [by apply IH |].
      unfold uuid_is. rewrite bool_decide_eq_true. congruence. }
    apply elem_of_cons in Hin as [-> | Hin].
    + rewrite filter_cons_True
        by (unfold uuid_is; by rewrite bool_decide_eq_true).
      by rewrite Hnone.
    + rewrite filter_cons_False; [by apply IH |].
      unfold uuid_is. rewrite bool_decide_eq_true. intros Heq.
      apply Hnotin. rewrite Heq. apply list_elem_of_fmap. eauto.
Qed.

Lemma readMigration_unique (e : Executor) (r : Row) :
  unique_uuids e → r ∈ schema_migrations e →
  readMigration (migration_uuid r) e = Ok (onlineDDL_of_row r, r).
Proof.
  intros Hnd Hin. unfold readMigration, sqlSelectMigration, sqlSelect.
  simpl. by rewrite filter_uuid_NoDup.
Qed.

Lemma pending_rows_spec (e : Executor) (p : Row) :
  p ∈ pending_rows e
  ↔ p ∈ schema_migrations e ∧ is_terminal (migration_status p) = false.
Proof.
  unfold pending_rows, sqlSelectPendingMigrations, sqlSelect. simpl.
  rewrite list_elem_of_filter, negb_true_iff. tauto.
Qed.

(** ** The singleton gate *)

Lemma singleton_context_conflict (m : OnlineDDL) (p : Row) :
  migration_context p ≠ MigrationContext m →
  ¬ revert_without_singleton_context p →
  submittedMigrationConflictsWithPendingMigrationInSingletonContext
    m (onlineDDL_of_row p) = true.
Proof.
  intros Hctx Hexempt.
  unfold submittedMigrationConflictsWithPendingMigrationInSingletonContext,
    revert_without_singleton_context in *.
  cbn [onlineDDL_of_row MigrationContext SQL StrategySetting].
  rewrite bool_decide_eq_false_2 by exact Hctx.
  destruct (GetRevertUUID (migration_statement p)); [| reflexivity].
  destruct (IsSingletonContext (strategy_options p)); [reflexivity |].
  exfalso. apply Hexempt. done.
Qed.

Lemma singleton_context_no_conflict (m : OnlineDDL) (p : Row) :
  migration_context p = MigrationContext m
  ∨ revert_without_singleton_context p →
  submittedMigrationConflictsWithPendingMigrationInSingletonContext
    m (onlineDDL_of_row p) = false.
Proof.
  unfold submittedMigrationConflictsWithPendingMigrationInSingletonContext,
    revert_without_singleton_context.
  cbn [onlineDDL_of_row MigrationContext SQL StrategySetting].
  intros [Hctx | [Hrev Hflag]].
  - by rewrite bool_decide_eq_true_2.
  - case_bool_decide; [reflexivity |].
    destruct (GetRevertUUID (migration_statement p)); [| done].
    by rewrite Hflag.
Qed.

Lemma singletonContext_loop_rejects
    (m : OnlineDDL) (rows : list Row) (e : Executor) (p : Row) :
  (∀ r, r ∈ rows → r ∈ schema_migrations e) →
  p ∈ rows →
  migration_context p ≠ MigrationContext m →
  ¬ revert_without_singleton_context p →
  singletonContext_loop m rows e ≠ None.
Proof.
  intros Hsub Hin Hctx Hexempt.
  induction rows as [| r rows IH]; [by apply not_elem_of_nil in Hin |].
  cbn [singletonContext_loop].
  assert (Hrest : p ∈ rows → singletonContext_loop m rows e ≠ None).
  { intros Hp. apply IH; [| exact Hp].
    intros r' Hr'. apply Hsub. by apply list_elem_of_further. }
  case_bool_decide as Hsame.
  - apply elem_of_cons in Hin as [-> | Hp]; [congruence | by apply Hrest].
  - destruct (readMigration (migration_uuid r) e) as [[d row] | err]
      eqn:Hread; [| discriminate].
    pose proof (readMigration_Ok _ _ _ _ Hread) as [_ ->].
    apply readMigration_row in Hread as (_ & _ & Huniq).
    assert (r = row) as <-
      by (apply Huniq; [apply Hsub, list_elem_of_here | reflexivity]).
    destruct (submittedMigrationConflictsWithPendingMigrationInSingletonContext
                m (onlineDDL_of_row r)) eqn:Hc; [discriminate |].
    apply elem_of_cons in Hin as [-> | Hp]; [| by apply Hrest].
    by rewrite singleton_context_conflict in Hc.
Qed.

Lemma singletonContext_loop_passes
    (m : OnlineDDL) (rows : list Row) (e : Executor) :
  unique_uuids e →
  (∀ r, r ∈ rows → r ∈ schema_migrations e) →
  (∀ p, p ∈ rows →
        migration_context p = MigrationContext m
        ∨ revert_without_singleton_context p) →
  singletonContext_loop m rows e = None.
Proof.
  intros Hnd Hsub Hall.
  induction rows as [| r rows IH]; [reflexivity |].
  cbn [singletonContext_loop].
  assert (Hrest : singletonContext_loop m rows e = None).
  { apply IH; intros r' Hr'; [apply Hsub | apply Hall];
      by apply list_elem_of_further. }
  case_bool_decide; [exact Hrest |].
  rewrite readMigration_unique
    by (done || apply Hsub, list_elem_of_here).
  rewrite singleton_context_no_conflict
    by apply Hall, list_elem_of_here.
  exact Hrest.
Qed.

Lemma singletonTable_loop_rejects (m : OnlineDDL) (rows : list Row) (p : Row) :
  p ∈ rows → mysql_table p = Table m →
  singletonTable_loop m rows ≠ None.
Proof.
  intros Hin Htable.
  induction rows as [| r rows IH]; [by apply not_elem_of_nil in Hin |].
  cbn [singletonTable_loop]. case_bool_decide as Hsame; [discriminate |].
  apply elem_of_cons in Hin as [-> | Hp]; [congruence | by apply IH].
Qed.

Section Submission.

Context (c : Collaborators).

Lemma RetryMigration_Err (uuid : string) (e e' : Executor) (err : vterror) :
  RetryMigration c uuid e = (e', Err err) → e' = e.
Proof.
  unfold RetryMigration.
  repeat (case_bool_decide || destruct (negb _)); simpl; congruence.
Qed.

Lemma submitCallbackIfNonConflicting_Err
    (m : OnlineDDL) (callback : Executor → Executor * outcome Result)
    (e e' : Executor) (err : vterror) :
  (∀ e1 e2 err', callback e1 = (e2, Err err') → e2 = e1) →
  submitCallbackIfNonConflicting m callback e = (e', Err err) → e' = e.
Proof.
  intros Hcb. unfold submitCallbackIfNonConflicting.
  destruct (_ && _ && _); [by apply Hcb |].
  destruct (singletonGate m e); [congruence | by apply Hcb].
Qed.

(** A gate that objects stops the submission, whatever the callback. *)
Lemma submitCallbackIfNonConflicting_gate
    (m : OnlineDDL) (callback : Executor → Executor * outcome Result)
    (e : Executor) :
  singletonGate m e ≠ None →
  ∃ err, submitCallbackIfNonConflicting m callback e = (e, Err err)
         ∧ singletonGate m e = Some err.
Proof.
  intros Hgate. unfold submitCallbackIfNonConflicting.
  destruct (singletonGate m e) as [err |] eqn:Hg; [| done].
  assert (Hflags :
    negb (IsSingleton (StrategySetting m))
    && negb (IsSingletonContext (StrategySetting m))
    && negb (IsSingletonTable (StrategySetting m)) = false).
  { unfold singletonGate in Hg.
    destruct (IsSingleton _), (IsSingletonContext _), (IsSingletonTable _);
      try reflexivity; discriminate. }
  rewrite Hflags. eauto.
Qed.

(** A submission that returns an error has changed nothing. *)
Lemma SubmitMigration_Err (stmt : Statement) (e e' : Executor) (err : vterror) :
  SubmitMigration c stmt e = (e', Err err) → e' = e.
Proof.
  unfold SubmitMigration.
  case_bool_decide; [congruence |].
  destruct (_ && _); [congruence |].
  destruct (OnlineDDLFromCommentedStatement stmt) as [m |]; [| congruence].
  destruct (readMigration (UUID m) e) as [[stored row] | _].
  - case_bool_decide; [congruence |].
    apply submitCallbackIfNonConflicting_Err.
    intros e1 e2 err'. apply RetryMigration_Err.
  - destruct (snd (GetAction (SQL m))); [congruence |].
    destruct (CutOverThresholdFlag _); [congruence |].
    destruct (safeMigrationCutOverThreshold _) as [thr [err' |]];
      [congruence |].
    destruct (submitCallbackIfNonConflicting _ _ _) as [e1 [res | err1]]
      eqn:Hsub; [congruence |].
    intros [= <- _].
    refine (submitCallbackIfNonConflicting_Err _ _ _ _ _ _ Hsub).
    intros e2 e3 err'. cbv beta.
    match goal with
    | |- context [sqlInsertMigration ?r ?x] =>
      destruct (sqlInsertMigration r x)
    end.
    congruence.
Qed.

Lemma SubmitMigration_gate (stmt : Statement) (e : Executor) (m : OnlineDDL) :
  OnlineDDLFromCommentedStatement stmt = Some m →
  singletonGate m e ≠ None →
  rejected c stmt e.
Proof.
  intros Hm Hgate. unfold rejected, SubmitMigration. rewrite Hm.
  case_bool_decide; [eauto |].
  destruct (_ && _); [eauto |].
  destruct (readMigration (UUID m) e) as [[stored row] | _].
  - case_bool_decide; [eauto |].
    destruct (submitCallbackIfNonConflicting_gate m
                (RetryMigration c (UUID m)) e Hgate) as (err & -> & _).
    eauto.
  - destruct (snd (GetAction (SQL m))); [eauto |].
    destruct (CutOverThresholdFlag _); [eauto |].
    destruct (safeMigrationCutOverThreshold _) as [thr [err' |]]; [eauto |].
    match goal with
    | |- context [submitCallbackIfNonConflicting m ?cb e] =>
      destruct (submitCallbackIfNonConflicting_gate m cb e Hgate)
        as (err & -> & _)
    end.
    eauto.
Qed.

End Submission.

(** C3 (as amended).  For a submission that carries a singleton flag: with
    [singleton] it is rejected when any pending migration exists; with
    [singleton-context] it is rejected when a pending migration in a
    different context exists that is not a REVERT lacking
    [singleton-context], while pending migrations that are all of the same
    context or such REVERTs raise no objection of the gate (without
    [singleton]); with [singleton-table], and with [singleton] or without
    [singleton-context], it is rejected when a pending migration targets
    the same table.  A rejected submission leaves the table as it was. *)
Theorem singleton_submission_rejected
    (c : Collaborators) (stmt : Statement) (e : Executor) (m : OnlineDDL) :
  OnlineDDLFromCommentedStatement stmt = Some m →
  (IsSingleton (StrategySetting m) = true →
   pending_rows e ≠ [] → rejected c stmt e)
  ∧ (IsSingletonContext (StrategySetting m) = true →
     (∃ p, p ∈ pending_rows e
           ∧ migration_context p ≠ MigrationContext m
           ∧ ¬ revert_without_singleton_context p) →
     rejected c stmt e)
  ∧ (IsSingletonContext (StrategySetting m) = true →
     IsSingleton (StrategySetting m) = false →
     unique_uuids e →
     (∀ p, p ∈ pending_rows e →
           migration_context p = MigrationContext m
           ∨ revert_without_singleton_context p) →
     singletonGate m e = None)
  ∧ (IsSingletonTable (StrategySetting m) = true →
     IsSingleton (StrategySetting m) = true
     ∨ IsSingletonContext (StrategySetting m) = false →
     (∃ p, p ∈ pending_rows e ∧ mysql_table p = Table m) →
     rejected c stmt e)
  ∧ (∀ e' err, SubmitMigration c stmt e = (e', Err err) →
               schema_migrations e' = schema_migrations e).
Proof.
  intros Hm.
  assert (Hsub : ∀ r, r ∈ pending_rows e → r ∈ schema_migrations e)
    by (intros r Hr; by apply pending_rows_spec in Hr as [? _]).
  assert (Hany : IsSingleton (StrategySetting m) = true →
                 pending_rows e ≠ [] → rejected c stmt e).
  { intros Hflag Hpending. apply (SubmitMigration_gate c stmt e m Hm).
    unfold singletonGate. rewrite Hflag. fold (pending_rows e).
    destruct (pending_rows e); [done |].
    rewrite bool_decide_eq_true_2 by (simpl; lia). discriminate. }
  assert (Hnonempty : ∀ p, p ∈ pending_rows e → pending_rows e ≠ []).
  { intros p Hp Hnil. rewrite Hnil in Hp. by apply not_elem_of_nil in Hp. }
  split; [exact Hany |]. split; [| split; [| split]].
  - intros Hflag (p & Hp & Hctx & Hexempt).
    destruct (IsSingleton (StrategySetting m)) eqn:Hs;
      [apply Hany; eauto |].
    apply (SubmitMigration_gate c stmt e m Hm).
    unfold singletonGate. rewrite Hs, Hflag. fold (pending_rows e).
    by eapply singletonContext_loop_rejects.
  - intros Hflag Hs Hnd Hall. unfold singletonGate. rewrite Hs, Hflag.
    fold (pending_rows e). by apply singletonContext_loop_passes.
  - intros Hflag Hfirst (p & Hp & Htable).
    destruct (IsSingleton (StrategySetting m)) eqn:Hs;
      [apply Hany; eauto |].
    destruct Hfirst as [? | Hc]; [done |].
    apply (SubmitMigration_gate c stmt e m Hm).
    unfold singletonGate. rewrite Hs, Hc, Hflag. fold (pending_rows e).
    by eapply singletonTable_loop_rejects.
  - intros e' err H. by rewrite (SubmitMigration_Err c stmt e e' err H).
Qed.

Lemma singleton_submission_rejected_witness :
  rejected example_collaborators (example_submission table_submission)
    (example_executor 1 [pending_same_table_row]).
Proof.
  apply (proj1 (proj2 (proj2 (proj2
    (singleton_submission_rejected example_collaborators
       (example_submission table_submission)
       (example_executor 1 [pending_same_table_row])
       table_submission eq_refl))))).
  - reflexivity.
  - right. reflexivity.
  - exists pending_same_table_row. split; [| reflexivity].
    apply pending_rows_spec. split; [apply list_elem_of_here | reflexivity].
Defined.

(** C3 (as stated) fails: a submission with [--singleton-table] that also
    carries [--singleton-context] is checked for its context only; with a
    pending migration of the same context on the same table it is
    accepted, and its row is inserted. *)
Lemma singleton_table_beside_singleton_context :
  IsSingletonTable (StrategySetting context_and_table_submission) = true
  ∧ pending_rows (example_executor 1 [pending_same_table_row])
    = [pending_same_table_row]
  ∧ mysql_table pending_same_table_row = Table context_and_table_submission
  ∧ snd (SubmitMigration example_collaborators
           (example_submission context_and_table_submission)
           (example_executor 1 [pending_same_table_row]))
    = Ok {| RowsAffected := 1; Rows := [] |}
  ∧ migration_uuid
      <$> schema_migrations
            (fst (SubmitMigration example_collaborators
                    (example_submission context_and_table_submission)
                    (example_executor 1 [pending_same_table_row])))
    = ["p1"; "s1"].
Proof. repeat split. Qed.

(** ** Resubmission and retry *)

Lemma fmap_if_false (cond : Row → bool) (f : Row → Row) (t : list Row) :
  (∀ r, r ∈ t → cond r = false) →
  (λ r, if cond r then f r else r) <$> t = t.
Proof.
  intros Hall. induction t as [| r t IH]; [reflexivity |].
  rewrite fmap_cons, (Hall r) by apply list_elem_of_here.
  rewrite IH; [reflexivity |].
  intros r' Hr'. apply Hall. by apply list_elem_of_further.
Qed.

Section Retry.

Context (c : Collaborators).

(** A retry re-queues the migration if it is failed or cancelled, and
    otherwise leaves everything as it was. *)
Lemma RetryMigration_effect (uuid : string) (e : Executor) onlineDDL row :
  readMigration uuid e = Ok (onlineDDL, row) →
  (failed_or_cancelled (migration_status row) = false →
   fst (RetryMigration c uuid e) = e)
  ∧ (failed_or_cancelled (migration_status row) = true →
     isOpen e ≠ 0 → IsOnlineDDLUUID c uuid = true →
     readMigration uuid (fst (RetryMigration c uuid e))
     = Ok (onlineDDL_of_row (requeued_row (tabletAlias e) row),
           requeued_row (tabletAlias e) row))
  ∧ length (filter (λ r, uuid_is uuid r = true)
              (schema_migrations (fst (RetryMigration c uuid e)))) = 1%nat.
Proof.
  intros Hread.
  pose proof (readMigration_row _ _ _ _ Hread) as (Hin & Hu & Huniq).
  pose proof (readMigration_Ok _ _ _ _ Hread) as [Hf _].
  set (cond := λ r : Row,
         uuid_is uuid r
         && (bool_decide (migration_status r = OnlineDDLStatusFailed)
             || bool_decide (migration_status r = OnlineDDLStatusCancelled))).
  set (g := λ r : Row, if cond r then requeued_row (tabletAlias e) r else r).
  assert (Hg : ∀ r, migration_uuid (g r) = migration_uuid r)
    by (intros r; unfold g; by destruct (cond r)).
  assert (Hcases :
    fst (RetryMigration c uuid e) = e
    ∨ (isOpen e ≠ 0 ∧ IsOnlineDDLUUID c uuid = true
       ∧ fst (RetryMigration c uuid e)
         = with_schema_migrations (g <$> schema_migrations e) e)).
  { unfold RetryMigration. case_bool_decide; [by left |].
    destruct (IsOnlineDDLUUID c uuid); [| by left]. right. done. }
  split; [| split].
  - intros Hstatus. destruct Hcases as [-> | (_ & _ & ->)]; [reflexivity |].
    transitivity (with_schema_migrations (schema_migrations e) e);
      [| apply with_schema_migrations_same].
    f_equal. apply fmap_if_false. intros r Hr. unfold cond, uuid_is.
    case_bool_decide as Hru; [| reflexivity].
    rewrite (Huniq r Hr Hru). exact Hstatus.
  - intros Hstatus Hopen Hvalid.
    destruct Hcases as [Hsame | (_ & _ & He')].
    { exfalso. revert Hsame. unfold RetryMigration.
      rewrite bool_decide_eq_false_2, Hvalid by done. simpl.
      intros Hsame. apply (f_equal schema_migrations) in Hsame.
      simpl in Hsame. fold cond in Hsame.
      assert (Hrow : g row ∈ schema_migrations e).
      { rewrite <- Hsame. apply list_elem_of_fmap. eauto. }
      assert (Hgrow : g row = row)
        by (apply Huniq; [exact Hrow | by rewrite Hg]).
      unfold g, cond, uuid_is in Hgrow.
      rewrite bool_decide_eq_true_2 in Hgrow by done.
      unfold failed_or_cancelled in Hstatus. rewrite Hstatus in Hgrow.
      apply (f_equal migration_status) in Hgrow. simpl in Hgrow.
      rewrite <- Hgrow in Hstatus. discriminate. }
    assert (Hgrow : g row = requeued_row (tabletAlias e) row).
    { unfold g, cond, uuid_is. rewrite bool_decide_eq_true_2 by done.
      unfold failed_or_cancelled in Hstatus. by rewrite Hstatus. }
    rewrite <- Hgrow.
    apply (readMigration_fmap g uuid e _ onlineDDL row Hg); [| exact Hread].
    by rewrite He'.
  - destruct Hcases as [-> | (_ & _ & ->)]; [by rewrite Hf |].
    simpl. by rewrite (filter_uuid_fmap g uuid _ Hg), Hf.
Qed.

End Retry.

Section Resubmission.

Context (c : Collaborators).

Lemma SubmitMigration_existing
    (stmt : Statement) (e : Executor) (m stored : OnlineDDL) (row : Row) :
  isOpen e ≠ 0 →
  (IsDDLStatement stmt = true → IsFullyParsed stmt = true) →
  OnlineDDLFromCommentedStatement stmt = Some m →
  readMigration (UUID m) e = Ok (stored, row) →
  SubmitMigration c stmt e
  = if bool_decide (MigrationContext stored ≠ MigrationContext m)
    then (e, Err (Errorf Code_FAILED_PRECONDITION
      "migration rejected: found migration %s with different context: %s than submitted migration's context: %s"))
    else submitCallbackIfNonConflicting m (RetryMigration c (UUID m)) e.
Proof.
  intros Hopen Hparsed Hm Hread. unfold SubmitMigration.
  rewrite bool_decide_eq_false_2 by exact Hopen.
  destruct (IsDDLStatement stmt);
    [rewrite Hparsed by reflexivity |]; simpl; by rewrite Hm, Hread.
Qed.

Lemma submitCallbackIfNonConflicting_pass
    (m : OnlineDDL) (callback : Executor → Executor * outcome Result)
    (e : Executor) :
  singletonGate m e = None →
  submitCallbackIfNonConflicting m callback e = callback e.
Proof.
  intros Hgate. unfold submitCallbackIfNonConflicting. rewrite Hgate.
  by destruct (_ && _ && _).
Qed.

(** C4 (as amended).  On an open executor, for a fully parsed statement
    whose UUID already has a row: Submit fails with FAILED_PRECONDITION
    when the submitted context differs from the stored one; with the same
    context it returns the objection of the singleton gate, if there is
    one, and changes nothing, and otherwise it is RetryMigration of the
    UUID.  The UUID keeps exactly one row.  RetryMigration re-queues the
    migration only if it is failed or cancelled, and otherwise changes
    nothing. *)
Theorem resubmission_is_gated_retry
    (stmt : Statement) (e : Executor) (m stored : OnlineDDL) (row : Row) :
  isOpen e ≠ 0 →
  (IsDDLStatement stmt = true → IsFullyParsed stmt = true) →
  OnlineDDLFromCommentedStatement stmt = Some m →
  readMigration (UUID m) e = Ok (stored, row) →
  (MigrationContext stored ≠ MigrationContext m →
   ∃ err, SubmitMigration c stmt e = (e, Err err)
          ∧ ErrCode err = Code_FAILED_PRECONDITION)
  ∧ (MigrationContext stored = MigrationContext m →
     (singletonGate m e = None →
      SubmitMigration c stmt e = RetryMigration c (UUID m) e)
     ∧ (∀ err, singletonGate m e = Some err →
               SubmitMigration c stmt e = (e, Err err)))
  ∧ length (filter (λ r, uuid_is (UUID m) r = true)
              (schema_migrations (fst (SubmitMigration c stmt e)))) = 1%nat
  ∧ (failed_or_cancelled (migration_status row) = false →
     fst (RetryMigration c (UUID m) e) = e)
  ∧ (failed_or_cancelled (migration_status row) = true →
     IsOnlineDDLUUID c (UUID m) = true →
     ∃ row',
       readMigration (UUID m) (fst (RetryMigration c (UUID m) e))
       = Ok (onlineDDL_of_row row', row')
       ∧ migration_status row' = OnlineDDLStatusQueued).
Proof.
  intros Hopen Hparsed Hm Hread.
  pose proof (SubmitMigration_existing stmt e m stored row
                Hopen Hparsed Hm Hread) as Hsubmit.
  destruct (RetryMigration_effect c (UUID m) e stored row Hread)
    as (Hkeep & Hrequeue & Hcount).
  pose proof (readMigration_Ok _ _ _ _ Hread) as [Hf _].
  split; [| split; [| split; [| split]]].
  - intros Hctx. rewrite Hsubmit, bool_decide_eq_true_2 by exact Hctx.
    eauto.
  - intros Hctx. rewrite Hsubmit, bool_decide_eq_false_2 by tauto.
    split.
    + apply submitCallbackIfNonConflicting_pass.
    + intros err Hgate.
      destruct (submitCallbackIfNonConflicting_gate m
                  (RetryMigration c (UUID m)) e) as (err' & -> & Herr');
        congruence.
  - rewrite Hsubmit. case_bool_decide; [simpl; by rewrite Hf |].
    destruct (singletonGate m e) as [err |] eqn:Hgate.
    + destruct (submitCallbackIfNonConflicting_gate m
                  (RetryMigration c (UUID m)) e) as (err' & -> & _);
        [congruence | simpl; by rewrite Hf].
    + by rewrite submitCallbackIfNonConflicting_pass.
  - exact Hkeep.
  - intros Hstatus Hvalid. eexists. split; [by apply Hrequeue |].
    reflexivity.
Qed.

End Resubmission.

Lemma resubmission_is_gated_retry_witness :
  SubmitMigration example_collaborators
    (example_submission plain_resubmission) (example_executor 1 [failed_row])
  = RetryMigration example_collaborators "s1" (example_executor 1 [failed_row]).
Proof.
  apply (proj1 (proj1 (proj2
    (resubmission_is_gated_retry example_collaborators
       (example_submission plain_resubmission)
       (example_executor 1 [failed_row])
       plain_resubmission (onlineDDL_of_row failed_row) failed_row
       ltac:(discriminate) (λ _, eq_refl) eq_refl eq_refl)) eq_refl)).
  reflexivity.
Defined.

(** C4 (as stated) fails: the resubmission of a failed migration that
    carries [--singleton] is rejected while another migration is pending,
    and the migration stays failed, where RetryMigration re-queues it. *)
Lemma resubmission_stopped_by_singleton_gate :
  (∃ err,
     SubmitMigration example_collaborators
       (example_submission singleton_resubmission)
       (example_executor 1 [pending_same_table_row; failed_singleton_row])
     = (example_executor 1 [pending_same_table_row; failed_singleton_row],
        Err err))
  ∧ snd (RetryMigration example_collaborators "s1"
           (example_executor 1 [pending_same_table_row; failed_singleton_row]))
    = Ok {| RowsAffected := 1; Rows := [] |}
  ∧ migration_status
      <$> schema_migrations
            (fst (RetryMigration example_collaborators "s1"
                    (example_executor 1
                       [pending_same_table_row; failed_singleton_row])))
    = [OnlineDDLStatusQueued; OnlineDDLStatusQueued].
Proof. split; [eexists; reflexivity | split; reflexivity]. Qed.

(** ** The scheduler *)

Lemma updateMigrationReadyToComplete_table (uuid : string) (e : Executor) :
  schema_migrations (updateMigrationReadyToComplete uuid true e)
  = (λ r, if uuid_is uuid r
          then set_was_ready_to_complete true (set_ready_to_complete true r)
          else r) <$> schema_migrations e.
Proof. reflexivity. Qed.

(** The loop maps the table row by row. *)
Lemma scheduleNextMigration_loop_table
    (rows : list Row) (scheduled : bool) (e : Executor) :
  schema_migrations (scheduleNextMigration_loop rows scheduled e)
  = scheduleNextMigration_rows rows scheduled <$> schema_migrations e.
Proof.
  revert scheduled e.
  induction rows as [| row rows IH]; intros scheduled e.
  - simpl. by rewrite list_fmap_id.
  - cbn [scheduleNextMigration_loop scheduleNextMigration_rows].
    assert (Hext : ∀ (f g : Row → Row) (t : list Row),
              (∀ r, f r = g r) → f <$> t = g <$> t)
      by (intros f g t Hfg; apply list_fmap_ext; auto).
    unfold eligible, scheduleNextMigration_row.
    destruct (postpone_launch row); simpl.
    { rewrite IH, orb_false_r. by apply Hext. }
    destruct (negb (ready_to_complete row) && is_immediate_operation row);
      destruct (is_immediate_operation row && postpone_completion row);
      destruct scheduled; simpl; rewrite IH;
      rewrite ?updateMigrationReadyToComplete_table;
      unfold updateMigrationStatus, sqlUpdateMigrationStatus;
      rewrite ?sqlUpdate_table, ?updateMigrationReadyToComplete_table,
        <- ?list_fmap_compose;
      by apply Hext.
Qed.

Lemma scheduleNextMigration_row_uuid (row : Row) (s : bool) (r : Row) :
  migration_uuid (scheduleNextMigration_row row s r) = migration_uuid r.
Proof.
  unfold scheduleNextMigration_row.
  repeat match goal with
         | |- context [if ?b then _ else _] => destruct b
         end; reflexivity.
Qed.

Lemma scheduleNextMigration_row_other (row : Row) (s : bool) (r : Row) :
  migration_uuid r ≠ migration_uuid row →
  scheduleNextMigration_row row s r = r.
Proof.
  intros Hne. unfold scheduleNextMigration_row, uuid_is.
  destruct (postpone_launch row); [reflexivity |].
  destruct (negb (ready_to_complete row) && is_immediate_operation row);
    destruct (negb (is_immediate_operation row && postpone_completion row));
    destruct s; cbv zeta;
    rewrite ?(bool_decide_eq_false_2 _ Hne); reflexivity.
Qed.

Lemma scheduleNextMigration_row_self (r : Row) (s : bool) :
  scheduleNextMigration_row r s r = scheduled_row s r.
Proof.
  unfold scheduleNextMigration_row, scheduled_row, eligible, uuid_is.
  rewrite bool_decide_eq_true_2 by reflexivity.
  destruct (postpone_launch r); [reflexivity |]. simpl.
  destruct (negb (ready_to_complete r) && is_immediate_operation r);
    destruct (is_immediate_operation r && postpone_completion r);
    destruct s; simpl; rewrite ?bool_decide_eq_true_2 by reflexivity;
    reflexivity.
Qed.

Lemma scheduleNextMigration_rows_other (rows : list Row) (s : bool) (r : Row) :
  migration_uuid r ∉ migration_uuid <$> rows →
  scheduleNextMigration_rows rows s r = r.
Proof.
  revert s. induction rows as [| row rows IH]; intros s Hnotin;
    [reflexivity |].
  rewrite fmap_cons in Hnotin. apply not_elem_of_cons in Hnotin as [Hne Hrest].
  cbn [scheduleNextMigration_rows].
  rewrite scheduleNextMigration_row_other by exact Hne. by apply IH.
Qed.

Lemma scheduleNextMigration_rows_app (l1 l2 : list Row) (s : bool) (r : Row) :
  scheduleNextMigration_rows (l1 ++ l2) s r
  = scheduleNextMigration_rows l2 (s || existsb eligible l1)
      (scheduleNextMigration_rows l1 s r).
Proof.
  revert s r. induction l1 as [| row l1 IH]; intros s r.
  - simpl. by rewrite orb_false_r.
  - simpl. rewrite IH. by rewrite orb_assoc.
Qed.

Lemma existsb_eligible_filter (l : list Row) :
  existsb eligible (filter (λ r, schedulable r = true) l)
  = existsb (λ q, schedulable q && eligible q) l.
Proof.
  induction l as [| q l IH]; [reflexivity |].
  destruct (schedulable q) eqn:Hq.
  - rewrite filter_cons_True by exact Hq. simpl. by rewrite Hq, IH.
  - rewrite filter_cons_False by (rewrite Hq; discriminate).
    simpl. by rewrite Hq, IH.
Qed.

Lemma uuid_not_in_filter (P : Row → bool) (u : string) (l : list Row) :
  u ∉ migration_uuid <$> l →
  u ∉ migration_uuid <$> filter (λ r, P r = true) l.
Proof.
  intros Hnotin Hin. apply Hnotin.
  apply list_elem_of_fmap in Hin as (q & -> & Hq).
  apply list_elem_of_filter in Hq as [_ Hq].
  apply list_elem_of_fmap. eauto.
Qed.

(** The row the scheduler leaves at each position of the table. *)
Lemma scheduleNextMigration_lookup (e : Executor) (i : nat) (r : Row) :
  unique_uuids e →
  schema_migrations e !! i = Some r →
  schema_migrations (scheduleNextMigration e) !! i
  = Some (if schedulable r
          then scheduled_row
                 (existsb (λ q, schedulable q && eligible q)
                    (take i (schema_migrations e))) r
          else r).
Proof.
  intros Hnd Hi. unfold scheduleNextMigration.
  rewrite scheduleNextMigration_loop_table, list_lookup_fmap, Hi. simpl.
  f_equal.
  unfold sqlSelectQueuedMigrations, sqlSelect. simpl.
  change (λ r0 : Row,
            bool_decide (migration_status r0 = OnlineDDLStatusQueued)
            && bool_decide (reviewed_timestamp r0 ≠ None) = true)
    with (λ r0 : Row, schedulable r0 = true).
  unfold unique_uuids in Hnd.
  rewrite <- (take_drop_middle _ _ _ Hi) in Hnd |- * at 1.
  set (l1 := take i (schema_migrations e)) in *.
  set (l2 := drop (S i) (schema_migrations e)) in *.
  rewrite fmap_app, fmap_cons in Hnd.
  apply NoDup_app in Hnd as (_ & Hl1 & Hnd).
  apply NoDup_cons in Hnd as [Hl2 _].
  assert (Hr1 : migration_uuid r ∉ migration_uuid <$> l1).
  { intros Hin. apply (Hl1 _ Hin). apply list_elem_of_here. }
  rewrite filter_app, scheduleNextMigration_rows_app, existsb_eligible_filter.
  rewrite (scheduleNextMigration_rows_other
             (filter (λ r0, schedulable r0 = true) l1))
    by (by apply uuid_not_in_filter).
  simpl. destruct (schedulable r) eqn:Hq.
  - rewrite filter_cons_True by exact Hq.
    cbn [scheduleNextMigration_rows].
    rewrite scheduleNextMigration_rows_other.
    + apply scheduleNextMigration_row_self.
    + rewrite scheduleNextMigration_row_uuid. by apply uuid_not_in_filter.
  - rewrite filter_cons_False by (rewrite Hq; discriminate).
    apply scheduleNextMigration_rows_other. by apply uuid_not_in_filter.
Qed.


Lemma existsb_false_iff {A} (P : A → bool) (l : list A) :
  existsb P l = false ↔ ∀ q, q ∈ l → P q = false.
Proof.
  induction l as [| x l IH]; simpl.
  - split; [intros _ q Hq; by apply not_elem_of_nil in Hq | done].
  - rewrite orb_false_iff, IH. split.
    + intros [Hx Hl] q Hq. apply elem_of_cons in Hq as [-> | Hq]; auto.
    + intros Hall. split; [apply Hall, list_elem_of_here |].
      intros q Hq. by apply Hall, list_elem_of_further.
Qed.

Lemma scheduled_row_ready (already : bool) (r : Row) :
  migration_status r = OnlineDDLStatusQueued →
  migration_status (scheduled_row already r) = OnlineDDLStatusReady
  ↔ eligible r = true ∧ already = false.
Proof.
  intros Hq. unfold scheduled_row, eligible.
  destruct (postpone_launch r); simpl.
  { rewrite Hq. split; [discriminate | intros [? _]; discriminate]. }
  destruct (negb (ready_to_complete r) && is_immediate_operation r);
    destruct (is_immediate_operation r && postpone_completion r);
    destruct already; simpl; rewrite ?Hq;
    (split; [try discriminate; done | intros [? ?]; try discriminate; done]).
Qed.

(** C8.  In one run of the scheduler over a table with unique UUIDs: at
    most one row goes from queued to ready; a row with [postpone_launch]
    is left as it is; a queued, reviewed immediate operation whose launch
    is not postponed has [ready_to_complete] set; a queued, reviewed row
    is promoted exactly when it is eligible, that is, its launch is not
    postponed and it is not both immediate and postponed for completion,
    and no queued, reviewed row before it is eligible; rows that are not
    queued, and queued rows that have not been reviewed, are left as
    they are. *)
Theorem scheduleNextMigration_promotes_one (e : Executor) :
  unique_uuids e →
  (∀ i j ri rj ri' rj',
     schema_migrations e !! i = Some ri →
     schema_migrations (scheduleNextMigration e) !! i = Some ri' →
     schema_migrations e !! j = Some rj →
     schema_migrations (scheduleNextMigration e) !! j = Some rj' →
     migration_status ri = OnlineDDLStatusQueued →
     migration_status ri' = OnlineDDLStatusReady →
     migration_status rj = OnlineDDLStatusQueued →
     migration_status rj' = OnlineDDLStatusReady →
     i = j)
  ∧ (∀ i r,
       schema_migrations e !! i = Some r →
       postpone_launch r = true →
       schema_migrations (scheduleNextMigration e) !! i = Some r)
  ∧ (∀ i r,
       schema_migrations e !! i = Some r →
       migration_status r = OnlineDDLStatusQueued →
       reviewed_timestamp r ≠ None →
       postpone_launch r = false →
       is_immediate_operation r = true →
       ∃ r', schema_migrations (scheduleNextMigration e) !! i = Some r'
             ∧ ready_to_complete r' = true)
  ∧ (∀ i r,
       schema_migrations e !! i = Some r →
       migration_status r = OnlineDDLStatusQueued →
       reviewed_timestamp r ≠ None →
       ∃ r', schema_migrations (scheduleNextMigration e) !! i = Some r'
             ∧ (migration_status r' = OnlineDDLStatusReady
                ↔ eligible r = true
                  ∧ ∀ j q, (j < i)%nat →
                           schema_migrations e !! j = Some q →
                           migration_status q = OnlineDDLStatusQueued →
                           reviewed_timestamp q ≠ None →
                           eligible q = false))
  ∧ (∀ i r,
       schema_migrations e !! i = Some r →
       migration_status r ≠ OnlineDDLStatusQueued
       ∨ reviewed_timestamp r = None →
       schema_migrations (scheduleNextMigration e) !! i = Some r).
Proof.
  intros Hnd.
  pose proof (scheduleNextMigration_lookup e) as Hlookup.
  assert (Hsel : ∀ r, schedulable r = true
                      ↔ migration_status r = OnlineDDLStatusQueued
                        ∧ reviewed_timestamp r ≠ None).
  { intros r. unfold schedulable, queued, reviewed.
    by rewrite andb_true_iff, !bool_decide_eq_true. }
  assert (Hfirst : ∀ i,
    existsb (λ q, schedulable q && eligible q) (take i (schema_migrations e))
    = false
    ↔ ∀ j q, (j < i)%nat → schema_migrations e !! j = Some q →
             migration_status q = OnlineDDLStatusQueued →
             reviewed_timestamp q ≠ None → eligible q = false).
  { intros i. rewrite existsb_false_iff. split.
    - intros Hall j q Hj Hq Hs Hr.
      assert (Hin : q ∈ take i (schema_migrations e))
        by (apply elem_of_take; eauto).
      specialize (Hall q Hin).
      rewrite (proj2 (Hsel q) (conj Hs Hr)) in Hall. exact Hall.
    - intros Hall q Hin. apply elem_of_take in Hin as (j & Hq & Hj).
      destruct (schedulable q) eqn:Hs; [| reflexivity]. simpl.
      apply Hsel in Hs as [Hs Hr]. by apply (Hall j q Hj Hq). }
  assert (Hstays : ∀ i r r',
    schema_migrations e !! i = Some r →
    schema_migrations (scheduleNextMigration e) !! i = Some r' →
    schedulable r = false → r' = r).
  { intros i r r' Hi Hi' Hs.
    rewrite (Hlookup i r Hnd Hi), Hs in Hi'. by injection Hi' as <-. }
  assert (Hpromoted : ∀ i r r',
    schema_migrations e !! i = Some r →
    schema_migrations (scheduleNextMigration e) !! i = Some r' →
    migration_status r = OnlineDDLStatusQueued →
    migration_status r' = OnlineDDLStatusReady →
    eligible r = true
    ∧ ∀ j q, (j < i)%nat → schema_migrations e !! j = Some q →
             migration_status q = OnlineDDLStatusQueued →
             reviewed_timestamp q ≠ None →
             eligible q = false).
  { intros i r r' Hi Hi' Hs Hs'.
    destruct (schedulable r) eqn:Hsr.
    - rewrite (Hlookup i r Hnd Hi), Hsr in Hi'. injection Hi' as <-.
      apply scheduled_row_ready in Hs'; [| exact Hs].
      by rewrite Hfirst in Hs'.
    - rewrite (Hstays i r r' Hi Hi' Hsr), Hs in Hs'. discriminate. }
  split; [| split; [| split; [| split]]].
  - intros i j ri rj ri' rj' Hi Hi' Hj Hj' Hsi Hsi' Hsj Hsj'.
    assert (Hri : reviewed_timestamp ri ≠ None).
    { destruct (schedulable ri) eqn:Hsr; [by apply Hsel in Hsr as [_ ?] |].
      rewrite (Hstays i ri ri' Hi Hi' Hsr), Hsi in Hsi'. discriminate. }
    assert (Hrj : reviewed_timestamp rj ≠ None).
    { destruct (schedulable rj) eqn:Hsr; [by apply Hsel in Hsr as [_ ?] |].
      rewrite (Hstays j rj rj' Hj Hj' Hsr), Hsj in Hsj'. discriminate. }
    apply (Hpromoted i ri ri' Hi Hi' Hsi) in Hsi' as [Hei Hbi].
    apply (Hpromoted j rj rj' Hj Hj' Hsj) in Hsj' as [Hej Hbj].
    destruct (Nat.lt_trichotomy i j) as [Hlt | [Heq | Hgt]]; [| exact Heq |].
    + rewrite (Hbj i ri Hlt Hi Hsi Hri) in Hei. discriminate.
    + rewrite (Hbi j rj Hgt Hj Hsj Hrj) in Hej. discriminate.
  - intros i r Hi Hpl. rewrite (Hlookup i r Hnd Hi).
    unfold scheduled_row. rewrite Hpl. by destruct (schedulable r).
  - intros i r Hi Hs Hr Hpl Himm. eexists. split; [by apply Hlookup |].
    rewrite (proj2 (Hsel r) (conj Hs Hr)). unfold scheduled_row.
    rewrite Hpl, Himm.
    destruct (ready_to_complete r) eqn:Hrtc; simpl;
      destruct (eligible r && _); simpl; done.
  - intros i r Hi Hs Hr. eexists. split; [by apply Hlookup |].
    rewrite (proj2 (Hsel r) (conj Hs Hr)).
    rewrite scheduled_row_ready by exact Hs. by rewrite Hfirst.
  - intros i r Hi Hs. rewrite (Hlookup i r Hnd Hi).
    destruct (schedulable r) eqn:Hq; [| reflexivity].
    apply Hsel in Hq as [Hq Hr]. by destruct Hs.
Qed.

Lemma scheduleNextMigration_promotes_one_witness :
  schema_migrations (scheduleNextMigration scheduler_example) !! 0%nat
  = Some postponed_launch_row.
Proof.
  apply (proj1 (proj2
    (scheduleNextMigration_promotes_one scheduler_example
       ltac:(unfold unique_uuids; apply (bool_decide_unpack _);
             vm_compute; exact I)))).
  - reflexivity.
  - reflexivity.
Defined.

(** C8 (as stated) fails for a queued row that has not been reviewed.  A
    migration just submitted is queued, its launch is not postponed and it
    is not an immediate operation, yet the scheduler passes it over and
    promotes nothing; it promotes the migration once the review of the
    queued migrations has stamped it. *)
Lemma unreviewed_migration_is_not_scheduled :
  let e :=
    fst (SubmitMigration example_collaborators
           (example_submission plain_resubmission) (example_executor 1 [])) in
  (λ r, (migration_status r, reviewed_timestamp r, eligible r))
    <$> schema_migrations e
  = [(OnlineDDLStatusQueued, None, true)]
  ∧ scheduleNextMigration e = e
  ∧ (λ r, (migration_status r, reviewed_timestamp r))
      <$> schema_migrations
            (scheduleNextMigration
               (reviewQueuedMigrations example_collaborators e))
    = [(OnlineDDLStatusReady, Some 1000)].
Proof. repeat split. Qed.

(** The run on the three queued rows: the first two stay queued, the
    second gains its [ready_to_complete] flag, the third is promoted. *)
Lemma scheduleNextMigration_example :
  (λ r, (migration_status r, ready_to_complete r))
    <$> schema_migrations (scheduleNextMigration scheduler_example)
  = [(OnlineDDLStatusQueued, false); (OnlineDDLStatusQueued, true);
     (OnlineDDLStatusReady, false)].
Proof. reflexivity. Qed.

(** ** The start-up guard of the runner *)

Lemma sqlUpdate_flag (cond : Row → bool) (f : Row → Row) (e : Executor) :
  reviewedRunningMigrationsFlag (fst (sqlUpdate cond f e))
  = reviewedRunningMigrationsFlag e.
Proof. reflexivity. Qed.

Lemma scheduleNextMigration_loop_flag
    (rows : list Row) (scheduled : bool) (e : Executor) :
  reviewedRunningMigrationsFlag (scheduleNextMigration_loop rows scheduled e)
  = reviewedRunningMigrationsFlag e.
Proof.
  revert scheduled e. induction rows as [| row rows IH]; intros s e;
    [reflexivity |].
  cbn [scheduleNextMigration_loop].
  repeat match goal with
         | |- context [if ?b then _ else _] => destruct b
         end; rewrite IH; reflexivity.
Qed.

Section Guard.

Context (c : Collaborators).

Ltac flag_cases :=
  repeat match goal with
         | |- context [match ?x with _ => _ end] => destruct x; simpl
         end;
  try reflexivity.

Lemma CancelMigration_flag uuid message issuedByUser (e : Executor) :
  reviewedRunningMigrationsFlag
    (fst (CancelMigration c uuid message issuedByUser e))
  = reviewedRunningMigrationsFlag e.
Proof.
  unfold CancelMigration, terminateMigration, failMigration,
    updateMigrationTimestamp, sqlUpdateMigrationTimestamp.
  flag_cases.
Qed.

Lemma RetryMigration_flag uuid (e : Executor) :
  reviewedRunningMigrationsFlag (fst (RetryMigration c uuid e))
  = reviewedRunningMigrationsFlag e.
Proof. unfold RetryMigration. flag_cases. Qed.

Lemma SubmitMigration_flag stmt (e : Executor) :
  reviewedRunningMigrationsFlag (fst (SubmitMigration c stmt e))
  = reviewedRunningMigrationsFlag e.
Proof.
  destruct (SubmitMigration c stmt e) as [e' [res | err]] eqn:Hsubmit.
  2: { by rewrite (SubmitMigration_Err c stmt e e' err Hsubmit). }
  revert Hsubmit. unfold SubmitMigration.
  case_bool_decide; [discriminate |].
  destruct (_ && _); [discriminate |].
  destruct (OnlineDDLFromCommentedStatement stmt) as [m |]; [| discriminate].
  assert (Hcb : ∀ callback,
    (∀ e1, reviewedRunningMigrationsFlag (fst (callback e1))
           = reviewedRunningMigrationsFlag e1) →
    reviewedRunningMigrationsFlag
      (fst (submitCallbackIfNonConflicting m callback e))
    = reviewedRunningMigrationsFlag e).
  { intros callback Hcallback. unfold submitCallbackIfNonConflicting.
    destruct (_ && _ && _); [apply Hcallback |].
    destruct (singletonGate m e); [reflexivity | apply Hcallback]. }
  destruct (readMigration (UUID m) e) as [[stored row] | _].
  - case_bool_decide; [discriminate |]. intros Hsubmit.
    change e' with (fst (e', Ok (A:=Result) res)). rewrite <- Hsubmit.
    apply Hcb. intros e1. apply RetryMigration_flag.
  - destruct (snd (GetAction (SQL m))); [discriminate |].
    destruct (CutOverThresholdFlag _); [discriminate |].
    destruct (safeMigrationCutOverThreshold _) as [thr [err' |]];
      [discriminate |].
    match goal with
    | |- context [submitCallbackIfNonConflicting m ?cb e] =>
      pose proof (Hcb cb) as Hflag;
      destruct (submitCallbackIfNonConflicting m cb e) as [e1 [r1 | err1]]
    end; [| discriminate].
    intros [= <- _]. apply Hflag. intros e2. cbv beta.
    unfold sqlInsertMigration.
    by destruct (bool_decide (Exists _ _)).
Qed.

Lemma failMigration_flag onlineDDL withError (e : Executor) :
  reviewedRunningMigrationsFlag (failMigration c onlineDDL withError e)
  = reviewedRunningMigrationsFlag e.
Proof. unfold failMigration. flag_cases. Qed.

Lemma apply_call_flag (call : Call) (e : Executor) :
  reviewedRunningMigrationsFlag (apply_call c call e)
  = reviewedRunningMigrationsFlag e.
Proof.
  destruct call; cbn [apply_call]; try reflexivity.
  - apply failMigration_flag.
  - by destruct isReady.
Qed.

Lemma apply_calls_flag (calls : list Call) (e : Executor) :
  reviewedRunningMigrationsFlag (apply_calls c calls e)
  = reviewedRunningMigrationsFlag e.
Proof.
  revert e. induction calls as [| call calls IH]; intros e; [reflexivity |].
  cbn [apply_calls]. by rewrite IH, apply_call_flag.
Qed.

Lemma reviewQueuedMigrations_loop_flag (uuids : list string) (e : Executor) :
  reviewedRunningMigrationsFlag (reviewQueuedMigrations_loop c uuids e)
  = reviewedRunningMigrationsFlag e.
Proof.
  revert e. induction uuids as [| uuid uuids IH]; intros e; [reflexivity |].
  cbn [reviewQueuedMigrations_loop]. rewrite IH. unfold reviewQueuedMigration.
  destruct (readMigration uuid e) as [[onlineDDL row] | err];
    [| by rewrite failMigration_flag].
  destruct (reviewQueuedMigration_checks c e uuid) as [err | columns [err |]];
    [by rewrite !failMigration_flag | by rewrite failMigration_flag
    | reflexivity].
Qed.

Lemma reviewStaleMigrations_loop_flag
    (stale_minutes : Executor → Row → Z) (rows : list Row) (e : Executor) :
  reviewedRunningMigrationsFlag (fst (reviewStaleMigrations_loop c rows e))
  = reviewedRunningMigrationsFlag e.
Proof.
  revert e. induction rows as [| row rows IH]; intros e; [reflexivity |].
  cbn [reviewStaleMigrations_loop].
  destruct (readMigration (migration_uuid row) e) as [[onlineDDL r] | err];
    [| reflexivity].
  rewrite IH. unfold reviewStaleMigrations_body, terminateMigration.
  destruct (bool_decide (TabletAlias onlineDDL ≠ tabletAlias e)); simpl;
    destruct (bool_decide _ || bool_decide _); simpl;
    try destruct (terminateVReplMigration c _ _); reflexivity.
Qed.

(** Every operation other than a review that runs to its end leaves the
    flag down. *)
Lemma perform_keeps_flag_down (op : Operation) (e : Executor) :
  reviewedRunningMigrationsFlag e = false →
  review_completes c op e = false →
  reviewedRunningMigrationsFlag (perform c op e) = false.
Proof.
  intros Hflag Hreview. destruct op; cbn [perform].
  - unfold Open. by destruct (_ || _).
  - unfold Close. by case_bool_decide.
  - by rewrite SubmitMigration_flag.
  - by rewrite CancelMigration_flag.
  - by rewrite RetryMigration_flag.
  - unfold CleanupMigration. flag_cases; exact Hflag.
  - unfold ForceCutOverMigration. flag_cases; exact Hflag.
  - unfold SetMigrationCutOverThreshold. flag_cases; exact Hflag.
  - unfold CompleteMigration. flag_cases; exact Hflag.
  - unfold LaunchMigration. flag_cases; exact Hflag.
  - unfold UnthrottleMigration. flag_cases; exact Hflag.
  - unfold scheduleNextMigration. by rewrite scheduleNextMigration_loop_flag.
  - unfold runNextMigration. by rewrite Hflag.
  - cbn [review_completes] in Hreview. unfold reviewRunningMigrations in *.
    destruct (bool_decide (isOpen e = 0)); [exact Hflag |].
    destruct (reviewRunningMigrations_calls c e) as [calls [err |]];
      simpl in *; [by rewrite apply_calls_flag | discriminate].
  - unfold PostponeCompleteMigration. flag_cases; exact Hflag.
  - exact Hflag.
  - unfold reviewQueuedMigrations.
    by rewrite reviewQueuedMigrations_loop_flag.
  - unfold reviewStaleMigrations.
    by rewrite (reviewStaleMigrations_loop_flag stale_minutes).
  - by rewrite apply_call_flag.
Qed.

Lemma perform_all_keeps_flag_down (ops : list Operation) (e : Executor) :
  reviewedRunningMigrationsFlag e = false →
  no_review_completes c ops e →
  reviewedRunningMigrationsFlag (perform_all c ops e) = false.
Proof.
  revert e. induction ops as [| op ops IH]; intros e Hflag Hno; [exact Hflag |].
  destruct Hno as [Hop Hrest]. cbn [perform_all].
  apply IH; [by apply perform_keeps_flag_down | exact Hrest].
Qed.

(** C10.  After an [Open] that opens the executor, and as long as no
    review of the running migrations has run to its end, the runner
    returns at once: it hands no migration to a handler and leaves the
    executor, the table included, as it is. *)
Theorem runNextMigration_waits_for_review
    (e : Executor) (ops : list Operation) :
  isOpen e = 0 →
  EnableOnlineDDL e = true →
  no_review_completes c ops (Open e) →
  runNextMigration c (perform_all c ops (Open e))
  = (perform_all c ops (Open e), Ok None).
Proof.
  intros Hclosed Henabled Hno.
  assert (Hflag : reviewedRunningMigrationsFlag (Open e) = false).
  { unfold Open. rewrite Hclosed, Henabled. reflexivity. }
  unfold runNextMigration.
  by rewrite (perform_all_keeps_flag_down ops (Open e) Hflag Hno).
Qed.

End Guard.

Lemma runNextMigration_waits_for_review_witness :
  runNextMigration failing_review_collaborators
    (perform_all failing_review_collaborators startup_trace
       (Open (example_executor 0 [queued_row])))
  = (perform_all failing_review_collaborators startup_trace
       (Open (example_executor 0 [queued_row])),
     Ok None).
Proof.
  apply (runNextMigration_waits_for_review failing_review_collaborators
           (example_executor 0 [queued_row]) startup_trace).
  - reflexivity.
  - reflexivity.
  - simpl. repeat split.
Defined.

(** The guard is not vacuous: in the same state, with the flag raised, the
    runner hands the scheduled migration to its handler. *)
Lemma runNextMigration_after_review :
  ∃ onlineDDL,
    snd (runNextMigration failing_review_collaborators
           (with_reviewedRunningMigrationsFlag true
              (perform_all failing_review_collaborators startup_trace
                 (Open (example_executor 0 [queued_row])))))
    = Ok (Some onlineDDL)
    ∧ UUID onlineDDL = "q3" ∧ Status onlineDDL = OnlineDDLStatusReady.
Proof. eexists. repeat split. Qed.

(** ** The threshold validation at its callers *)

(** [SetMigrationCutOverThreshold] refuses what the validation refuses,
    with the same error and without a change, and otherwise stores the
    seconds of the validated threshold. *)
Lemma SetMigrationCutOverThreshold_validates
    (c : Collaborators) (uuid thresholdString : string) (e : Executor)
    (d : Duration) :
  isOpen e ≠ 0 →
  IsOnlineDDLUUID c uuid = true →
  ParseDuration c thresholdString = Some d →
  (∀ err, snd (safeMigrationCutOverThreshold d) = Some err →
          SetMigrationCutOverThreshold c uuid thresholdString e
          = (e, Err err))
  ∧ (snd (safeMigrationCutOverThreshold d) = None →
     schema_migrations
       (fst (SetMigrationCutOverThreshold c uuid thresholdString e))
     = (λ r, if uuid_is uuid r
             then set_cutover_threshold_seconds
                    (Seconds (fst (safeMigrationCutOverThreshold d))) r
             else r) <$> schema_migrations e).
Proof.
  intros Hopen Hvalid Hparse. unfold SetMigrationCutOverThreshold.
  rewrite bool_decide_eq_false_2, Hvalid, Hparse by exact Hopen. simpl.
  destruct (safeMigrationCutOverThreshold d) as [thr [err |]]; simpl.
  - split; [by intros ? [= <-] | discriminate].
  - split; [discriminate | reflexivity].
Qed.

(** ** Operations on every migration of a kind *)

Lemma filter_nil_Forall {A} (P : A → Prop) `{!∀ x, Decision (P x)}
    (l : list A) :
  (∀ x, x ∈ l → ¬ P x) → filter P l = [].
Proof.
  induction l as [| x l IH]; [reflexivity |]. intros Hall.
  rewrite filter_cons_False by (apply Hall, list_elem_of_here).
  apply IH. intros y Hy. apply Hall. by apply list_elem_of_further.
Qed.

Lemma cancelled_row_terminal
    (c : Collaborators) (message : string) (issuedByUser : bool) (now : Z)
    (messageApplied : bool) (r : Row) :
  is_terminal
    (migration_status
       (cancelled_row c message issuedByUser now true messageApplied r))
  = true.
Proof.
  unfold cancelled_row. rewrite (proj1 (failMigration_row_status c _ _ _ _)).
  by destruct issuedByUser, (cancelled_timestamp r).
Qed.

Lemma cancelled_row_uuid
    (c : Collaborators) (message : string) (issuedByUser : bool) (now : Z)
    (statusApplied messageApplied : bool) (r : Row) :
  migration_uuid
    (cancelled_row c message issuedByUser now statusApplied messageApplied r)
  = migration_uuid r.
Proof.
  unfold cancelled_row. rewrite failMigration_row_uuid.
  by destruct issuedByUser.
Qed.

Section BatchCancel.

Context (c : Collaborators) (AppendResult : Result → Result → Result).

(** What one cancellation does to the rows: terminal rows stay, and after
    a cancellation without error the rows of the other UUIDs are rows of
    the table before, and the rows of the UUID are terminal when the
    status update is carried out. *)
Lemma CancelMigration_rows
    (uuid message : string) (issuedByUser : bool) (e e' : Executor)
    (out : outcome Result) :
  CancelMigration c uuid message issuedByUser e = (e', out) →
  (∀ r, r ∈ schema_migrations e →
        is_terminal (migration_status r) = true → r ∈ schema_migrations e')
  ∧ (∀ res, out = Ok res →
     ∀ r', r' ∈ schema_migrations e' →
       (migration_uuid r' = uuid → status_update_applies c uuid →
        is_terminal (migration_status r') = true)
       ∧ (migration_uuid r' ≠ uuid → r' ∈ schema_migrations e)).
Proof.
  intros H.
  destruct (decide (isOpen e = 0)) as [Hclosed | Hopen].
  { unfold CancelMigration in H.
    rewrite bool_decide_eq_true_2 in H by exact Hclosed.
    injection H as <- <-. split; [done | discriminate]. }
  destruct (readMigration uuid e) as [[onlineDDL row] | err] eqn:Hread.
  2: { unfold CancelMigration in H.
       rewrite bool_decide_eq_false_2, Hread in H by exact Hopen.
       injection H as <- <-. split; [done | discriminate]. }
  pose proof (readMigration_row _ _ _ _ Hread) as (Hin & Hu & Huniq).
  destruct (is_terminal (migration_status row)) eqn:Hterm.
  - rewrite (CancelMigration_terminal c _ _ _ _ _ _ Hopen Hread Hterm) in H.
    injection H as <- <-. split; [done |].
    intros res _ r' Hr'. split; [| done].
    intros Hu' _. by rewrite (Huniq r' Hr' Hu').
  - pose proof (CancelMigration_table c uuid message issuedByUser e _ _
                  Hopen Hread Hterm)
      as (statusApplied & messageApplied & Htable & _ & Hstatus & _).
    rewrite H in Htable. simpl in Htable. split.
    + intros r Hr Hrt. rewrite Htable. apply list_elem_of_fmap.
      exists r. split; [| exact Hr]. unfold uuid_is. case_bool_decide; [| done].
      rewrite (Huniq r Hr) in Hrt by done. congruence.
    + intros res _ r' Hr'. rewrite Htable in Hr'.
      apply list_elem_of_fmap in Hr' as (r & -> & Hr).
      unfold uuid_is. case_bool_decide as Hur.
      * split; [| by rewrite cancelled_row_uuid].
        intros _ Happlies. rewrite (Hstatus Happlies).
        apply cancelled_row_terminal.
      * split; [done | by intros _].
Qed.

Lemma appendResults_CancelMigration
    (message : string) (issuedByUser : bool) (uuids : list string)
    (result : Result) (e e' : Executor) (result' : option Result) :
  appendResults AppendResult
    (λ uuid, CancelMigration c uuid message issuedByUser) uuids result e
  = (e', (result', None)) →
  (∀ r, r ∈ schema_migrations e →
        is_terminal (migration_status r) = true → r ∈ schema_migrations e')
  ∧ ((∀ uuid, uuid ∈ uuids → status_update_applies c uuid) →
     ∀ r', r' ∈ schema_migrations e' →
       is_terminal (migration_status r') = true
       ∨ (r' ∈ schema_migrations e ∧ migration_uuid r' ∉ uuids)).
Proof.
  revert result e. induction uuids as [| uuid uuids IH]; intros result e.
  - simpl. intros [= <- _]. split; [done |].
    intros _ r' Hr'. right. split; [exact Hr' | apply not_elem_of_nil].
  - simpl.
    destruct (CancelMigration c uuid message issuedByUser e)
      as [e1 [res | err]] eqn:Hcancel; [| discriminate].
    intros Hloop. apply IH in Hloop as [Hkeep Hrows].
    apply CancelMigration_rows in Hcancel as [Hkeep1 Hrows1]. split.
    + intros r Hr Ht. apply Hkeep; [by apply Hkeep1 | exact Ht].
    + intros Happlies r' Hr'.
      destruct (Hrows (λ u Hu, Happlies u (list_elem_of_further _ _ _ Hu))
                  r' Hr') as [Ht | [Hr1 Hnot]];
        [by left |].
      destruct (Hrows1 res eq_refl r' Hr1) as [Hsame Hother].
      destruct (decide (migration_uuid r' = uuid)) as [Hu | Hu].
      { left. apply Hsame; [exact Hu |].
        apply Happlies, list_elem_of_here. }
      right. split; [by apply Hother |].
      rewrite not_elem_of_cons. done.
Qed.

(** When [CancelPendingMigrations] returns without error, the rows that
    were terminal before are still in the table, as they were.  When,
    besides, the database carried out the status update of [failMigration]
    for every pending migration, no migration is pending any more: every
    row is in a terminal status.  The error of that update is discarded,
    so that the return value does not tell. *)
Theorem CancelPendingMigrations_leaves_nothing_pending
    (message : string) (issuedByUser : bool) (e e' : Executor)
    (result : option Result) :
  CancelPendingMigrations c AppendResult message issuedByUser e
  = (e', (result, None)) →
  ((∀ uuid, uuid ∈ readPendingMigrationsUUIDs e →
            status_update_applies c uuid) →
   pending_rows e' = [])
  ∧ ∀ r, r ∈ schema_migrations e →
         is_terminal (migration_status r) = true → r ∈ schema_migrations e'.
Proof.
  unfold CancelPendingMigrations. case_bool_decide; [discriminate |].
  intros Hloop.
  apply appendResults_CancelMigration in Hloop as [Hkeep Hrows].
  split; [| exact Hkeep].
  intros Happlies.
  unfold pending_rows, sqlSelectPendingMigrations, sqlSelect. simpl.
  apply filter_nil_Forall. intros r' Hr'.
  destruct (Hrows Happlies r' Hr') as [-> | [Hr Hnot]];
    [simpl; discriminate |].
  intros Hpending. apply Hnot.
  unfold readPendingMigrationsUUIDs, sqlSelectPendingMigrations, sqlSelect.
  simpl. apply list_elem_of_fmap. exists r'. split; [reflexivity |].
  apply list_elem_of_filter. done.
Qed.

Lemma cancelMigrations_rows
    (cancellable : list cancellableMigration) (issuedByUser : bool)
    (e e' : Executor) :
  cancelMigrations c cancellable issuedByUser e = (e', None) →
  (∀ r, r ∈ schema_migrations e →
        is_terminal (migration_status r) = true → r ∈ schema_migrations e')
  ∧ ((∀ uuid, uuid ∈ cancellable_uuid <$> cancellable →
              status_update_applies c uuid) →
     ∀ r', r' ∈ schema_migrations e' →
       is_terminal (migration_status r') = true
       ∨ (r' ∈ schema_migrations e
          ∧ migration_uuid r' ∉ cancellable_uuid <$> cancellable)).
Proof.
  revert e. induction cancellable as [| m cancellable IH]; intros e.
  - simpl. intros [= <-]. split; [done |].
    intros _ r' Hr'. right. split; [exact Hr' | apply not_elem_of_nil].
  - simpl.
    destruct (CancelMigration c (cancellable_uuid m) (cancellable_message m)
                issuedByUser e) as [e1 [res | err]] eqn:Hcancel;
      [| discriminate].
    intros Hloop. apply IH in Hloop as [Hkeep Hrows].
    apply CancelMigration_rows in Hcancel as [Hkeep1 Hrows1]. split.
    + intros r Hr Ht. apply Hkeep; [by apply Hkeep1 | exact Ht].
    + intros Happlies r' Hr'.
      destruct (Hrows (λ u Hu, Happlies u (list_elem_of_further _ _ _ Hu))
                  r' Hr') as [Ht | [Hr1 Hnot]];
        [by left |].
      destruct (Hrows1 res eq_refl r' Hr1) as [Hsame Hother].
      destruct (decide (migration_uuid r' = cancellable_uuid m)) as [Hu | Hu].
      { left. apply Hsame; [exact Hu |].
        apply Happlies, list_elem_of_here. }
      right. split; [by apply Hother |].
      rewrite not_elem_of_cons. done.
Qed.

(** When [cancelMigrations] returns without error, the rows that were
    terminal before are still in the table, as they were.  When, besides,
    the database carried out the status update of [failMigration] for
    every listed UUID, the rows of every listed UUID are in a terminal
    status.  The error of that update is discarded, so that the return
    value does not tell. *)
Theorem cancelMigrations_terminates_all
    (cancellable : list cancellableMigration) (issuedByUser : bool)
    (e e' : Executor) :
  cancelMigrations c cancellable issuedByUser e = (e', None) →
  ((∀ uuid, uuid ∈ cancellable_uuid <$> cancellable →
            status_update_applies c uuid) →
   ∀ r', r' ∈ schema_migrations e' →
         migration_uuid r' ∈ cancellable_uuid <$> cancellable →
         is_terminal (migration_status r') = true)
  ∧ ∀ r, r ∈ schema_migrations e →
         is_terminal (migration_status r) = true → r ∈ schema_migrations e'.
Proof.
  intros H. apply cancelMigrations_rows in H as [Hkeep Hrows].
  split; [| exact Hkeep].
  intros Happlies r' Hr' Hin.
  by destruct (Hrows Happlies r' Hr') as [Ht | [_ Hnot]].
Qed.

End BatchCancel.

(** Two rows of a table with unique UUIDs that carry the same UUID are the
    same row. *)
Lemma unique_uuids_row (e : Executor) (r1 r2 : Row) :
  unique_uuids e → r1 ∈ schema_migrations e → r2 ∈ schema_migrations e →
  migration_uuid r1 = migration_uuid r2 → r1 = r2.
Proof.
  intros Hnd H1 H2 Hu.
  pose proof (readMigration_unique e r2 Hnd H2) as Hread.
  apply readMigration_row in Hread as (_ & _ & Huniq). by apply Huniq.
Qed.

(** In a table with unique UUIDs, the rows whose UUID the query of the
    pending migrations returns are the pending rows. *)
Lemma readPendingMigrationsUUIDs_row (e : Executor) (r : Row) :
  unique_uuids e → r ∈ schema_migrations e →
  migration_uuid r ∈ readPendingMigrationsUUIDs e
  ↔ is_terminal (migration_status r) = false.
Proof.
  intros Hnd Hr.
  unfold readPendingMigrationsUUIDs, sqlSelectPendingMigrations, sqlSelect.
  simpl. rewrite list_elem_of_fmap. split.
  - intros (r' & Hu & Hr'). apply list_elem_of_filter in Hr' as [Hp Hin].
    rewrite (unique_uuids_row e r r' Hnd Hr Hin Hu).
    by apply negb_true_iff.
  - intros Hp. exists r. split; [reflexivity |].
    apply list_elem_of_filter. split; [by apply negb_true_iff | exact Hr].
Qed.

(** An update of rows that keeps UUIDs and statuses keeps the pending
    UUIDs. *)
Lemma readPendingMigrationsUUIDs_fmap (g : Row → Row) (e e' : Executor) :
  (∀ r, migration_uuid (g r) = migration_uuid r) →
  (∀ r, migration_status (g r) = migration_status r) →
  schema_migrations e' = g <$> schema_migrations e →
  readPendingMigrationsUUIDs e' = readPendingMigrationsUUIDs e.
Proof.
  intros Hu Hs He'.
  unfold readPendingMigrationsUUIDs, sqlSelectPendingMigrations, sqlSelect.
  simpl. rewrite He'. clear He'.
  induction (schema_migrations e) as [| r t IH]; [reflexivity |].
  rewrite fmap_cons.
  destruct (is_terminal (migration_status r)) eqn:Ht.
  - rewrite !filter_cons_False by (rewrite ?Hs, Ht; simpl; discriminate).
    exact IH.
  - rewrite !filter_cons_True by (rewrite ?Hs, Ht; reflexivity).
    by rewrite !fmap_cons, Hu, IH.
Qed.

Section BatchUpdate.

Context (AppendResult : Result → Result → Result).

(** The loop run with an operation that, for each of the UUIDs, succeeds
    and updates the rows of that UUID by [f]. *)
Lemma appendResults_update
    (op : string → Executor → Executor * outcome Result) (f : Row → Row)
    (uuids : list string) (e : Executor) :
  (∀ r, f (f r) = f r) →
  (∀ r, migration_uuid (f r) = migration_uuid r) →
  (∀ uuid t, uuid ∈ uuids →
     ∃ rs, op uuid (with_schema_migrations t e)
           = (fst (sqlUpdate (uuid_is uuid) f (with_schema_migrations t e)),
              Ok rs)) →
  ∀ result, ∃ result',
    appendResults AppendResult op uuids result e
    = (with_schema_migrations
         ((λ r, if bool_decide (migration_uuid r ∈ uuids) then f r else r)
          <$> schema_migrations e) e,
       (Some result', None)).
Proof.
  intros Hidem Huuid Hop.
  assert (Hgen : ∀ t result, ∃ result',
    appendResults AppendResult op uuids result (with_schema_migrations t e)
    = (with_schema_migrations
         ((λ r, if bool_decide (migration_uuid r ∈ uuids) then f r else r)
          <$> t) e,
       (Some result', None))).
  { induction uuids as [| uuid uuids IH]; intros t result.
    - exists result. simpl. f_equal. f_equal.
      rewrite <- (list_fmap_id t) at 1. apply list_fmap_ext.
      intros i r _. reflexivity.
    - simpl. destruct (Hop uuid t) as [rs ->]; [apply list_elem_of_here |].
      destruct (IH (λ u t' Hu, Hop u t' (list_elem_of_further _ _ _ Hu))
                  ((λ r, if uuid_is uuid r then f r else r) <$> t)
                  (AppendResult result rs)) as [result' Hloop].
      exists result'.
      change ((sqlUpdate (uuid_is uuid) f (with_schema_migrations t e)).1)
        with (with_schema_migrations
                ((λ r, if uuid_is uuid r then f r else r) <$> t) e).
      rewrite Hloop.
      f_equal. f_equal. rewrite <- list_fmap_compose. apply list_fmap_ext.
      intros i r _. simpl. unfold uuid_is.
      destruct (decide (migration_uuid r = uuid)) as [Hr | Hr].
      + rewrite (bool_decide_eq_true_2 _ Hr).
        rewrite (bool_decide_eq_true_2 (migration_uuid r ∈ uuid :: uuids))
          by (rewrite Hr; apply list_elem_of_here).
        rewrite Huuid. case_bool_decide; [apply Hidem | reflexivity].
      + rewrite (bool_decide_eq_false_2 _ Hr).
        repeat case_bool_decide; try reflexivity.
        * exfalso. match goal with H : _ ∉ _ |- _ => apply H end.
          by apply list_elem_of_further.
        * exfalso.
          match goal with H : _ ∈ _ :: _ |- _ =>
            apply elem_of_cons in H as [? | ?] end; done. }
  intros result.
  destruct (Hgen (schema_migrations e) result) as [result' Hloop].
  exists result'. by rewrite with_schema_migrations_same in Hloop.
Qed.

End BatchUpdate.

(** In a table with unique UUIDs, the rows whose UUID a query returns are
    the rows that satisfy its condition. *)
Lemma sqlSelect_uuids_row (cond : Row → bool) (e : Executor) (r : Row) :
  unique_uuids e → r ∈ schema_migrations e →
  migration_uuid r ∈ migration_uuid <$> Rows (sqlSelect cond e)
  ↔ cond r = true.
Proof.
  intros Hnd Hr. unfold sqlSelect. simpl. rewrite list_elem_of_fmap. split.
  - intros (r' & Hu & Hr'). apply list_elem_of_filter in Hr' as [Hp Hin].
    by rewrite (unique_uuids_row e r r' Hnd Hr Hin Hu).
  - intros Hp. exists r. split; [reflexivity |].
    apply list_elem_of_filter. done.
Qed.

Lemma fmap_if_uuids (cond : Row → bool) (f : Row → Row) (e : Executor) :
  unique_uuids e →
  (λ r, if bool_decide
             (migration_uuid r ∈ migration_uuid <$> Rows (sqlSelect cond e))
        then f r else r) <$> schema_migrations e
  = (λ r, if cond r then f r else r) <$> schema_migrations e.
Proof.
  intros Hnd. apply list_fmap_ext. intros i r Hi.
  apply list_elem_of_lookup_2 in Hi.
  pose proof (sqlSelect_uuids_row cond e r Hnd Hi) as Hiff.
  destruct (cond r); case_bool_decide as Hin; try reflexivity.
  - exfalso. apply Hin. by apply Hiff.
  - apply Hiff in Hin. discriminate.
Qed.

Section BatchUpdates.

Context (c : Collaborators) (AppendResult : Result → Result → Result).

(** The loop over a list of UUIDs whose first part went through without
    error goes on with the rest. *)
Lemma appendResults_app
    (op : string → Executor → Executor * outcome Result)
    (l1 l2 : list string) (result r1 : Result) (e e1 : Executor) :
  appendResults AppendResult op l1 result e = (e1, (Some r1, None)) →
  appendResults AppendResult op (l1 ++ l2) result e
  = appendResults AppendResult op l2 r1 e1.
Proof.
  revert result e. induction l1 as [| uuid l1 IH]; intros result e; simpl.
  - by intros [= <- <-].
  - destruct (op uuid e) as [e0 [res | err]]; [apply IH | discriminate].
Qed.

Lemma ForceCutOverMigration_update (uuid : string) (t : list Row)
    (e : Executor) :
  isOpen e ≠ 0 → IsOnlineDDLUUID c uuid = true →
  ∃ rs, ForceCutOverMigration c uuid (with_schema_migrations t e)
        = (fst (sqlUpdate (uuid_is uuid) (set_force_cutover true)
                  (with_schema_migrations t e)), Ok rs).
Proof.
  intros Hopen Hvalid. unfold ForceCutOverMigration. simpl.
  rewrite bool_decide_eq_false_2, Hvalid by exact Hopen. simpl.
  eexists. reflexivity.
Qed.

(** On an open executor whose pending migrations all carry a valid UUID,
    [ForceCutOverPendingMigrations] returns without error, marks every
    pending row for a forced cut-over and leaves the terminal rows, and
    everything but the table, as they were. *)
Theorem ForceCutOverPendingMigrations_marks_pending (e : Executor) :
  isOpen e ≠ 0 →
  unique_uuids e →
  Forall (λ uuid, IsOnlineDDLUUID c uuid = true)
         (readPendingMigrationsUUIDs e) →
  ∃ result,
    ForceCutOverPendingMigrations c AppendResult e
    = (with_schema_migrations
         ((λ r, if negb (is_terminal (migration_status r))
                then set_force_cutover true r else r)
          <$> schema_migrations e) e,
       (Some result, None)).
Proof.
  intros Hopen Hnd Hvalid. unfold ForceCutOverPendingMigrations.
  rewrite bool_decide_eq_false_2 by exact Hopen.
  destruct (appendResults_update AppendResult (ForceCutOverMigration c)
              (set_force_cutover true) (readPendingMigrationsUUIDs e) e)
    with (result := emptyResult) as [result Hloop]; [done | done | |].
  - intros uuid t Hin. apply ForceCutOverMigration_update; [exact Hopen |].
    rewrite Forall_forall in Hvalid. by apply Hvalid.
  - exists result. rewrite Hloop. f_equal. f_equal.
    by apply (fmap_if_uuids
                (λ r, negb (is_terminal (migration_status r)))).
Qed.

(** [ForceCutOverPendingMigrations] is not atomic: at the first pending
    UUID that is not a valid one it returns an error of code UNKNOWN
    together with the results gathered so far; the migrations before it
    stay marked, the ones after it are not looked at. *)
Theorem ForceCutOverPendingMigrations_stops_at_invalid
    (e : Executor) (valid : list string) (uuid : string)
    (rest : list string) :
  isOpen e ≠ 0 →
  readPendingMigrationsUUIDs e = valid ++ uuid :: rest →
  Forall (λ uuid, IsOnlineDDLUUID c uuid = true) valid →
  IsOnlineDDLUUID c uuid = false →
  ∃ result err,
    ForceCutOverPendingMigrations c AppendResult e
    = (with_schema_migrations
         ((λ r, if bool_decide (migration_uuid r ∈ valid)
                then set_force_cutover true r else r)
          <$> schema_migrations e) e,
       (Some result, Some err))
    ∧ ErrCode err = Code_UNKNOWN.
Proof.
  intros Hopen Huuids Hvalid Hinvalid. unfold ForceCutOverPendingMigrations.
  rewrite bool_decide_eq_false_2 by exact Hopen. rewrite Huuids.
  destruct (appendResults_update AppendResult (ForceCutOverMigration c)
              (set_force_cutover true) valid e)
    with (result := emptyResult) as [result Hloop]; [done | done | |].
  - intros u t Hin. apply ForceCutOverMigration_update; [exact Hopen |].
    rewrite Forall_forall in Hvalid. by apply Hvalid.
  - rewrite (appendResults_app _ _ _ _ _ _ _ Hloop). simpl.
    unfold ForceCutOverMigration at 1. simpl.
    rewrite bool_decide_eq_false_2, Hinvalid by exact Hopen. simpl.
    eexists _, _. split; reflexivity.
Qed.

Lemma matchesShards_empty (e : Executor) :
  SplitDelimitedList c "" = [] → matchesShards c "" e = true.
Proof. intros Hsplit. unfold matchesShards. by rewrite Hsplit. Qed.

Lemma LaunchMigration_update (uuid : string) (t : list Row) (e : Executor) :
  isOpen e ≠ 0 → SplitDelimitedList c "" = [] →
  IsOnlineDDLUUID c uuid = true →
  ∃ rs, LaunchMigration c uuid "" (with_schema_migrations t e)
        = (fst (sqlUpdate (uuid_is uuid) (set_postpone_launch false)
                  (with_schema_migrations t e)), Ok rs).
Proof.
  intros Hopen Hsplit Hvalid. unfold LaunchMigration.
  rewrite matchesShards_empty by exact Hsplit. simpl.
  rewrite bool_decide_eq_false_2, Hvalid by exact Hopen. simpl.
  eexists. reflexivity.
Qed.

(** On an open executor whose queued, reviewed migrations all carry a
    valid UUID, [LaunchMigrations] returns without error and clears the
    launch postponement of every queued row that has been reviewed; the
    queued rows still to be reviewed and the rows in another status are
    left as they were. *)
Theorem LaunchMigrations_launches_queued (e : Executor) :
  isOpen e ≠ 0 →
  unique_uuids e →
  SplitDelimitedList c "" = [] →
  Forall (λ uuid, IsOnlineDDLUUID c uuid = true)
         (migration_uuid <$> Rows (sqlSelectQueuedMigrations e)) →
  ∃ result,
    LaunchMigrations c AppendResult e
    = (with_schema_migrations
         ((λ r, if schedulable r then set_postpone_launch false r else r)
          <$> schema_migrations e) e,
       (Some result, None)).
Proof.
  intros Hopen Hnd Hsplit Hvalid. unfold LaunchMigrations.
  rewrite bool_decide_eq_false_2 by exact Hopen.
  destruct (appendResults_update AppendResult
              (λ uuid, LaunchMigration c uuid "")
              (set_postpone_launch false)
              (migration_uuid <$> Rows (sqlSelectQueuedMigrations e)) e)
    with (result := emptyResult) as [result Hloop]; [done | done | |].
  - intros uuid t Hin. apply LaunchMigration_update; [done | done |].
    rewrite Forall_forall in Hvalid. by apply Hvalid.
  - exists result. rewrite Hloop. f_equal. f_equal.
    by apply (fmap_if_uuids schedulable).
Qed.

Lemma CompleteMigration_update (uuid : string) (t : list Row)
    (e : Executor) :
  isOpen e ≠ 0 → SplitDelimitedList c "" = [] →
  IsOnlineDDLUUID c uuid = true →
  ∃ rs, CompleteMigration c uuid "" (with_schema_migrations t e)
        = (fst (sqlUpdate (uuid_is uuid) (set_postpone_completion false)
                  (with_schema_migrations t e)), Ok rs).
Proof.
  intros Hopen Hsplit Hvalid. unfold CompleteMigration.
  rewrite matchesShards_empty by exact Hsplit. simpl.
  rewrite bool_decide_eq_false_2, Hvalid by exact Hopen. simpl.
  eexists. reflexivity.
Qed.

Lemma PostponeCompleteMigration_update (uuid : string) (t : list Row)
    (e : Executor) :
  isOpen e ≠ 0 → IsOnlineDDLUUID c uuid = true →
  ∃ rs, PostponeCompleteMigration c uuid (with_schema_migrations t e)
        = (fst (sqlUpdate (uuid_is uuid) (set_postpone_completion true)
                  (with_schema_migrations t e)), Ok rs).
Proof.
  intros Hopen Hvalid. unfold PostponeCompleteMigration. simpl.
  rewrite bool_decide_eq_false_2, Hvalid by exact Hopen. simpl.
  eexists. reflexivity.
Qed.

Lemma CompletePendingMigrations_table (e : Executor) :
  isOpen e ≠ 0 →
  SplitDelimitedList c "" = [] →
  Forall (λ uuid, IsOnlineDDLUUID c uuid = true)
         (readPendingMigrationsUUIDs e) →
  ∃ result,
    CompletePendingMigrations c AppendResult e
    = (with_schema_migrations
         ((λ r, if bool_decide
                     (migration_uuid r ∈ readPendingMigrationsUUIDs e)
                then set_postpone_completion false r else r)
          <$> schema_migrations e) e,
       (Some result, None)).
Proof.
  intros Hopen Hsplit Hvalid. unfold CompletePendingMigrations.
  rewrite bool_decide_eq_false_2 by exact Hopen.
  apply (appendResults_update AppendResult
           (λ uuid, CompleteMigration c uuid "")
           (set_postpone_completion false)); [done | done |].
  intros uuid t Hin. apply CompleteMigration_update; [done | done |].
  rewrite Forall_forall in Hvalid. by apply Hvalid.
Qed.

Lemma PostponeCompletePendingMigrations_table (e : Executor) :
  isOpen e ≠ 0 →
  Forall (λ uuid, IsOnlineDDLUUID c uuid = true)
         (readPendingMigrationsUUIDs e) →
  ∃ result,
    PostponeCompletePendingMigrations c AppendResult e
    = (with_schema_migrations
         ((λ r, if bool_decide
                     (migration_uuid r ∈ readPendingMigrationsUUIDs e)
                then set_postpone_completion true r else r)
          <$> schema_migrations e) e,
       (Some result, None)).
Proof.
  intros Hopen Hvalid. unfold PostponeCompletePendingMigrations.
  rewrite bool_decide_eq_false_2 by exact Hopen.
  apply (appendResults_update AppendResult (PostponeCompleteMigration c)
           (set_postpone_completion true)); [done | done |].
  intros uuid t Hin. apply PostponeCompleteMigration_update; [done |].
  rewrite Forall_forall in Hvalid. by apply Hvalid.
Qed.

(** Completing all the pending migrations undoes a postponement of all of
    them: on an open executor whose pending migrations all carry a valid
    UUID, [CompletePendingMigrations] run after
    [PostponeCompletePendingMigrations] leaves the executor as
    [CompletePendingMigrations] alone does, with no pending row postponed
    for completion when the UUIDs are unique. *)
Theorem CompletePendingMigrations_after_postponement (e : Executor) :
  isOpen e ≠ 0 →
  SplitDelimitedList c "" = [] →
  Forall (λ uuid, IsOnlineDDLUUID c uuid = true)
         (readPendingMigrationsUUIDs e) →
  let e1 := fst (PostponeCompletePendingMigrations c AppendResult e) in
  let e2 := fst (CompletePendingMigrations c AppendResult e1) in
  e2 = fst (CompletePendingMigrations c AppendResult e)
  ∧ (unique_uuids e →
     schema_migrations e2
     = (λ r, if negb (is_terminal (migration_status r))
             then set_postpone_completion false r else r)
       <$> schema_migrations e).
Proof.
  intros Hopen Hsplit Hvalid. cbv zeta.
  destruct (PostponeCompletePendingMigrations_table e Hopen Hvalid)
    as [result1 ->].
  set (e1 := with_schema_migrations _ e). simpl.
  assert (Huuids : readPendingMigrationsUUIDs e1
                   = readPendingMigrationsUUIDs e).
  { apply (readPendingMigrationsUUIDs_fmap
             (λ r, if bool_decide
                        (migration_uuid r ∈ readPendingMigrationsUUIDs e)
                   then set_postpone_completion true r else r));
      [| | reflexivity]; intros r; by case_bool_decide. }
  destruct (CompletePendingMigrations_table e1) as [result2 ->];
    [exact Hopen | exact Hsplit | by rewrite Huuids |].
  destruct (CompletePendingMigrations_table e Hopen Hsplit Hvalid)
    as [result ->].
  simpl. rewrite Huuids.
  assert (Htable :
    (λ r, if bool_decide (migration_uuid r ∈ readPendingMigrationsUUIDs e)
          then set_postpone_completion false r else r)
    <$> ((λ r, if bool_decide
                    (migration_uuid r ∈ readPendingMigrationsUUIDs e)
               then set_postpone_completion true r else r)
         <$> schema_migrations e)
    = (λ r, if bool_decide (migration_uuid r ∈ readPendingMigrationsUUIDs e)
            then set_postpone_completion false r else r)
      <$> schema_migrations e).
  { rewrite <- list_fmap_compose. apply list_fmap_ext. intros i r _. simpl.
    destruct (decide (migration_uuid r ∈ readPendingMigrationsUUIDs e))
      as [Hin | Hin].
    - rewrite !(bool_decide_eq_true_2 _ Hin). simpl.
      rewrite ?(bool_decide_eq_true_2 _ Hin). reflexivity.
    - rewrite !(bool_decide_eq_false_2 _ Hin).
      rewrite ?(bool_decide_eq_false_2 _ Hin). reflexivity. }
  rewrite Htable. split; [reflexivity |].
  intros Hnd.
  by apply (fmap_if_uuids (λ r, negb (is_terminal (migration_status r)))).
Qed.

End BatchUpdates.

(** ** Readiness of a replication stream *)

(** The threshold a migration read from the table carries: the stored
    seconds when they are between 5 and 30, and 10s otherwise. *)
Lemma readMigration_CutOverThreshold
    (uuid : string) (e : Executor) (onlineDDL : OnlineDDL) (row : Row) :
  readMigration uuid e = Ok (onlineDDL, row) →
  (if bool_decide (5 ≤ cutover_threshold_seconds row ≤ 30)
   then cutover_threshold_seconds row * Second else 10 * Second)
  = CutOverThreshold onlineDDL.
Proof.
  intros Hread. apply readMigration_Ok in Hread as [_ ->]. simpl.
  unfold safeMigrationCutOverThreshold, defaultCutOverThreshold,
    minCutOverThreshold, maxCutOverThreshold, Second, Millisecond,
    Microsecond, Nanosecond.
  repeat case_bool_decide; simpl; lia.
Qed.

(** A stream of a migration read from the table is ready to cut over
    exactly when it has a position, its lag is at most the stored
    threshold (10s when the stored seconds are not between 5 and 30) and
    the copy state counts no row for it; the stored value cannot make a
    stream that lags by more than 30s ready. *)
Theorem isVReplMigrationReadyToCutOver_stored_threshold
    (readCountCopyState : Z → outcome (option Z))
    (uuid : string) (e : Executor) (onlineDDL : OnlineDDL) (row : Row)
    (s : VReplStream) :
  readMigration uuid e = Ok (onlineDDL, row) →
  (isVReplMigrationReadyToCutOver readCountCopyState onlineDDL s
   = (true, None)
   ↔ pos s ≠ ""
     ∧ Lag s ≤ (if bool_decide (5 ≤ cutover_threshold_seconds row ≤ 30)
                then cutover_threshold_seconds row * Second
                else 10 * Second)
     ∧ ∃ count, readCountCopyState (stream_id s) = Ok (Some count)
                ∧ count ≤ 0)
  ∧ (30 * Second < Lag s →
     isVReplMigrationReadyToCutOver readCountCopyState onlineDDL s
     = (false, None)).
Proof.
  intros Hread. pose proof (readMigration_CutOverThreshold _ _ _ _ Hread)
    as Hthreshold.
  unfold isVReplMigrationReadyToCutOver. clear Hread. split.
  - rewrite Hthreshold. clear Hthreshold.
    generalize (CutOverThreshold onlineDDL). intros threshold.
    destruct (decide (pos s = "")) as [Hpos | Hpos].
    { rewrite bool_decide_eq_true_2 by exact Hpos.
      split; [discriminate | by intros [? _]]. }
    rewrite bool_decide_eq_false_2 by exact Hpos.
    case_bool_decide as Hlag.
    { split; [discriminate | intros (_ & Hle & _); lia]. }
    destruct (readCountCopyState (stream_id s)) as [[count |] | err].
    + case_bool_decide as Hcount.
      * split; [discriminate |]. intros (_ & _ & n & [= <-] & Hn). lia.
      * split; [| reflexivity]. intros _. split; [exact Hpos |].
        split; [lia |]. exists count. split; [reflexivity | lia].
    + split; [discriminate |]. by intros (_ & _ & n & Hn & _).
    + split; [discriminate |]. by intros (_ & _ & n & Hn & _).
  - intros Hlag. destruct (bool_decide (pos s = "")); [reflexivity |].
    rewrite bool_decide_eq_true_2; [reflexivity |].
    rewrite <- Hthreshold. revert Hlag. unfold Second, Millisecond, Microsecond, Nanosecond.
    case_bool_decide; lia.
Qed.

(** ** The review of a queued migration *)

(** [reviewImmediateOperations] finds an immediate operation exactly for
    a CREATE, a DROP, an ALTER of a view (a REVERT included), and an ALTER
    that is neither of a view nor a REVERT and has a special plan; it
    fails exactly when the analysis of such an ALTER fails, and consults
    the analysis in no other case. *)
Theorem reviewImmediateOperations_immediate_iff
    {SpecialAlterPlan : Type}
    (analyzeSpecialAlterPlan : OnlineDDL → outcome (option SpecialAlterPlan))
    (onlineDDL : OnlineDDL) (ddlAction : string) (isRevert isView : bool) :
  let plain_alter :=
    ddlAction = AlterStr ∧ isView = false ∧ isRevert = false in
  (reviewImmediateOperations analyzeSpecialAlterPlan onlineDDL ddlAction
     isRevert isView = Ok true
   ↔ ddlAction = CreateStr ∨ ddlAction = DropStr
     ∨ (ddlAction = AlterStr ∧ isView = true)
     ∨ (plain_alter
        ∧ ∃ plan, analyzeSpecialAlterPlan onlineDDL = Ok (Some plan)))
  ∧ (∀ err,
       reviewImmediateOperations analyzeSpecialAlterPlan onlineDDL ddlAction
         isRevert isView = Err err
       ↔ plain_alter ∧ analyzeSpecialAlterPlan onlineDDL = Err err)
  ∧ (¬ plain_alter →
     ∀ (Plan' : Type) (analysis' : OnlineDDL → outcome (option Plan')),
       reviewImmediateOperations analysis' onlineDDL ddlAction isRevert isView
       = reviewImmediateOperations analyzeSpecialAlterPlan onlineDDL
           ddlAction isRevert isView).
Proof.
  cbv zeta. unfold reviewImmediateOperations.
  destruct (decide (ddlAction = CreateStr)) as [-> | Hc].
  { simpl. split; [split; [tauto | done] |].
    split; [| done]. intros err. split; [discriminate |].
    by intros [[? _] _]. }
  destruct (decide (ddlAction = DropStr)) as [-> | Hd].
  { simpl. split; [split; [tauto | done] |].
    split; [| done]. intros err. split; [discriminate |].
    by intros [[? _] _]. }
  rewrite (bool_decide_eq_false_2 _ Hc), (bool_decide_eq_false_2 _ Hd).
  simpl. destruct (decide (ddlAction = AlterStr)) as [-> | Ha].
  2: { rewrite (bool_decide_eq_false_2 _ Ha). split; [| split].
       - split; [discriminate |].
         intros [? | [? | [[? _] | [[? _] _]]]]; done.
       - intros err. split; [discriminate | by intros [[? _] _]].
       - intros _ Plan' analysis'. reflexivity. }
  simpl. destruct isView, isRevert; simpl.
  - split; [split; [intros _; right; right; left; done | done] |].
    split; [| done]. intros err. split; [discriminate |].
    by intros [(_ & ? & _) _].
  - split; [split; [intros _; right; right; left; done | done] |].
    split; [| done]. intros err. split; [discriminate |].
    by intros [(_ & ? & _) _].
  - split; [| split; [| done]].
    + split; [discriminate |].
      intros [? | [? | [[_ ?] | [(_ & _ & ?) _]]]]; done.
    + intros err. split; [discriminate | by intros [(_ & _ & ?) _]].
  - split; [| split].
    + destruct (analyzeSpecialAlterPlan onlineDDL) as [[plan |] | err].
      * split; [| done]. intros _. right. right. right.
        split; [done |]. by exists plan.
      * split; [discriminate |].
        intros [? | [? | [[_ ?] | [_ [plan ?]]]]]; done.
      * split; [discriminate |].
        intros [? | [? | [[_ ?] | [_ [plan ?]]]]]; done.
    + intros err.
      destruct (analyzeSpecialAlterPlan onlineDDL) as [[plan |] | err0].
      * split; [discriminate | by intros [_ ?]].
      * split; [discriminate | by intros [_ ?]].
      * split; [intros [= ->]; done | by intros [_ [= ->]]].
    + intros Hnot. exfalso. by apply Hnot.
Qed.

(** ** Foreign keys *)

Section ForeignKeyProps.

Context (execFKQuery : FKQuery → string → string → outcome (option Z)).
Context (Schema : OnlineDDL → string).
Context (IsAllowForeignKeysFlag : DDLStrategySetting → bool).
Context (isPreserveForeignKeySupported : outcome bool).

(** The table takes part in a foreign key when the parent query counts a
    constraint, in which case the child query is not run, or when the
    parent query counts none and the child query counts one. *)
Lemma tableParticipatesInForeignKeyRelationship_cases
    (schema table : string) (participates : bool) :
  tableParticipatesInForeignKeyRelationship execFKQuery schema table
  = Ok participates
  ↔ ∃ parent,
      execFKQuery selSelectCountFKParentConstraints schema table
      = Ok (Some parent)
      ∧ if bool_decide (parent > 0) then participates = true
        else ∃ child,
          execFKQuery selSelectCountFKChildConstraints schema table
          = Ok (Some child)
          ∧ participates = bool_decide (child > 0).
Proof.
  unfold tableParticipatesInForeignKeyRelationship. simpl.
  destruct (execFKQuery selSelectCountFKParentConstraints schema table)
    as [[parent |] | err].
  - case_bool_decide as Hp.
    + split.
      * intros [= <-]. exists parent.
        by rewrite bool_decide_eq_true_2.
      * intros (n & [= <-] & Hn).
        rewrite bool_decide_eq_true_2 in Hn by exact Hp. by rewrite Hn.
    + destruct (execFKQuery selSelectCountFKChildConstraints schema table)
        as [[child |] | err].
      * split.
        -- intros Hres. exists parent. split; [reflexivity |].
           rewrite bool_decide_eq_false_2 by exact Hp. exists child.
           split; [reflexivity |].
           case_bool_decide; by injection Hres as <-.
        -- intros (n & [= <-] & Hn).
           rewrite bool_decide_eq_false_2 in Hn by exact Hp.
           destruct Hn as (m & [= <-] & ->). by case_bool_decide.
      * split; [discriminate |]. intros (n & [= <-] & Hn).
        rewrite bool_decide_eq_false_2 in Hn by exact Hp.
        by destruct Hn as (m & ? & _).
      * split; [discriminate |]. intros (n & [= <-] & Hn).
        rewrite bool_decide_eq_false_2 in Hn by exact Hp.
        by destruct Hn as (m & ? & _).
  - split; [discriminate | by intros (n & ? & _)].
  - split; [discriminate | by intros (n & ? & _)].
Qed.

(** [validateTableForAlterAction] accepts a migration exactly when its
    table takes part in no foreign key, or takes part in one while the
    strategy carries [--unsafe-allow-foreign-keys] and the server supports
    [rename_table_preserve_foreign_key]; a table in a foreign key is
    refused with INVALID_ARGUMENT when the flag or the support is
    missing. *)
Theorem validateTableForAlterAction_accepts_iff (onlineDDL : OnlineDDL) :
  let validation :=
    validateTableForAlterAction execFKQuery Schema IsAllowForeignKeysFlag
      isPreserveForeignKeySupported onlineDDL in
  let participates :=
    tableParticipatesInForeignKeyRelationship execFKQuery
      (Schema onlineDDL) (Table onlineDDL) in
  (validation = None
   ↔ participates = Ok false
     ∨ (participates = Ok true
        ∧ IsAllowForeignKeysFlag (StrategySetting onlineDDL) = true
        ∧ isPreserveForeignKeySupported = Ok true))
  ∧ (participates = Ok true →
     IsAllowForeignKeysFlag (StrategySetting onlineDDL) = false
     ∨ isPreserveForeignKeySupported = Ok false →
     ∃ err, validation = Some err ∧ ErrCode err = Code_INVALID_ARGUMENT).
Proof.
  cbv zeta. unfold validateTableForAlterAction.
  destruct (tableParticipatesInForeignKeyRelationship execFKQuery
              (Schema onlineDDL) (Table onlineDDL)) as [[|] | err].
  - destruct (IsAllowForeignKeysFlag (StrategySetting onlineDDL)); simpl.
    + destruct isPreserveForeignKeySupported as [[|] | err]; simpl.
      * split; [split; [intros _; right; done | done] |].
        intros _ [? | ?]; done.
      * split; [split; [discriminate | intros [? | (_ & _ & ?)]; done] |].
        intros _ _. eexists. split; reflexivity.
      * split; [split; [discriminate | intros [? | (_ & _ & ?)]; done] |].
        intros _ [? | ?]; done.
    + split; [split; [discriminate | intros [? | (_ & ? & _)]; done] |].
      intros _ _. eexists. split; reflexivity.
  - split; [split; [intros _; by left | done] | discriminate].
  - split; [split; [discriminate | intros [? | [? _]]; done] |
            discriminate].
Qed.

End ForeignKeyProps.

(** ** The collection of artifacts *)

Lemma wrap64_small (x : Z) : - 2 ^ 63 ≤ x < 2 ^ 63 → wrap64 x = x.
Proof.
  intros Hx. unfold wrap64. rewrite Z.mod_small by lia. lia.
Qed.

Section ArtifactProps.

Context (gcArtifactTable : string → string → Z → outcome string).

Lemma gcArtifacts_loop_calls
    (uuid : string) (timeNow : Z) (artifactTables : list string) (i : Z)
    (calls : list (string * Z)) (err : option vterror) :
  0 ≤ i →
  (i + Z.of_nat (length artifactTables)) * Second < 2 ^ 63 →
  gcArtifacts_loop gcArtifactTable uuid timeNow i artifactTables
  = (calls, err) →
  ∀ k artifactTable t,
    calls !! k = Some (artifactTable, t) →
    artifactTables !! k = Some artifactTable
    ∧ t = timeNow - (i + Z.of_nat k) * Second.
Proof.
  revert i calls err.
  induction artifactTables as [| a artifactTables IH];
    intros i calls err Hi Hbound; simpl.
  - intros [= <- _] k artifactTable t Hk. by rewrite lookup_nil in Hk.
  - assert (Htime : timeNow + wrap64 (wrap64 (- i) * Second)
                    = timeNow - i * Second).
    { revert Hbound. simpl length. unfold Second, Millisecond, Microsecond,
        Nanosecond. intros Hbound.
      rewrite (wrap64_small (- i)) by lia. rewrite wrap64_small by lia.
      lia. }
    rewrite Htime.
    assert (Hhere : ∀ k artifactTable t rest,
      ((a, timeNow - i * Second) :: rest) !! k = Some (artifactTable, t) →
      (∀ k', rest !! k' = Some (artifactTable, t) →
             artifactTables !! k' = Some artifactTable
             ∧ t = timeNow - (i + 1 + Z.of_nat k') * Second) →
      (a :: artifactTables) !! k = Some artifactTable
      ∧ t = timeNow - (i + Z.of_nat k) * Second).
    { intros [| k] artifactTable t rest Hk Hrest; simpl in Hk.
      - injection Hk as <- <-. split; [reflexivity |]. f_equal. lia.
      - destruct (Hrest k Hk) as [Hl ->]. split; [exact Hl |]. lia. }
    destruct (gcArtifactTable a uuid (timeNow - i * Second))
      as [toTableName | err0].
    + destruct (gcArtifacts_loop gcArtifactTable uuid timeNow (i + 1)
                  artifactTables) as [calls0 err1] eqn:Hloop.
      intros [= <- _] k artifactTable t Hk.
      apply (Hhere k artifactTable t calls0 Hk). intros k' Hk'.
      apply (IH (i + 1) calls0 err1); [lia | | exact Hloop | exact Hk'].
      revert Hbound. simpl length. lia.
    + intros [= <- _] k artifactTable t Hk.
      apply (Hhere k artifactTable t [] Hk). intros k' Hk'.
      by rewrite lookup_nil in Hk'.
Qed.

(** The artifact tables of a migration are collected in their order, the
    k-th one with the time k seconds before now: the times are pairwise
    distinct and none is in the future. *)
Theorem gcArtifacts_loop_distinct_timestamps
    (uuid : string) (timeNow : Z) (artifactTables : list string)
    (calls : list (string * Z)) (err : option vterror) :
  Z.of_nat (length artifactTables) * Second < 2 ^ 63 →
  gcArtifacts_loop gcArtifactTable uuid timeNow 0 artifactTables
  = (calls, err) →
  (∀ k artifactTable t,
     calls !! k = Some (artifactTable, t) →
     artifactTables !! k = Some artifactTable
     ∧ t = timeNow - Z.of_nat k * Second)
  ∧ NoDup (calls.*2)
  ∧ Forall (λ t, t ≤ timeNow) (calls.*2).
Proof.
  intros Hbound Hloop.
  pose proof (gcArtifacts_loop_calls uuid timeNow artifactTables 0 calls err
                (Z.le_refl 0) Hbound Hloop) as Hcalls.
  split; [exact Hcalls |]. split.
  - apply NoDup_alt. intros j k t Hj Hk.
    rewrite list_lookup_fmap in Hj, Hk.
    destruct (calls !! j) as [[aj tj] |] eqn:Hcj; [| discriminate].
    destruct (calls !! k) as [[ak tk] |] eqn:Hck; [| discriminate].
    simpl in Hj, Hk. injection Hj as ->. injection Hk as ->.
    destruct (Hcalls j aj t Hcj) as [_ Htj].
    destruct (Hcalls k ak t Hck) as [_ Htk].
    revert Htj Htk. unfold Second, Millisecond, Microsecond, Nanosecond. lia.
  - apply Forall_forall. intros t Ht.
    apply list_elem_of_lookup_1 in Ht as [k Hk].
    rewrite list_lookup_fmap in Hk.
    destruct (calls !! k) as [[ak tk] |] eqn:Hck; [| discriminate].
    simpl in Hk. injection Hk as ->.
    destruct (Hcalls k ak t Hck) as [_ ->].
    unfold Second, Millisecond, Microsecond, Nanosecond. lia.
Qed.

End ArtifactProps.

Lemma SplitN_colon_2_cases (s : string) :
  (SplitN_colon_2 s = [s] ∧ ∀ a b, s ≠ a +:+ ":" +:+ b)
  ∨ ∃ host path,
      SplitN_colon_2 s = [host; path]
      ∧ s = host +:+ ":" +:+ path
      ∧ ∀ a b, host ≠ a +:+ ":" +:+ b.
Proof.
  induction s as [| ch s IH]; simpl.
  - left. split; [reflexivity |]. intros [| ? ?] b; discriminate.
  - case_bool_decide as Hch.
    + right. exists "", s. split; [reflexivity |].
      split; [by injection Hch as -> |].
      intros [| ? ?] b; discriminate.
    + destruct IH as [[-> Hnone] | (host & path & -> & -> & Hnone)].
      * left. split; [reflexivity |]. intros [| ch' a] b; simpl.
        -- intros [= -> _]. done.
        -- intros [= _ ->]. by apply (Hnone a b).
      * right. exists (String ch host), path. split; [reflexivity |].
        split; [reflexivity |]. intros [| ch' a] b; simpl.
        -- intros [= -> _]. done.
        -- intros [= _ ->]. by apply (Hnone a b).
Qed.

(** The log path that is removed is always defined: it is the whole of a
    path without colon, and else what follows the first colon, whether or
    not a host name precedes it. *)
Theorem gcArtifacts_logPath_after_first_colon (logPath : string) :
  ∃ path,
    gcArtifacts_logPath logPath = Some path
    ∧ ((path = logPath ∧ ∀ a b, logPath ≠ a +:+ ":" +:+ b)
       ∨ ∃ host, logPath = host +:+ ":" +:+ path
                 ∧ ∀ a b, host ≠ a +:+ ":" +:+ b).
Proof.
  unfold gcArtifacts_logPath.
  destruct (SplitN_colon_2_cases logPath)
    as [[-> Hnone] | (host & path & -> & Heq & Hnone)].
  - exists logPath. split; [reflexivity |]. by left.
  - exists path. split; [reflexivity |]. right. by exists host.
Qed.

(** ** Ownership and the result of a cancellation *)

Section CancelProps.

Context (c : Collaborators).

(** Whatever the termination of the migration gives, a cancellation of a
    migration that is not terminal ends the executor's ownership of it,
    and of it only. *)
Theorem CancelMigration_disowns
    (uuid message : string) (issuedByUser : bool) (e : Executor)
    (onlineDDL : OnlineDDL) (row : Row) :
  isOpen e ≠ 0 →
  readMigration uuid e = Ok (onlineDDL, row) →
  is_terminal (migration_status row) = false →
  ownedRunningMigrations (fst (CancelMigration c uuid message issuedByUser e))
  = delete uuid (ownedRunningMigrations e).
Proof.
  intros Hopen Hread Hterm.
  pose proof (readMigration_Ok _ _ _ _ Hread) as [_ ->].
  pose proof (readMigration_row _ _ _ _ Hread) as (_ & Hu & _).
  unfold CancelMigration.
  rewrite bool_decide_eq_false_2 by exact Hopen. rewrite Hread.
  cbn [Status onlineDDL_of_row].
  destruct (migration_status row) eqn:Hs; try discriminate Hterm;
    destruct issuedByUser; unfold terminateMigration;
    repeat match goal with
           | |- context [if ?b then _ else _] => destruct b
           | |- context [terminateVReplMigration c ?x ?y] =>
             destruct (terminateVReplMigration c x y)
           end;
    cbn [fst]; rewrite failMigration_owned; simpl; rewrite Hu;
    first [reflexivity | apply delete_delete_eq].
Qed.

(** The rows a cancellation reports as affected: one for a queued or a
    ready migration, none for a terminal one, and for a running one at
    most one, and none under a strategy other than [online] and [vitess],
    although its row is failed or cancelled all the same when the database
    carries out the status update of [failMigration]. *)
Theorem CancelMigration_RowsAffected
    (uuid message : string) (issuedByUser : bool) (e e' : Executor)
    (onlineDDL : OnlineDDL) (row : Row) (result : Result) :
  readMigration uuid e = Ok (onlineDDL, row) →
  CancelMigration c uuid message issuedByUser e = (e', Ok result) →
  (RowsAffected result ≤ 1)%nat
  ∧ (migration_status row = OnlineDDLStatusQueued
     ∨ migration_status row = OnlineDDLStatusReady →
     RowsAffected result = 1%nat)
  ∧ (is_terminal (migration_status row) = true →
     RowsAffected result = 0%nat)
  ∧ (migration_status row = OnlineDDLStatusRunning →
     Strategy (strategy_options row) ≠ DDLStrategyOnline →
     Strategy (strategy_options row) ≠ DDLStrategyVitess →
     RowsAffected result = 0%nat
     ∧ (status_update_applies c uuid →
        is_terminal <$> (migration_status <$>
          filter (λ r, uuid_is uuid r = true) (schema_migrations e'))
        = [true])).
Proof.
  intros Hread Hcancel.
  pose proof (readMigration_Ok _ _ _ _ Hread) as [Hfilter ->].
  destruct (decide (isOpen e = 0)) as [Hclosed | Hopen].
  { unfold CancelMigration in Hcancel.
    by rewrite bool_decide_eq_true_2 in Hcancel. }
  destruct (is_terminal (migration_status row)) eqn:Hterm.
  { rewrite (CancelMigration_terminal c _ _ _ _ _ _ Hopen Hread Hterm)
      in Hcancel. injection Hcancel as <- <-. simpl.
    split; [lia |]. split; [| split; [done |]].
    - intros [Hs | Hs]; rewrite Hs in Hterm; discriminate.
    - intros Hs. rewrite Hs in Hterm. discriminate. }
  pose proof (CancelMigration_table c uuid message issuedByUser e _ _
                Hopen Hread Hterm)
    as (statusApplied & messageApplied & Htable & _ & Hstatus & _).
  rewrite Hcancel in Htable. simpl in Htable.
  assert (Hrows : status_update_applies c uuid →
          is_terminal <$> (migration_status <$>
            filter (λ r, uuid_is uuid r = true) (schema_migrations e'))
          = [true]).
  { intros Happlies. rewrite Htable, (Hstatus Happlies).
    rewrite (filter_uuid_fmap
               (λ r, if uuid_is uuid r
                     then cancelled_row c message issuedByUser (now e) true
                            messageApplied r
                     else r)).
    - rewrite Hfilter. simpl.
      pose proof (readMigration_row _ _ _ _ Hread) as (_ & Hu & _).
      unfold uuid_is. rewrite bool_decide_eq_true_2 by exact Hu.
      by rewrite cancelled_row_terminal.
    - intros r. destruct (uuid_is uuid r); [| reflexivity].
      apply cancelled_row_uuid. }
  unfold CancelMigration in Hcancel.
  rewrite bool_decide_eq_false_2, Hread in Hcancel by exact Hopen.
  cbn [Status onlineDDL_of_row] in Hcancel.
  destruct (migration_status row) eqn:Hs; try discriminate Hterm.
  - injection Hcancel as _ <-. simpl.
    split; [lia |]. split; [done |]. split; [done | discriminate].
  - injection Hcancel as _ <-. simpl.
    split; [lia |]. split; [done |]. split; [done | discriminate].
  - unfold terminateMigration in Hcancel.
    cbn [Strategy StrategySetting onlineDDL_of_row UUID] in Hcancel.
    destruct (bool_decide (Strategy (strategy_options row) = DDLStrategyOnline)
              || bool_decide (Strategy (strategy_options row)
                              = DDLStrategyVitess)) eqn:Hstrategy.
    + assert (Hno : Strategy (strategy_options row) ≠ DDLStrategyOnline →
                    Strategy (strategy_options row) ≠ DDLStrategyVitess →
                    False).
      { intros H1 H2. apply orb_true_iff in Hstrategy as [H | H];
          apply bool_decide_eq_true in H; done. }
      match type of Hcancel with
      | context [terminateVReplMigration c ?x ?y] =>
        destruct (terminateVReplMigration c x y); [discriminate |];
        destruct (vreplStreamIsRunning c x y)
      end; injection Hcancel as _ <-; simpl;
        (split; [lia |]); (split; [by intros [? | ?] |]);
        (split; [done |]); intros _ H1 H2; destruct (Hno H1 H2).
    + injection Hcancel as _ <-. simpl.
      split; [lia |]. split; [by intros [? | ?] |]. split; [done |].
      intros _ _ _. split; [reflexivity | exact Hrows].
Qed.

End CancelProps.

(** ** The message of a migration *)

Lemma string_take_spec (n : Z) (s : string) :
  0 ≤ n →
  Z.of_nat (String.length (string_take n s))
  = Z.min n (Z.of_nat (String.length s))
  ∧ ∃ rest, s = string_take n s +:+ rest.
Proof.
  revert n. induction s as [| a s IH]; intros n Hn.
  - simpl. split; [lia | by exists ""].
  - cbn [string_take]. case_bool_decide as Hpos.
    + destruct (IH (n - 1)) as [Hlen [rest Hrest]]; [lia |].
      cbn [String.length]. split; [lia |].
      exists rest.
      change (String a s = String a (string_take (n - 1) s +:+ rest)).
      by f_equal.
    + split; [cbn [String.length]; lia |]. by exists (String a s).
Qed.

(** The text stored as the message of a migration is the valid form of a
    prefix of at most 16383 bytes of the given message, and of the whole
    message when it is no longer than that. *)
Theorem boundMessage_bounded (c : Collaborators) (message : string) :
  ∃ bound rest,
    boundMessage c message = ToValidUTF8 c bound
    ∧ message = bound +:+ rest
    ∧ Z.of_nat (String.length bound) ≤ 16383
    ∧ (Z.of_nat (String.length message) ≤ 16383 → bound = message).
Proof.
  unfold boundMessage. cbv zeta. case_bool_decide as Hlong.
  - destruct (string_take_spec 16383 message) as [Hlen [rest Hrest]];
      [lia |].
    exists (string_take 16383 message), rest.
    split; [reflexivity |]. split; [exact Hrest |]. split; lia.
  - exists message, "". split; [reflexivity |]. split.
    + clear. induction message as [| a s IH]; [reflexivity |].
      change (String a s = String a (s +:+ "")). by f_equal.
    + split; [lia | done].
Qed.

(** ** Open and Close *)

(** [Open] and [Close] are idempotent, and a restart of an enabled
    executor leaves it open with nothing owned and the review flag down,
    whatever it was before; a disabled executor stays closed. *)
Theorem Open_Close_restart (e : Executor) :
  Open (Open e) = Open e
  ∧ Close (Close e) = Close e
  ∧ isOpen (Close e) = 0
  ∧ Open (Close e)
    = if EnableOnlineDDL e
      then with_isOpen 1
             (with_ownedRunningMigrations ∅
                (with_reviewedRunningMigrationsFlag false e))
      else Close e.
Proof.
  destruct e as [o en fl ow ta sh th tb nw]. unfold Open, Close. simpl.
  repeat split.
  - destruct (bool_decide (o > 0)) eqn:Ho; simpl; rewrite ?Ho; simpl;
      [reflexivity |].
    destruct en; simpl; rewrite ?Ho; reflexivity.
  - destruct (bool_decide (o = 0)) eqn:Ho; simpl; rewrite ?Ho; reflexivity.
  - case_bool_decide; [done | reflexivity].
  - destruct (decide (o = 0)) as [-> | Ho].
    + simpl. by destruct en.
    + rewrite !(bool_decide_eq_false_2 _ Ho). simpl. by destruct en.
Qed.

(** ** In-order completion and the cap on running migrations *)

Section InOrder.

Context (c : Collaborators).

(** [validateInOrderMigration] reports a forced failure exactly when it
    returns an error, and that is exactly when the migration completes in
    order, has a context and is preceded by a failed or cancelled
    migration of that context.  It then ends the ownership and runs the
    status update of [failMigration], which, when the database carries it
    out, fails the migration's rows; else it changes nothing. *)
Theorem validateInOrderMigration_failed_iff_error
    (onlineDDL : OnlineDDL) (e : Executor) :
  let e' := fst (validateInOrderMigration c onlineDDL e) in
  let wasFailed := fst (snd (validateInOrderMigration c onlineDDL e)) in
  let err := snd (snd (validateInOrderMigration c onlineDDL e)) in
  (wasFailed = true ↔ err ≠ None)
  ∧ (wasFailed = true
     ↔ IsInOrderCompletion (StrategySetting onlineDDL) = true
       ∧ MigrationContext onlineDDL ≠ ""
       ∧ ∃ r, r ∈ rows_before (UUID onlineDDL) (schema_migrations e)
              ∧ migration_context r = MigrationContext onlineDDL
              ∧ failed_or_cancelled (migration_status r) = true)
  ∧ (wasFailed = false → e' = e)
  ∧ (wasFailed = true →
     ownedRunningMigrations e' !! UUID onlineDDL = None
     ∧ (status_update_applies c (UUID onlineDDL) →
        ∀ r', r' ∈ schema_migrations e' →
              migration_uuid r' = UUID onlineDDL →
              failed_or_cancelled (migration_status r') = true)).
Proof.
  cbv zeta. unfold validateInOrderMigration.
  match goal with
  | |- context [failMigration c onlineDDL ?withError e] =>
    destruct (failMigration_effect c onlineDDL withError e)
      as (statusApplied & messageApplied & -> & Hstatus & _)
  end.
  destruct (IsInOrderCompletion (StrategySetting onlineDDL)) eqn:Hio; simpl.
  2: { split; [done |]. split; [| done]. split; [done | by intros [? _]]. }
  unfold readFailedCancelledMigrationsInContextBeforeMigration.
  destruct (decide (MigrationContext onlineDDL = "")) as [Hctx | Hctx].
  { rewrite (bool_decide_eq_true_2 _ Hctx). simpl.
    split; [done |]. split; [| done].
    split; [done | by intros (_ & ? & _)]. }
  rewrite (bool_decide_eq_false_2 _ Hctx).
  unfold sqlSelectFailedCancelledMigrationsInContextBeforeMigration. simpl.
  rewrite length_fmap.
  set (prior := filter _ (rows_before (UUID onlineDDL) (schema_migrations e))).
  assert (Hprior : ∀ r, r ∈ prior
            ↔ r ∈ rows_before (UUID onlineDDL) (schema_migrations e)
              ∧ migration_context r = MigrationContext onlineDDL
              ∧ failed_or_cancelled (migration_status r) = true).
  { intros r. unfold prior. rewrite list_elem_of_filter.
    unfold failed_or_cancelled. rewrite andb_true_iff, bool_decide_eq_true.
    tauto. }
  clearbody prior. destruct prior as [| r0 rest]; simpl.
  - split; [done |]. split; [| done]. split; [done |].
    intros (_ & _ & r & Hr). apply Hprior in Hr. by apply elem_of_nil in Hr.
  - split; [done |]. split; [| split; [done |]].
    + split; [| done]. intros _. split; [done |]. split; [done |].
      exists r0. apply Hprior, list_elem_of_here.
    + intros _. split; [apply lookup_delete_eq |].
      intros Happlies r' Hr' Hu. rewrite (Hstatus Happlies) in Hr'.
      apply list_elem_of_fmap in Hr' as (r1 & -> & Hr1).
      unfold uuid_is in *.
      destruct (bool_decide (migration_uuid r1 = UUID onlineDDL)) eqn:H1.
      * by destruct messageApplied, (cancelled_timestamp r1).
      * apply bool_decide_eq_false in H1. done.
Qed.

Lemma getNonConflictingMigration_loop_selected
    (pending : list string) (rows : list Row) (e e' : Executor)
    (m : OnlineDDL) :
  (∀ r, r ∈ rows → r ∈ schema_migrations e) →
  getNonConflictingMigration_loop c pending rows e = (e', Ok (Some m)) →
  (countOwnedRunningMigrations e < maxConcurrentOnlineDDLs)%nat
  ∧ ∃ row, row ∈ rows ∧ m = onlineDDL_of_row row
    ∧ (IsInOrderCompletion (strategy_options row) = true →
       readFailedCancelledMigrationsInContextBeforeMigration m e = []
       ∧ (is_immediate_operation row = true →
          pending = [] ∨ head pending = Some (migration_uuid row))).
Proof.
  induction rows as [| row0 rows IH]; cbn [getNonConflictingMigration_loop];
    [discriminate |].
  intros Hsub.
  assert (Hrec :
    getNonConflictingMigration_loop c pending rows e = (e', Ok (Some m)) →
    (countOwnedRunningMigrations e < maxConcurrentOnlineDDLs)%nat
    ∧ ∃ row, row ∈ row0 :: rows ∧ m = onlineDDL_of_row row
      ∧ (IsInOrderCompletion (strategy_options row) = true →
         readFailedCancelledMigrationsInContextBeforeMigration m e = []
         ∧ (is_immediate_operation row = true →
            pending = [] ∨ head pending = Some (migration_uuid row)))).
  { intros Hloop. destruct IH as (Hcap & row & Hr & Hm & Hin);
      [intros r Hr; apply Hsub; by apply list_elem_of_further | exact Hloop |].
    split; [exact Hcap |]. exists row.
    split; [by apply list_elem_of_further | done]. }
  destruct (readMigration (migration_uuid row0) e) as [[onlineDDL row] | err]
    eqn:Hread; [| discriminate].
  pose proof (readMigration_Ok _ _ _ _ Hread) as [_ ->].
  apply readMigration_row in Hread as (_ & _ & Huniq).
  assert (row0 = row) as <-
    by (apply Huniq; [apply Hsub, list_elem_of_here | reflexivity]).
  destruct (fst (isAnyConflictingMigrationRunning (onlineDDL_of_row row0) e));
    [exact Hrec |].
  case_bool_decide as Hcap; [discriminate |].
  assert (Hcap' : (countOwnedRunningMigrations e
                   < maxConcurrentOnlineDDLs)%nat) by lia.
  cbn [StrategySetting onlineDDL_of_row UUID].
  destruct (IsInOrderCompletion (strategy_options row0)) eqn:Hio.
  2: { rewrite andb_false_r. simpl. intros [= <- <-].
       split; [exact Hcap' |]. exists row0.
       split; [apply list_elem_of_here |]. split; [reflexivity |].
       by rewrite Hio. }
  destruct (is_immediate_operation row0 && true
            && bool_decide (0 < length pending)%nat
            && bool_decide (head pending ≠ Some (migration_uuid row0)))
    eqn:Hwait; [exact Hrec |].
  unfold validateInOrderMigration.
  cbn [StrategySetting onlineDDL_of_row]. rewrite Hio. cbn [negb].
  destruct (bool_decide (length _ = 0%nat)) eqn:Hnone; [| discriminate].
  apply bool_decide_eq_true in Hnone.
  intros [= <- <-]. split; [exact Hcap' |]. exists row0.
  split; [apply list_elem_of_here |]. split; [reflexivity |].
  intros _. split.
  - by apply nil_length_inv.
  - intros Himm. rewrite Himm in Hwait. simpl in Hwait.
    apply andb_false_iff in Hwait as [Hlen | Hhead].
    + left. apply bool_decide_eq_false in Hlen.
      destruct pending; [reflexivity | simpl in Hlen; lia].
    + right. apply bool_decide_eq_false in Hhead.
      by apply dec_stable in Hhead.
Qed.

(** The runner hands over a migration only while fewer migrations are
    owned than the cap allows; a migration that completes in order is
    handed over only if no failed or cancelled migration of its context
    precedes it and, when it is an immediate operation, only if it is the
    first of the pending migrations. *)
Theorem getNonConflictingMigration_under_cap
    (e e' : Executor) (m : OnlineDDL) :
  getNonConflictingMigration c e = (e', Ok (Some m)) →
  (countOwnedRunningMigrations e < maxConcurrentOnlineDDLs)%nat
  ∧ ∃ row, row ∈ schema_migrations e
    ∧ migration_status row = OnlineDDLStatusReady
    ∧ m = onlineDDL_of_row row
    ∧ (IsInOrderCompletion (strategy_options row) = true →
       readFailedCancelledMigrationsInContextBeforeMigration m e = []
       ∧ (is_immediate_operation row = true →
          head (readPendingMigrationsUUIDs e) = Some (migration_uuid row))).
Proof.
  unfold getNonConflictingMigration. intros Hloop.
  assert (Hready : ∀ r, r ∈ Rows (sqlSelectReadyMigrations e) →
            r ∈ schema_migrations e
            ∧ migration_status r = OnlineDDLStatusReady).
  { intros r Hr. unfold sqlSelectReadyMigrations, sqlSelect in Hr.
    simpl in Hr. apply list_elem_of_filter in Hr as [Hs Hin].
    by apply bool_decide_eq_true in Hs. }
  apply getNonConflictingMigration_loop_selected in Hloop
    as (Hcap & row & Hr & -> & Hin); [| intros r Hr; by apply Hready].
  destruct (Hready row Hr) as [Hrow Hstatus].
  split; [exact Hcap |]. exists row. split; [exact Hrow |].
  split; [exact Hstatus |]. split; [reflexivity |].
  intros Hio. destruct (Hin Hio) as [Hnone Himm]. split; [exact Hnone |].
  intros Hi. destruct (Himm Hi) as [Hnil | Hhead]; [| exact Hhead].
  exfalso.
  assert (Hp : migration_uuid row ∈ readPendingMigrationsUUIDs e).
  { unfold readPendingMigrationsUUIDs, sqlSelectPendingMigrations, sqlSelect.
    simpl. apply list_elem_of_fmap. exists row. split; [reflexivity |].
    apply list_elem_of_filter. split; [by rewrite Hstatus | exact Hrow]. }
  rewrite Hnil in Hp. by apply elem_of_nil in Hp.
Qed.

End InOrder.

(** ** The validated threshold *)

(** A threshold that passes the validation is the default, for 0, or the
    value given, between 5s and 30s. *)
Lemma safeMigrationCutOverThreshold_accepts (d threshold : Duration) :
  safeMigrationCutOverThreshold d = (threshold, None) →
  (d = 0 ∧ threshold = 10 * Second
   ∨ 5 * Second ≤ d ≤ 30 * Second ∧ threshold = d)
  ∧ minCutOverThreshold ≤ threshold ≤ maxCutOverThreshold.
Proof.
  unfold safeMigrationCutOverThreshold, defaultCutOverThreshold,
    minCutOverThreshold, maxCutOverThreshold, Second, Millisecond,
    Microsecond, Nanosecond.
  repeat case_bool_decide; intros [= <-]; split; lia.
Qed.

(** ** The seconds of a duration *)

Lemma round_half_even_bounds (n d : Z) :
  0 < d →
  2 * n - d ≤ 2 * d * round_half_even n d ≤ 2 * n + d.
Proof.
  intros Hd. unfold round_half_even.
  pose proof (Z.div_mod n d ltac:(lia)) as Hn.
  pose proof (Z.mod_pos_bound n d Hd) as Hr.
  repeat case_bool_decide; try destruct (Z.even (n / d)); nia.
Qed.

Lemma pow2_nonneg (s : Z) : 0 ≤ s → pow2 s = 2 ^ s ∧ pow2 (- s) = 1.
Proof.
  intros Hs. unfold pow2. rewrite Z.max_r by exact Hs.
  by rewrite Z.max_l by lia.
Qed.

Lemma float64_shift_lower (n d b : Z) :
  0 < n → 0 < d → Z.log2 n - Z.log2 d ≤ 52 - b → b ≤ float64_shift n d.
Proof. intros Hn Hd Hk. unfold float64_shift. case_bool_decide; lia. Qed.

(** [float64(nsec) / 1e9]: the quotient is below one by more than its
    distance to the exact value. *)
Lemma float64_round_fraction (nsec : Z) :
  0 ≤ nsec < Second →
  ∃ m s,
    float64_round nsec Second = (m, s)
    ∧ 0 ≤ s ∧ 0 ≤ m
    ∧ ∀ S', 2 ^ 29 ≤ S' → 2 * m * S' + 2 ^ s < 2 * 2 ^ s * S'.
Proof.
  intros Hnsec. unfold float64_round. case_bool_decide as Hzero.
  { exists 0, 0. split; [reflexivity |]. split; [lia |]. split; [lia |].
    intros S' HS'. simpl. lia. }
  set (s := float64_shift nsec Second).
  assert (Hs : 52 ≤ s).
  { apply float64_shift_lower; [lia | reflexivity |].
    pose proof (Z.log2_le_mono nsec Second ltac:(lia)). lia. }
  destruct (pow2_nonneg s ltac:(lia)) as [-> ->].
  eexists _, s. split; [reflexivity |].
  pose proof (round_half_even_bounds (nsec * 2 ^ s) (Second * 1)
                ltac:(reflexivity)) as [Hlo Hhi].
  set (m := round_half_even (nsec * 2 ^ s) (Second * 1)) in *.
  assert (HS : 2 ^ 52 ≤ 2 ^ s) by (apply Z.pow_le_mono_r; lia).
  set (S := 2 ^ s) in *. clearbody S m.
  change Second with 1000000000 in *.
  split; [lia |]. split; [nia |].
  intros S' HS'.
  assert (2 ^ 30 * S ≤ 2 * S * S') by nia.
  assert (2 ^ 53 * S' ≤ 2 * S * S') by nia.
  assert (2 * 1000000000 * m * S'
          ≤ 2 * 999999999 * S * S' + 1000000000 * S') by nia.
  nia.
Qed.

(** [float64(sec) + q] truncated, for a fraction [q] as above. *)
Lemma float64_round_sum (sec m s : Z) :
  0 ≤ sec < 2 ^ 24 → 0 ≤ s → 0 ≤ m →
  (∀ S', 2 ^ 29 ≤ S' → 2 * m * S' + 2 ^ s < 2 * 2 ^ s * S') →
  ∀ m' s',
    float64_round (sec * pow2 s + m * pow2 (- s)) (pow2 s) = (m', s') →
    m' * pow2 (- s') / pow2 s' = sec.
Proof.
  intros Hsec Hs Hm Hfraction m' s'.
  destruct (pow2_nonneg s Hs) as [-> ->].
  assert (HS : 0 < 2 ^ s) by (apply Z.pow_pos_nonneg; lia).
  pose proof (Hfraction (2 ^ 29) ltac:(lia)) as Hbelow.
  rewrite Z.mul_1_r. unfold float64_round. case_bool_decide as Hzero.
  { intros [= <- <-]. assert (sec = 0) as -> by nia. reflexivity. }
  set (n := sec * 2 ^ s + m) in *.
  assert (Hn : 0 < n < 2 ^ (24 + s)).
  { rewrite Z.pow_add_r by lia. subst n. nia. }
  set (t := float64_shift n (2 ^ s)).
  assert (Ht : 29 ≤ t).
  { apply float64_shift_lower; [lia | lia |].
    rewrite Z.log2_pow2 by lia.
    pose proof (proj1 (Z.log2_lt_pow2 n (24 + s) ltac:(lia)) ltac:(lia)).
    lia. }
  intros [= <- <-].
  destruct (pow2_nonneg t ltac:(lia)) as [-> ->].
  rewrite !Z.mul_1_r.
  pose proof (round_half_even_bounds (n * 2 ^ t) (2 ^ s) HS) as [Hlo Hhi].
  set (m' := round_half_even (n * 2 ^ t) (2 ^ s)) in *.
  assert (HT : 2 ^ 29 ≤ 2 ^ t) by (apply Z.pow_le_mono_r; lia).
  specialize (Hfraction (2 ^ t) HT).
  set (S := 2 ^ s) in *. set (T := 2 ^ t) in *.
  clearbody S T m'. subst n. clear Hzero Hn Ht t.
  symmetry. apply (Z.div_unique _ _ _ (m' - sec * T)); [| ring].
  left. split.
  - assert (2 * S * (sec * T) - S ≤ 2 * S * m') by nia.
    assert (sec * T - 1 < m'); [| lia].
    apply (Z.mul_lt_mono_pos_l (2 * S)); [lia |]. nia.
  - assert (2 * S * m' < 2 * S * ((sec + 1) * T)) by nia.
    assert (m' < (sec + 1) * T); [| lia].
    apply (Z.mul_lt_mono_pos_l (2 * S)); [lia | lia].
Qed.

Lemma Seconds_opp (d : Duration) : Seconds (- d) = - Seconds d.
Proof.
  unfold Seconds.
  rewrite Z.quot_opp_l, Z.rem_opp_l, !Z.abs_opp, Z.sgn_opp by done.
  destruct (float64_round _ Second) as [m s].
  destruct (float64_round _ (pow2 s)) as [m' s']. lia.
Qed.

(** Below 2^24 seconds the conversion through [float64] keeps the whole
    seconds of the duration. *)
Lemma Seconds_whole (d : Duration) :
  Z.abs d < 2 ^ 24 * Second → Seconds d = Z.quot d Second.
Proof.
  assert (Hnonneg : ∀ d, 0 ≤ d < 2 ^ 24 * Second →
                         Seconds d = Z.quot d Second).
  { clear d. intros d Hd. unfold Seconds.
    pose proof (Z.quot_rem' d Second) as Hqr.
    pose proof (Z.rem_bound_pos d Second ltac:(lia) ltac:(reflexivity))
      as Hrem.
    pose proof (Z.quot_pos d Second ltac:(lia) ltac:(reflexivity)) as Hquot.
    assert (Hsec : Z.quot d Second < 2 ^ 24).
    { apply Z.quot_lt_upper_bound; [lia | reflexivity | lia]. }
    rewrite (Z.abs_eq (Z.quot d Second)), (Z.abs_eq (Z.rem d Second))
      by lia.
    destruct (float64_round_fraction (Z.rem d Second) Hrem)
      as (m & s & -> & Hs & Hm & Hfraction).
    destruct (float64_round _ (pow2 s)) as [m' s'] eqn:Hsum.
    rewrite (float64_round_sum (Z.quot d Second) m s (conj Hquot Hsec) Hs Hm
               Hfraction m' s' Hsum).
    destruct (decide (d = 0)) as [-> | Hne]; [reflexivity |].
    rewrite Z.sgn_pos by lia. lia. }
  intros Hd. destruct (decide (0 ≤ d)) as [Hpos | Hneg].
  - apply Hnonneg. lia.
  - rewrite <- (Z.opp_involutive d) at 1. rewrite Seconds_opp.
    rewrite Hnonneg by lia. rewrite Z.quot_opp_l by done. lia.
Qed.

Lemma Seconds_rounds_up :
  Seconds (4800 * Hour + 999999999 * Nanosecond) = 17280001
  ∧ Z.quot (4800 * Hour + 999999999 * Nanosecond) Second = 17280000.
Proof. split; reflexivity. Qed.

(** ** The submission of a new migration *)

Section NewSubmission.

Context (c : Collaborators).

Lemma submitCallbackIfNonConflicting_Ok
    (m : OnlineDDL) (callback : Executor → Executor * outcome Result)
    (e e' : Executor) (result : Result) :
  submitCallbackIfNonConflicting m callback e = (e', Ok result) →
  callback e = (e', Ok result).
Proof.
  unfold submitCallbackIfNonConflicting.
  destruct (_ && _ && _); [done |].
  by destruct (singletonGate m e).
Qed.

Lemma readMigration_absent (uuid : string) (e : Executor) :
  (∀ r, r ∈ schema_migrations e → migration_uuid r ≠ uuid) →
  readMigration uuid e = Err ErrMigrationNotFound
  ∧ ¬ Exists (λ r, migration_uuid r = uuid) (schema_migrations e).
Proof.
  intros Hnew. split.
  - unfold readMigration, sqlSelectMigration, sqlSelect. simpl.
    rewrite filter_nil_Forall; [reflexivity |].
    intros r Hr Hu. unfold uuid_is in Hu. apply bool_decide_eq_true in Hu.
    by apply (Hnew r).
  - rewrite Exists_exists. intros (r & Hr & Hu). by apply (Hnew r).
Qed.

Lemma Seconds_range (d : Duration) :
  minCutOverThreshold ≤ d ≤ maxCutOverThreshold → 5 ≤ Seconds d ≤ 30.
Proof.
  unfold minCutOverThreshold, maxCutOverThreshold. intros Hd.
  rewrite Seconds_whole.
  - revert Hd. unfold Second, Millisecond, Microsecond, Nanosecond.
    intros Hd. split.
    + apply Z.quot_le_lower_bound; lia.
    + apply Z.quot_le_upper_bound; lia.
  - revert Hd. unfold Second, Millisecond, Microsecond, Nanosecond. lia.
Qed.

(** A submission under a UUID the table does not know, when it succeeds,
    adds exactly one row, at the end: the migration queued, not yet
    reviewed, without retries, on this tablet, with a cut-over threshold
    between 5 and 30 seconds (10 when the strategy gives none) and, as
    retention, the seconds of the duration the strategy gives or else of
    the flag [retain_online_ddl_tables], as [Duration.Seconds] computes
    them.  The migration can be read back at once. *)
Theorem SubmitMigration_new_migration
    (stmt : Statement) (e e' : Executor) (onlineDDL : OnlineDDL)
    (result : Result) :
  OnlineDDLFromCommentedStatement stmt = Some onlineDDL →
  (∀ r, r ∈ schema_migrations e → migration_uuid r ≠ UUID onlineDDL) →
  SubmitMigration c stmt e = (e', Ok result) →
  ∃ row,
    schema_migrations e' = schema_migrations e ++ [row]
    ∧ RowsAffected result = 1%nat
    ∧ readMigration (UUID onlineDDL) e' = Ok (onlineDDL_of_row row, row)
    ∧ migration_uuid row = UUID onlineDDL
    ∧ migration_status row = OnlineDDLStatusQueued
    ∧ reviewed_timestamp row = None
    ∧ retries row = 0
    ∧ tablet row = tabletAlias e
    ∧ 5 ≤ cutover_threshold_seconds row ≤ 30
    ∧ (CutOverThresholdFlag (StrategySetting onlineDDL) = inr 0 →
       cutover_threshold_seconds row = 10)
    ∧ retain_artifacts_seconds row
      = (if bool_decide (RetainArtifactsDuration (StrategySetting onlineDDL)
                         ≠ 0)
         then Seconds (RetainArtifactsDuration (StrategySetting onlineDDL))
         else Seconds (retainOnlineDDLTables c)).
Proof.
  intros Hstmt Hnew. destruct (readMigration_absent _ _ Hnew) as [Hread Hex].
  unfold SubmitMigration. case_bool_decide; [discriminate |].
  destruct (IsDDLStatement stmt && negb (IsFullyParsed stmt));
    [discriminate |].
  rewrite Hstmt, Hread.
  destruct (snd (GetAction (SQL onlineDDL))); [discriminate |].
  destruct (CutOverThresholdFlag (StrategySetting onlineDDL))
    as [err | flag] eqn:Hflag; [discriminate |].
  destruct (safeMigrationCutOverThreshold flag) as [threshold [err |]]
    eqn:Hsafe; [discriminate |].
  apply safeMigrationCutOverThreshold_accepts in Hsafe as [Hcase Hrange].
  assert (Hzero : flag = 0 → threshold = 10 * Second).
  { intros ->. destruct Hcase as [[_ ->] | [Hr _]]; [reflexivity |].
    revert Hr. unfold Second, Millisecond, Microsecond, Nanosecond. lia. }
  match goal with
  | |- context [submitCallbackIfNonConflicting ?m ?cb ?x] =>
    destruct (submitCallbackIfNonConflicting m cb x) as [e1 [res | err]]
      eqn:Hsubmit; [| discriminate]
  end.
  intros [= <- <-]. apply submitCallbackIfNonConflicting_Ok in Hsubmit.
  unfold sqlInsertMigration in Hsubmit.
  rewrite bool_decide_eq_false_2 in Hsubmit by exact Hex.
  injection Hsubmit as <- <-.
  eexists. split; [reflexivity |]. split; [reflexivity |].
  split; [| split; [reflexivity |]].
  - unfold readMigration, sqlSelectMigration, sqlSelect. simpl.
    rewrite filter_app, filter_nil_Forall.
    + rewrite filter_cons_True, filter_nil by
        (unfold uuid_is; by apply bool_decide_eq_true).
      reflexivity.
    + intros r Hr Hu. unfold uuid_is in Hu. apply bool_decide_eq_true in Hu.
      by apply (Hnew r).
  - split; [reflexivity |]. split; [reflexivity |]. split; [reflexivity |].
    split; [reflexivity |].
    simpl. split; [by apply Seconds_range |]. split.
    + intros [= ->]. by rewrite Hzero.
    + case_bool_decide; reflexivity.
Qed.

(** A migration is launched or completed only on the shards it is
    addressed to: when shards are named and this executor's shard is not
    among them, nothing changes and the result is empty.  The UUID is
    checked before the shards are. *)
Theorem LaunchMigration_other_shard
    (uuid shardsArg : string) (e : Executor) :
  isOpen e ≠ 0 →
  SplitDelimitedList c shardsArg ≠ [] →
  shard e ∉ SplitDelimitedList c shardsArg →
  (IsOnlineDDLUUID c uuid = true →
   LaunchMigration c uuid shardsArg e = (e, Ok emptyResult)
   ∧ CompleteMigration c uuid shardsArg e = (e, Ok emptyResult))
  ∧ (IsOnlineDDLUUID c uuid = false →
     ∃ err1 err2,
       LaunchMigration c uuid shardsArg e = (e, Err err1)
       ∧ CompleteMigration c uuid shardsArg e = (e, Err err2)
       ∧ ErrCode err1 = Code_UNKNOWN ∧ ErrCode err2 = Code_UNKNOWN).
Proof.
  intros Hopen Hnamed Hother.
  assert (Hmatch : matchesShards c shardsArg e = false).
  { unfold matchesShards. rewrite bool_decide_eq_false_2.
    - by apply bool_decide_eq_false_2.
    - intros Hlen. by apply nil_length_inv in Hlen. }
  unfold LaunchMigration, CompleteMigration.
  rewrite !(bool_decide_eq_false_2 _ Hopen), Hmatch. split.
  - intros ->. split; reflexivity.
  - intros ->. simpl. eexists _, _. repeat split.
Qed.

(** A cut-over threshold that was set is read back in whole seconds: when
    [SetMigrationCutOverThreshold] succeeds on a migration of the table,
    the duration given is 0 or between 5s and 30s, and the migration then
    carries 10s in the first case and the duration cut to whole seconds
    in the second; its row is otherwise as before. *)
Theorem SetMigrationCutOverThreshold_read_back
    (uuid thresholdString : string) (e e' : Executor)
    (onlineDDL : OnlineDDL) (row : Row) (result : Result) :
  readMigration uuid e = Ok (onlineDDL, row) →
  SetMigrationCutOverThreshold c uuid thresholdString e = (e', Ok result) →
  ∃ d seconds,
    ParseDuration c thresholdString = Some d
    ∧ (d = 0 ∧ seconds = 10 ∨ 5 * Second ≤ d ≤ 30 * Second
                               ∧ seconds = Z.quot d Second)
    ∧ readMigration uuid e'
      = Ok (onlineDDL_of_row (set_cutover_threshold_seconds seconds row),
            set_cutover_threshold_seconds seconds row)
    ∧ CutOverThreshold
        (onlineDDL_of_row (set_cutover_threshold_seconds seconds row))
      = seconds * Second.
Proof.
  intros Hread. unfold SetMigrationCutOverThreshold.
  case_bool_decide; [discriminate |].
  destruct (IsOnlineDDLUUID c uuid); [| discriminate]. cbn [negb].
  destruct (ParseDuration c thresholdString) as [d |]; [| discriminate].
  destruct (safeMigrationCutOverThreshold d) as [threshold [err |]] eqn:Hsafe;
    [discriminate |].
  intros [= <- <-].
  apply safeMigrationCutOverThreshold_accepts in Hsafe as [Hcase Hrange].
  set (seconds := Seconds threshold).
  assert (Hseconds : 5 ≤ seconds ≤ 30).
  { by apply Seconds_range. }
  exists d, seconds. split; [reflexivity |]. split; [| split].
  - destruct Hcase as [[Hd ->] | [Hd ->]]; [left | right];
      (split; [exact Hd |]); [reflexivity |].
    apply Seconds_whole. revert Hd.
    unfold Second, Millisecond, Microsecond, Nanosecond. lia.
  - assert (Hg : ∀ r,
      migration_uuid (if uuid_is uuid r
                      then set_cutover_threshold_seconds seconds r else r)
      = migration_uuid r) by (intros r; by destruct (uuid_is uuid r)).
    pose proof (readMigration_fmap
                  (λ r, if uuid_is uuid r
                        then set_cutover_threshold_seconds seconds r else r)
                  uuid e
                  (fst (sqlUpdateCutOverThresholdSeconds seconds uuid e))
                  onlineDDL row Hg eq_refl Hread) as Hback.
    pose proof (readMigration_row _ _ _ _ Hread) as (_ & Hu & _).
    unfold uuid_is in Hback.
    rewrite (bool_decide_eq_true_2 _ Hu) in Hback. exact Hback.
  - simpl. unfold safeMigrationCutOverThreshold, defaultCutOverThreshold,
      minCutOverThreshold, maxCutOverThreshold.
    revert Hseconds. generalize seconds. intros n Hn.
    unfold Second, Millisecond, Microsecond, Nanosecond.
    repeat case_bool_decide; simpl; lia.
Qed.

End NewSubmission.

(** ** Readiness once reached *)

(** The state of an owned migration that was once reported ready. *)
Lemma updateMigrationReadyToComplete_keeps_was_ready
    (uuid : string) (isReady : bool) (e : Executor) (running : OnlineDDL) :
  ownedRunningMigrations e !! uuid = Some running →
  isReady = true ∨ WasReadyToComplete running = 1 →
  ∃ running',
    ownedRunningMigrations (updateMigrationReadyToComplete uuid isReady e)
      !! uuid = Some running'
    ∧ WasReadyToComplete running' = 1
    ∧ ReadyToComplete running' = Z.b2z isReady
    ∧ Table running' = Table running
    ∧ SQL running' = SQL running
    ∧ StrategySetting running' = StrategySetting running.
Proof.
  intros Howned Hwas. unfold updateMigrationReadyToComplete.
  destruct isReady; simpl; rewrite lookup_alter_eq, Howned; simpl;
    eexists; (split; [reflexivity |]); simpl.
  - repeat split.
  - destruct Hwas as [? | ->]; [done |]. repeat split.
Qed.

Lemma updateMigrationReadyToComplete_reports
    (uuid : string) (reports : list bool) (e : Executor)
    (running : OnlineDDL) (isReady : bool) :
  ownedRunningMigrations e !! uuid = Some running →
  WasReadyToComplete running = 1 →
  ReadyToComplete running = Z.b2z isReady →
  ∃ running',
    ownedRunningMigrations
      (foldl (λ e isReady, updateMigrationReadyToComplete uuid isReady e)
         e reports) !! uuid = Some running'
    ∧ WasReadyToComplete running' = 1
    ∧ ReadyToComplete running' = Z.b2z (default isReady (last reports))
    ∧ Table running' = Table running
    ∧ SQL running' = SQL running
    ∧ StrategySetting running' = StrategySetting running.
Proof.
  revert e running isReady.
  induction reports as [| report reports IH]; intros e running isReady.
  - intros Howned Hwas Hready. exists running. done.
  - intros Howned Hwas Hready. cbn [foldl].
    destruct (updateMigrationReadyToComplete_keeps_was_ready
                uuid report e running Howned (or_intror Hwas))
      as (r1 & Howned1 & Hwas1 & Hready1 & Ht & Hs & Hst).
    destruct (IH _ _ report Howned1 Hwas1 Hready1)
      as (r2 & Howned2 & Hwas2 & Hready2 & Ht2 & Hs2 & Hst2).
    exists r2. split; [exact Howned2 |]. split; [exact Hwas2 |].
    split; [| by rewrite Ht2, Hs2, Hst2].
    rewrite Hready2, last_cons. by destruct (last reports).
Qed.

(** Readiness is remembered: once an owned migration was reported ready
    to complete, later reports, ready or not, leave its
    [WasReadyToComplete] at 1 while [ReadyToComplete] follows the last
    report; an ALTER of another table then does not conflict with it as
    soon as one of the two migrations may run concurrently. *)
Theorem updateMigrationReadyToComplete_sticky
    (uuid : string) (reports : list bool) (e : Executor)
    (running proposed : OnlineDDL) :
  ownedRunningMigrations e !! uuid = Some running →
  Table running ≠ Table proposed →
  snd (allowConcurrentMigration running) = true
  ∨ snd (allowConcurrentMigration proposed) = true →
  ∃ running',
    ownedRunningMigrations
      (foldl (λ e isReady, updateMigrationReadyToComplete uuid isReady e)
         (updateMigrationReadyToComplete uuid true e) reports)
      !! uuid = Some running'
    ∧ WasReadyToComplete running' = 1
    ∧ ReadyToComplete running' = Z.b2z (default true (last reports))
    ∧ proposedMigrationConflictsWithRunningMigration running' proposed
      = false.
Proof.
  intros Howned Htable Hconcurrent.
  destruct (updateMigrationReadyToComplete_keeps_was_ready
              uuid true e running Howned (or_introl eq_refl))
    as (r1 & Howned1 & Hwas1 & Hready1 & Ht & Hs & Hst).
  destruct (updateMigrationReadyToComplete_reports
              uuid reports _ r1 true Howned1 Hwas1 Hready1)
    as (r2 & Howned2 & Hwas2 & Hready2 & Ht2 & Hs2 & Hst2).
  exists r2. split; [exact Howned2 |]. split; [exact Hwas2 |].
  split; [exact Hready2 |].
  assert (Hallow : allowConcurrentMigration r2
                   = allowConcurrentMigration running).
  { unfold allowConcurrentMigration. by rewrite Hs2, Hst2, Hs, Hst. }
  unfold proposedMigrationConflictsWithRunningMigration.
  rewrite bool_decide_eq_false_2 by (rewrite Ht2, Ht; exact Htable).
  rewrite Hallow, Hwas2.
  destruct (allowConcurrentMigration running) as [a1 b1].
  destruct (allowConcurrentMigration proposed) as [a2 b2].
  simpl in Hconcurrent. rewrite andb_false_r.
  destruct Hconcurrent as [-> | ->]; [| destruct b1]; reflexivity.
Qed.

(** ** Launching a postponed migration *)

Section LaunchThenSchedule.

Context (c : Collaborators).

(** A queued, reviewed migration whose launch is postponed is passed over
    by the scheduler; once [LaunchMigration] has released it, the next run
    of the scheduler promotes it exactly when it is not an immediate
    operation postponed for completion and no queued, reviewed row before
    it is eligible. *)
Theorem LaunchMigration_then_scheduled
    (shardsArg : string) (e : Executor) (i : nat) (r : Row) :
  isOpen e ≠ 0 →
  unique_uuids e →
  IsOnlineDDLUUID c (migration_uuid r) = true →
  matchesShards c shardsArg e = true →
  schema_migrations e !! i = Some r →
  migration_status r = OnlineDDLStatusQueued →
  reviewed_timestamp r ≠ None →
  postpone_launch r = true →
  schema_migrations (scheduleNextMigration e) !! i = Some r
  ∧ ∃ r',
      schema_migrations
        (scheduleNextMigration
           (fst (LaunchMigration c (migration_uuid r) shardsArg e))) !! i
      = Some r'
      ∧ postpone_launch r' = false
      ∧ (migration_status r' = OnlineDDLStatusReady
         ↔ is_immediate_operation r && postpone_completion r = false
           ∧ ∀ j q, (j < i)%nat → schema_migrations e !! j = Some q →
                    schedulable q && eligible q = false).
Proof.
  intros Hopen Hnd Hvalid Hshard Hi Hq Hrev Hpl.
  assert (Hqueued : schedulable r = true).
  { unfold schedulable, queued, reviewed.
    by rewrite andb_true_iff, !bool_decide_eq_true. }
  split.
  { rewrite (scheduleNextMigration_lookup e i r Hnd Hi), Hqueued.
    unfold scheduled_row. by rewrite Hpl. }
  set (uuid := migration_uuid r).
  set (g := λ q : Row, if uuid_is uuid q then set_postpone_launch false q
                       else q).
  assert (Hg : ∀ q, migration_uuid (g q) = migration_uuid q)
    by (intros q; unfold g; by destruct (uuid_is uuid q)).
  assert (Htable :
    schema_migrations (fst (LaunchMigration c uuid shardsArg e))
    = g <$> schema_migrations e).
  { unfold LaunchMigration.
    rewrite bool_decide_eq_false_2 by exact Hopen. fold uuid in Hvalid.
    rewrite Hvalid, Hshard. reflexivity. }
  set (e1 := fst (LaunchMigration c uuid shardsArg e)) in *.
  assert (Hnd1 : unique_uuids e1).
  { unfold unique_uuids. rewrite Htable, <- list_fmap_compose.
    rewrite (list_fmap_ext (migration_uuid ∘ g) migration_uuid
               (schema_migrations e));
      [exact Hnd | intros ? q _; apply Hg]. }
  assert (Hr1 : g r = set_postpone_launch false r).
  { unfold g, uuid_is. by rewrite bool_decide_eq_true_2. }
  assert (Hi1 : schema_migrations e1 !! i = Some (set_postpone_launch false r)).
  { by rewrite Htable, list_lookup_fmap, Hi, <- Hr1. }
  assert (Hbefore : take i (schema_migrations e1)
                    = take i (schema_migrations e)).
  { rewrite Htable, <- fmap_take.
    rewrite <- (list_fmap_id (take i (schema_migrations e))) at 2.
    apply list_fmap_ext. intros j q Hj. unfold g, uuid_is. simpl.
    rewrite bool_decide_eq_false_2; [reflexivity |].
    intros Hu. apply lookup_take_Some in Hj as [Hj Hlt].
    unfold unique_uuids in Hnd.
    assert (j = i); [| lia].
    apply (NoDup_lookup _ j i uuid Hnd);
      rewrite list_lookup_fmap; [by rewrite Hj, <- Hu | by rewrite Hi]. }
  rewrite (scheduleNextMigration_lookup e1 i _ Hnd1 Hi1).
  assert (Hqueued1 : schedulable (set_postpone_launch false r) = true)
    by exact Hqueued.
  rewrite Hqueued1, Hbefore.
  set (already := existsb (λ q, schedulable q && eligible q)
                    (take i (schema_migrations e))).
  eexists. split; [reflexivity |]. split.
  - unfold scheduled_row. simpl.
    by destruct (_ && _), (_ && _).
  - rewrite (scheduled_row_ready already (set_postpone_launch false r) Hq).
    unfold eligible. simpl.
    assert (Halready : already = false
              ↔ ∀ j q, (j < i)%nat → schema_migrations e !! j = Some q →
                       schedulable q && eligible q = false).
    { unfold already. rewrite existsb_false_iff. split.
      - intros Hall j q Hlt Hj. apply Hall.
        apply list_elem_of_lookup_2 with j. apply lookup_take_Some. done.
      - intros Hall q Hin. apply list_elem_of_lookup_1 in Hin as [j Hj].
        apply lookup_take_Some in Hj as [Hj Hlt]. by apply (Hall j). }
    rewrite Halready, negb_true_iff. reflexivity.
Qed.

End LaunchThenSchedule.

(** ** Status reports and stale migrations *)

(** A report of a status is written as it comes: outside a dry run, and
    for a failure also in a dry run, the rows of the UUID take the
    reported status whatever their status was, a terminal one included,
    and the hint [ready_to_complete] marks them ready; the other rows are
    left alone.  A dry run that reports no failure changes nothing. *)
Theorem onSchemaMigrationStatus_writes_status
    {float64 : Type} (progressPctFull progressPct : float64)
    (uuid : string) (status : OnlineDDLStatus) (dryRun : bool)
    (etaSeconds rowsCopied : Z) (hint : string) (e : Executor) :
  let e' :=
    onSchemaMigrationStatus progressPctFull uuid status dryRun progressPct
      etaSeconds rowsCopied hint e in
  if dryRun && bool_decide (status ≠ OnlineDDLStatusFailed) then e' = e
  else
    schema_migrations e'
    = (λ r, if uuid_is uuid r
            then (if bool_decide (hint = readyToCompleteHint)
                  then set_was_ready_to_complete true
                         (set_ready_to_complete true
                            (set_migration_status status r))
                  else set_migration_status status r)
            else r) <$> schema_migrations e.
Proof.
  cbv zeta. unfold onSchemaMigrationStatus.
  destruct (dryRun && bool_decide (status ≠ OnlineDDLStatusFailed));
    [reflexivity |].
  assert (Hstatus : ∀ e0,
    schema_migrations e0 = schema_migrations e →
    schema_migrations
      (let e1 := updateMigrationStatus uuid status e0 in
       let e2 := updateMigrationProgress uuid progressPct e1 in
       let e3 := updateMigrationETASeconds uuid etaSeconds e2 in
       let e4 := updateRowsCopied uuid rowsCopied e3 in
       if bool_decide (hint = readyToCompleteHint)
       then updateMigrationReadyToComplete uuid true e4 else e4)
    = (λ r, if uuid_is uuid r
            then (if bool_decide (hint = readyToCompleteHint)
                  then set_was_ready_to_complete true
                         (set_ready_to_complete true
                            (set_migration_status status r))
                  else set_migration_status status r)
            else r) <$> schema_migrations e).
  { intros e0 He0. cbv zeta.
    destruct (bool_decide (hint = readyToCompleteHint)); simpl;
      rewrite !fmap_if_id, He0, <- ?list_fmap_compose;
      apply list_fmap_ext; intros i r _; simpl; unfold uuid_is;
      destruct (bool_decide (migration_uuid r = uuid)) eqn:Hr; simpl;
      rewrite ?Hr; reflexivity. }
  assert (Hprogress : ∀ (p : float64) e0,
    schema_migrations e0 = schema_migrations e →
    schema_migrations
      (let e1 := updateMigrationStatus uuid status e0 in
       let e2 := updateMigrationProgress uuid p e1 in
       let e3 := updateMigrationETASeconds uuid etaSeconds e2 in
       let e4 := updateRowsCopied uuid rowsCopied e3 in
       if bool_decide (hint = readyToCompleteHint)
       then updateMigrationReadyToComplete uuid true e4 else e4)
    = schema_migrations
      (let e1 := updateMigrationStatus uuid status e0 in
       let e2 := updateMigrationProgress uuid progressPct e1 in
       let e3 := updateMigrationETASeconds uuid etaSeconds e2 in
       let e4 := updateRowsCopied uuid rowsCopied e3 in
       if bool_decide (hint = readyToCompleteHint)
       then updateMigrationReadyToComplete uuid true e4 else e4))
    by reflexivity.
  destruct status; cbv beta iota zeta;
    first [ apply Hstatus | rewrite Hprogress; [apply Hstatus |] ];
    simpl; rewrite ?fmap_if_id; reflexivity.
Qed.

Section StaleProps.

Context (c : Collaborators) (stale_minutes : Executor → Row → Z).

Lemma reviewStaleMigrations_body_effect
    (uuid : string) (onlineDDL : OnlineDDL) (e : Executor) :
  ∃ F : Row → Row,
    (∀ r, migration_uuid (F r) = migration_uuid r
          ∧ (migration_status (F r) = OnlineDDLStatusFailed
             ∨ migration_status (F r) = migration_status r)
          ∧ ((∀ e0 u0, terminateVReplMigration c e0 u0 = None) →
             migration_status (F r) = OnlineDDLStatusFailed))
    ∧ schema_migrations (reviewStaleMigrations_body c uuid onlineDDL e)
      = (λ r, if uuid_is (UUID onlineDDL) r then F r else r)
        <$> schema_migrations e
    ∧ ownedRunningMigrations (reviewStaleMigrations_body c uuid onlineDDL e)
      = delete (UUID onlineDDL) (ownedRunningMigrations e).
Proof.
  unfold reviewStaleMigrations_body, terminateMigration.
  set (failed message :=
         λ r, set_migration_status OnlineDDLStatusFailed
                (set_message (boundMessage c message) r)).
  assert (Hfailed : ∀ message r,
    migration_uuid (failed message r) = migration_uuid r
    ∧ (migration_status (failed message r) = OnlineDDLStatusFailed
       ∨ migration_status (failed message r) = migration_status r)
    ∧ ((∀ e0 u0, terminateVReplMigration c e0 u0 = None) →
       migration_status (failed message r) = OnlineDDLStatusFailed))
    by (intros message r; repeat split; by left).
  assert (Htable : ∀ message (t : list Row),
    (λ r, if uuid_is (UUID onlineDDL) r
          then set_migration_status OnlineDDLStatusFailed r else r)
    <$> ((λ r, if uuid_is (UUID onlineDDL) r
               then set_message (boundMessage c message) r else r) <$> t)
    = (λ r, if uuid_is (UUID onlineDDL) r then failed message r else r)
      <$> t).
  { intros message t. rewrite <- list_fmap_compose. apply list_fmap_ext.
    intros i r _. simpl. unfold uuid_is.
    destruct (bool_decide (migration_uuid r = UUID onlineDDL)) eqn:Hr; simpl;
      rewrite ?Hr; reflexivity. }
  destruct (bool_decide (TabletAlias onlineDDL ≠ tabletAlias e));
    cbv beta iota zeta;
    destruct (bool_decide (Strategy (StrategySetting onlineDDL)
                           = DDLStrategyOnline)
              || bool_decide (Strategy (StrategySetting onlineDDL)
                              = DDLStrategyVitess));
    cbv beta iota zeta;
    try match goal with
        | |- context [terminateVReplMigration c ?x ?y] =>
          destruct (terminateVReplMigration c x y) as [err |] eqn:Hterminate
        end;
    cbv beta iota zeta.
  all: try (eexists (failed _); split; [apply Hfailed |];
            split; [| reflexivity]; simpl;
            rewrite ?fmap_if_id, Htable; reflexivity).
  all: exists (set_message (boundMessage c "error terminating migration (%v): %v"));
    (split; [| split; [simpl; rewrite ?fmap_if_id; reflexivity
                      | reflexivity]]);
    intros r; (split; [reflexivity |]); (split; [by right |]);
    intros Hsucceed; by rewrite Hsucceed in Hterminate.
Qed.

Lemma reviewStaleMigrations_loop_effect (rows : list Row) (e : Executor) :
  unique_uuids e →
  (∀ row, row ∈ rows →
          migration_uuid row ∈ migration_uuid <$> schema_migrations e) →
  ∃ e',
    reviewStaleMigrations_loop c rows e = (e', None)
    ∧ (∀ i r,
         schema_migrations e !! i = Some r →
         ∃ r', schema_migrations e' !! i = Some r'
               ∧ migration_uuid r' = migration_uuid r
               ∧ (migration_uuid r ∉ migration_uuid <$> rows → r' = r)
               ∧ (migration_status r' = OnlineDDLStatusFailed
                  ∨ migration_status r' = migration_status r)
               ∧ ((∀ e0 u0, terminateVReplMigration c e0 u0 = None) →
                  migration_uuid r ∈ migration_uuid <$> rows →
                  migration_status r' = OnlineDDLStatusFailed))
    ∧ (∀ uuid,
         ownedRunningMigrations e' !! uuid
         = if bool_decide (uuid ∈ migration_uuid <$> rows) then None
           else ownedRunningMigrations e !! uuid).
Proof.
  revert e. induction rows as [| row rows IH]; intros e Hnd Hrows.
  - exists e. split; [reflexivity |]. split.
    + intros i r Hi. exists r. split; [exact Hi |]. split; [reflexivity |].
      split; [done |]. split; [by right |].
      intros _ Hin. by apply elem_of_nil in Hin.
    + intros uuid. reflexivity.
  - cbn [reviewStaleMigrations_loop].
    pose proof (Hrows row (list_elem_of_here _ _)) as Hrow.
    apply list_elem_of_fmap in Hrow as (r0 & Hu0 & Hr0).
    rewrite Hu0, (readMigration_unique e r0 Hnd Hr0).
    change (UUID (onlineDDL_of_row r0)) with (migration_uuid r0).
    destruct (reviewStaleMigrations_body_effect (migration_uuid r0)
                (onlineDDL_of_row r0) e) as (F & HF & Htable & Howned).
    change (UUID (onlineDDL_of_row r0)) with (migration_uuid r0)
      in Htable, Howned.
    set (e1 := reviewStaleMigrations_body c (migration_uuid r0)
                 (onlineDDL_of_row r0) e) in *.
    assert (Huuids : migration_uuid <$> schema_migrations e1
                     = migration_uuid <$> schema_migrations e).
    { rewrite Htable, <- list_fmap_compose. apply list_fmap_ext.
      intros i r _. simpl. destruct (uuid_is _ r); [apply HF | reflexivity]. }
    destruct (IH e1) as (e' & Hloop & Hpos & Hown).
    { unfold unique_uuids. by rewrite Huuids. }
    { intros row' Hrow'. rewrite Huuids. apply Hrows.
      by apply list_elem_of_further. }
    exists e'. split; [exact Hloop |]. split.
    + intros i r Hi.
      assert (Hi1 : schema_migrations e1 !! i
                    = Some (if uuid_is (migration_uuid r0) r
                            then F r else r))
        by (by rewrite Htable, list_lookup_fmap, Hi).
      destruct (Hpos i _ Hi1) as (r' & Hi' & Hu' & Hsame & Hstatus & Hfail).
      destruct (HF r) as (HFu & HFs & HFf).
      assert (Hu1 : migration_uuid (if uuid_is (migration_uuid r0) r
                                    then F r else r) = migration_uuid r)
        by (by destruct (uuid_is _ r)).
      rewrite Hu1 in Hu', Hsame, Hfail.
      exists r'. split; [exact Hi' |]. split; [exact Hu' |].
      rewrite fmap_cons, Hu0. unfold uuid_is in *. repeat split.
      * intros Hnot. apply not_elem_of_cons in Hnot as [Hne Hnot].
        rewrite (Hsame Hnot). by rewrite bool_decide_eq_false_2.
      * destruct Hstatus as [-> | ->]; [by left |].
        case_bool_decide; [exact HFs | by right].
      * intros Hsucceed Hin.
        destruct (decide (migration_uuid r ∈ migration_uuid <$> rows))
          as [Hl | Hl]; [by apply Hfail |].
        apply elem_of_cons in Hin as [Hin | Hin]; [| done].
        rewrite (Hsame Hl), bool_decide_eq_true_2 by exact Hin.
        by apply HFf.
    + intros uuid. rewrite Hown, fmap_cons, Hu0, Howned.
      destruct (decide (uuid = migration_uuid r0)) as [-> | Hne].
      * rewrite lookup_delete_eq.
        rewrite (bool_decide_eq_true_2 (_ ∈ _ :: _))
          by apply list_elem_of_here.
        by case_bool_decide.
      * rewrite lookup_delete_ne by done.
        repeat case_bool_decide; try reflexivity.
        -- exfalso. match goal with H : _ ∉ _ :: _ |- _ => apply H end.
           by apply list_elem_of_further.
        -- exfalso.
           match goal with H : _ ∈ _ :: _ |- _ =>
             apply elem_of_cons in H as [? | ?] end; done.
Qed.

(** The review of the stale migrations, over a table with unique UUIDs,
    runs to its end without error, whatever the terminations give.  Every
    running row without liveness for 180 minutes leaves the ownership of
    the executor and is either marked failed, and not cancelled, or, when
    its termination failed, left running; it is marked failed when no
    termination fails.  Every other row is left as it is. *)
Theorem reviewStaleMigrations_fails_stale (e : Executor) :
  unique_uuids e →
  ∃ e',
    reviewStaleMigrations c stale_minutes e = (e', None)
    ∧ ∀ i r,
        schema_migrations e !! i = Some r →
        ∃ r', schema_migrations e' !! i = Some r'
              ∧ migration_uuid r' = migration_uuid r
              ∧ if bool_decide (migration_status r = OnlineDDLStatusRunning)
                   && bool_decide (staleMigrationFailMinutes
                                   ≤ stale_minutes e r)
                then ownedRunningMigrations e' !! migration_uuid r = None
                     ∧ (migration_status r' = OnlineDDLStatusFailed
                        ∨ migration_status r' = OnlineDDLStatusRunning)
                     ∧ ((∀ e0 uuid, terminateVReplMigration c e0 uuid = None)
                        → migration_status r' = OnlineDDLStatusFailed)
                else r' = r.
Proof.
  intros Hnd. unfold reviewStaleMigrations, sqlSelectStaleMigrations.
  set (stale := λ r, bool_decide (migration_status r = OnlineDDLStatusRunning)
                     && bool_decide (staleMigrationFailMinutes
                                     ≤ stale_minutes e r)).
  destruct (reviewStaleMigrations_loop_effect (Rows (sqlSelect stale e)) e Hnd)
    as (e' & Hloop & Hpos & Hown).
  { intros row Hrow. unfold sqlSelect in Hrow. simpl in Hrow.
    apply list_elem_of_filter in Hrow as [_ Hrow].
    apply list_elem_of_fmap. by exists row. }
  exists e'. split; [exact Hloop |].
  intros i r Hi. destruct (Hpos i r Hi) as (r' & Hi' & Hu & Hsame & Hst & Hf).
  exists r'. split; [exact Hi' |]. split; [exact Hu |].
  pose proof (sqlSelect_uuids_row stale e r Hnd
                (list_elem_of_lookup_2 _ _ _ Hi)) as Hstale.
  fold (stale r). destruct (stale r) eqn:Hr.
  - assert (Hin : migration_uuid r
                  ∈ migration_uuid <$> Rows (sqlSelect stale e))
      by (by apply Hstale).
    split; [| split].
    + by rewrite Hown, bool_decide_eq_true_2.
    + unfold stale in Hr. apply andb_true_iff in Hr as [Hrun _].
      apply bool_decide_eq_true in Hrun. by rewrite <- Hrun.
    + intros Hsucceed. by apply Hf.
  - apply Hsame. intros Hin. apply Hstale in Hin. discriminate.
Qed.

End StaleProps.

(** ** Status transitions *)











Section Transitions.

Context (c : Collaborators).












(** *** The selection step of the runner *)



(** *** The calls of the handlers *)






(** *** The review of the queued migrations *)

Lemma updateMigrationTimestamp_reviewed (uuid : string) (e : Executor) :
  updateMigrationTimestamp "reviewed_timestamp" uuid e
  = fst (sqlUpdate (uuid_is uuid) (set_reviewed_timestamp (Some (now e))) e).
Proof. reflexivity. Qed.



(** *** The review of the stale migrations *)



(** *** Every operation *)


(** *** The operations on every migration of a kind *)

Lemma appendResults_trace
    (AppendResult : Result → Result → Result)
    (op : string → Executor → Executor * outcome Result)
    (operation : string → Operation)
    (uuids : list string) (result : Result) (e : Executor) :
  (∀ uuid e0, fst (op uuid e0) = perform c (operation uuid) e0) →
  ∃ n, fst (appendResults AppendResult op uuids result e)
       = perform_all c (operation <$> take n uuids) e.
Proof.
  intros Hop. revert result e.
  induction uuids as [| uuid uuids IH]; intros result e.
  - by exists 0%nat.
  - cbn [appendResults]. pose proof (Hop uuid e) as Hstep.
    destruct (op uuid e) as [e1 [res | err]]; simpl in Hstep; subst e1.
    + destruct (IH (AppendResult result res) (perform c (operation uuid) e))
        as [n Hn].
      exists (S n). by rewrite Hn.
    + by exists 1%nat.
Qed.

(** [CancelPendingMigrations] and its siblings, and [cancelMigrations],
    leave the executor as a run of the operation on one migration does,
    over the first UUIDs of their list. *)
Lemma batches_are_traces
    (AppendResult : Result → Result → Result) (e : Executor) :
  (∀ message issuedByUser,
     ∃ n, fst (CancelPendingMigrations c AppendResult message issuedByUser e)
          = perform_all c
              ((λ uuid, OpCancelMigration uuid message issuedByUser)
               <$> take n (readPendingMigrationsUUIDs e)) e)
  ∧ (∃ n, fst (ForceCutOverPendingMigrations c AppendResult e)
          = perform_all c
              (OpForceCutOverMigration
               <$> take n (readPendingMigrationsUUIDs e)) e)
  ∧ (∃ n, fst (CompletePendingMigrations c AppendResult e)
          = perform_all c
              ((λ uuid, OpCompleteMigration uuid "")
               <$> take n (readPendingMigrationsUUIDs e)) e)
  ∧ (∃ n, fst (PostponeCompletePendingMigrations c AppendResult e)
          = perform_all c
              (OpPostponeCompleteMigration
               <$> take n (readPendingMigrationsUUIDs e)) e)
  ∧ (∃ n, fst (LaunchMigrations c AppendResult e)
          = perform_all c
              ((λ uuid, OpLaunchMigration uuid "")
               <$> take n (migration_uuid
                           <$> Rows (sqlSelectQueuedMigrations e))) e)
  ∧ (∀ cancellable issuedByUser,
       ∃ n, fst (cancelMigrations c cancellable issuedByUser e)
            = perform_all c
                ((λ m, OpCancelMigration (cancellable_uuid m)
                         (cancellable_message m) issuedByUser)
                 <$> take n cancellable) e).
Proof.
  unfold CancelPendingMigrations, ForceCutOverPendingMigrations,
    CompletePendingMigrations, PostponeCompletePendingMigrations,
    LaunchMigrations.
  destruct (bool_decide (isOpen e = 0)).
  - repeat split; try (intros; by exists 0%nat).
    intros cancellable issuedByUser. revert e.
    induction cancellable as [| m cancellable IH]; intros e;
      [by exists 0%nat |].
    cbn [cancelMigrations].
    destruct (CancelMigration c (cancellable_uuid m) (cancellable_message m)
                issuedByUser e) as [e1 [res | err]] eqn:Hcancel.
    + destruct (IH e1) as [n Hn]. exists (S n). rewrite Hn. simpl.
      by rewrite Hcancel.
    + exists 1%nat. simpl. by rewrite Hcancel.
  - repeat split; try (intros; by apply appendResults_trace).
    intros cancellable issuedByUser. revert e.
    induction cancellable as [| m cancellable IH]; intros e;
      [by exists 0%nat |].
    cbn [cancelMigrations].
    destruct (CancelMigration c (cancellable_uuid m) (cancellable_message m)
                issuedByUser e) as [e1 [res | err]] eqn:Hcancel.
    + destruct (IH e1) as [n Hn]. exists (S n). rewrite Hn. simpl.
      by rewrite Hcancel.
    + exists 1%nat. simpl. by rewrite Hcancel.
Qed.


End Transitions.



(** ** The properties at concrete inputs *)

Lemma CancelPendingMigrations_leaves_nothing_pending_witness :
  pending_rows
    (fst (CancelPendingMigrations example_collaborators example_AppendResult
            "cancel all" true mixed_example))
  = [].
Proof.
  pose (out := CancelPendingMigrations example_collaborators
                 example_AppendResult "cancel all" true mixed_example).
  assert (Hout : out = (fst out, (fst (snd out), None)))
    by (vm_compute; reflexivity).
  apply (proj1 (CancelPendingMigrations_leaves_nothing_pending
                  _ _ _ _ _ _ _ Hout)).
  intros uuid _ e0. reflexivity.
Defined.

Lemma cancelMigrations_terminates_all_witness :
  Forall (λ r', migration_uuid r' ∈ cancellable_uuid <$> example_cancellable →
                is_terminal (migration_status r') = true)
    (schema_migrations
       (fst (cancelMigrations example_collaborators example_cancellable
               false mixed_example))).
Proof.
  pose (out := cancelMigrations example_collaborators example_cancellable
                 false mixed_example).
  assert (Hout : out = (fst out, None)) by (vm_compute; reflexivity).
  apply Forall_forall.
  apply (proj1 (cancelMigrations_terminates_all _ _ _ _ _ Hout)).
  intros uuid _ e0. reflexivity.
Defined.

Lemma ForceCutOverPendingMigrations_marks_pending_witness :
  ∃ result,
    ForceCutOverPendingMigrations example_collaborators example_AppendResult
      mixed_example
    = (with_schema_migrations
         ((λ r, if negb (is_terminal (migration_status r))
                then set_force_cutover true r else r)
          <$> schema_migrations mixed_example) mixed_example,
       (Some result, None)).
Proof.
  apply (ForceCutOverPendingMigrations_marks_pending example_collaborators
           example_AppendResult mixed_example).
  - vm_compute. discriminate.
  - unfold unique_uuids. apply (bool_decide_unpack _). vm_compute. exact I.
  - apply Forall_forall. intros uuid _. reflexivity.
Defined.

Lemma ForceCutOverPendingMigrations_stops_at_invalid_witness :
  ∃ result err,
    ForceCutOverPendingMigrations strict_collaborators example_AppendResult
      mixed_example
    = (with_schema_migrations
         ((λ r, if bool_decide (migration_uuid r ∈ ["q1"])
                then set_force_cutover true r else r)
          <$> schema_migrations mixed_example) mixed_example,
       (Some result, Some err))
    ∧ ErrCode err = Code_UNKNOWN.
Proof.
  apply (ForceCutOverPendingMigrations_stops_at_invalid strict_collaborators
           example_AppendResult mixed_example ["q1"] "q3" ["u1"]).
  - vm_compute. discriminate.
  - vm_compute. reflexivity.
  - repeat constructor.
  - reflexivity.
Defined.

Lemma LaunchMigrations_launches_queued_witness :
  ∃ result,
    LaunchMigrations example_collaborators example_AppendResult mixed_example
    = (with_schema_migrations
         ((λ r, if schedulable r then set_postpone_launch false r else r)
          <$> schema_migrations mixed_example) mixed_example,
       (Some result, None)).
Proof.
  apply (LaunchMigrations_launches_queued example_collaborators
           example_AppendResult mixed_example).
  - vm_compute. discriminate.
  - unfold unique_uuids. apply (bool_decide_unpack _). vm_compute. exact I.
  - reflexivity.
  - apply Forall_forall. intros uuid _. reflexivity.
Defined.

Lemma CompletePendingMigrations_after_postponement_witness :
  fst (CompletePendingMigrations example_collaborators example_AppendResult
         (fst (PostponeCompletePendingMigrations example_collaborators
                 example_AppendResult mixed_example)))
  = fst (CompletePendingMigrations example_collaborators example_AppendResult
           mixed_example).
Proof.
  apply (CompletePendingMigrations_after_postponement example_collaborators
           example_AppendResult mixed_example).
  - vm_compute. discriminate.
  - reflexivity.
  - apply Forall_forall. intros uuid _. reflexivity.
Defined.

Lemma isVReplMigrationReadyToCutOver_stored_threshold_witness :
  isVReplMigrationReadyToCutOver (λ _, Ok (Some 0))
    (onlineDDL_of_row queued_row) example_stream = (true, None).
Proof.
  apply (proj1 (isVReplMigrationReadyToCutOver_stored_threshold
                  (λ _, Ok (Some 0)) "q3" mixed_example
                  (onlineDDL_of_row queued_row) queued_row example_stream
                  eq_refl)).
  split; [discriminate |]. split; [vm_compute; discriminate |].
  exists 0. split; [reflexivity | lia].
Defined.

Lemma gcArtifacts_loop_distinct_timestamps_witness :
  NoDup (fst (gcArtifacts_loop (λ artifactTable _ _, Ok artifactTable)
                "u1" (1000 * Second) 0 ["_a"; "_b"; "_c"])).*2.
Proof.
  pose (out := gcArtifacts_loop (λ artifactTable _ _, Ok artifactTable)
                 "u1" (1000 * Second) 0 ["_a"; "_b"; "_c"]).
  assert (Hout : out = (fst out, snd out)) by (vm_compute; reflexivity).
  refine (proj1 (proj2 (gcArtifacts_loop_distinct_timestamps
                          _ _ _ _ _ _ _ Hout))).
  vm_compute. reflexivity.
Defined.

Lemma CancelMigration_disowns_witness :
  ownedRunningMigrations
    (fst (CancelMigration example_collaborators "r1" "stop" true
            runner_example))
  = delete "r1" (ownedRunningMigrations runner_example).
Proof.
  apply (CancelMigration_disowns example_collaborators "r1" "stop" true
           runner_example running_concurrent_alter
           running_concurrent_alter_row).
  - vm_compute. discriminate.
  - reflexivity.
  - reflexivity.
Defined.

Lemma CancelMigration_RowsAffected_witness :
  snd (CancelMigration example_collaborators "m1" "stop" true
         (example_executor 1 [running_mysql_row]))
  = Ok {| RowsAffected := 0; Rows := [] |}
  ∧ is_terminal <$> (migration_status <$>
      filter (λ r, uuid_is "m1" r = true)
        (schema_migrations
           (fst (CancelMigration example_collaborators "m1" "stop" true
                   (example_executor 1 [running_mysql_row])))))
    = [true].
Proof.
  pose (e := example_executor 1 [running_mysql_row]).
  pose (out := CancelMigration example_collaborators "m1" "stop" true e).
  assert (Hout : out = (fst out, Ok {| RowsAffected := 0; Rows := [] |}))
    by (vm_compute; reflexivity).
  destruct (CancelMigration_RowsAffected example_collaborators "m1" "stop"
              true e (fst out) (onlineDDL_of_row running_mysql_row)
              running_mysql_row _ eq_refl Hout) as (_ & _ & _ & Hrunning).
  split; [reflexivity |].
  apply Hrunning; [reflexivity | discriminate | discriminate |].
  intros e0. reflexivity.
Defined.

Lemma getNonConflictingMigration_under_cap_witness :
  (countOwnedRunningMigrations (example_executor 1 [ready_plain_alter_row])
   < maxConcurrentOnlineDDLs)%nat.
Proof.
  pose (e := example_executor 1 [ready_plain_alter_row]).
  pose (out := getNonConflictingMigration example_collaborators e).
  assert (Hout : out = (e, Ok (Some (onlineDDL_of_row ready_plain_alter_row))))
    by (vm_compute; reflexivity).
  exact (proj1 (getNonConflictingMigration_under_cap _ _ _ _ Hout)).
Defined.

Lemma SubmitMigration_new_migration_witness :
  ∃ row,
    schema_migrations
      (fst (SubmitMigration example_collaborators
              (example_submission plain_resubmission)
              (example_executor 1 [queued_row])))
    = [queued_row; row]
    ∧ migration_status row = OnlineDDLStatusQueued
    ∧ cutover_threshold_seconds row = 10
    ∧ retain_artifacts_seconds row = 86400.
Proof.
  pose (e := example_executor 1 [queued_row]).
  pose (out := SubmitMigration example_collaborators
                 (example_submission plain_resubmission) e).
  assert (Hout : out = (fst out, Ok {| RowsAffected := 1; Rows := [] |}))
    by (vm_compute; reflexivity).
  assert (Hnew : ∀ r, r ∈ schema_migrations e →
                      migration_uuid r ≠ UUID plain_resubmission).
  { intros r Hr. apply list_elem_of_singleton in Hr as ->. discriminate. }
  destruct (SubmitMigration_new_migration example_collaborators
              (example_submission plain_resubmission) e (fst out)
              plain_resubmission _ eq_refl Hnew Hout)
    as (row & Htable & _ & _ & _ & Hstatus & _ & _ & _ & _ & Hzero & Hretain).
  exists row. split; [exact Htable |]. split; [exact Hstatus |].
  split; [by apply Hzero | exact Hretain].
Defined.

Lemma LaunchMigration_other_shard_witness :
  LaunchMigration sharded_collaborators "q1" "-80" mixed_example
  = (mixed_example, Ok emptyResult).
Proof.
  apply (proj1 (LaunchMigration_other_shard sharded_collaborators "q1" "-80"
                  mixed_example ltac:(vm_compute; discriminate)
                  ltac:(vm_compute; discriminate)
                  ltac:(apply (bool_decide_unpack _); vm_compute; exact I))).
  reflexivity.
Defined.

Lemma SetMigrationCutOverThreshold_read_back_witness :
  ∃ row',
    readMigration "q3"
      (fst (SetMigrationCutOverThreshold example_collaborators "q3" "10s"
              mixed_example))
    = Ok (onlineDDL_of_row row', row')
    ∧ CutOverThreshold (onlineDDL_of_row row') = 10 * Second.
Proof.
  pose (out := SetMigrationCutOverThreshold example_collaborators "q3" "10s"
                 mixed_example).
  assert (Hout : out = (fst out, Ok {| RowsAffected := 1; Rows := [] |}))
    by (vm_compute; reflexivity).
  destruct (SetMigrationCutOverThreshold_read_back example_collaborators
              "q3" "10s" mixed_example (fst out)
              (onlineDDL_of_row queued_row) queued_row _ eq_refl Hout)
    as (d & seconds & Hparse & Hcase & Hread & Hthreshold).
  injection Hparse as <-.
  destruct Hcase as [[Hd _] | [_ ->]]; [discriminate Hd |].
  eexists. split; [exact Hread | exact Hthreshold].
Defined.

Lemma updateMigrationReadyToComplete_sticky_witness :
  ∃ running',
    ownedRunningMigrations
      (foldl (λ e isReady, updateMigrationReadyToComplete "r1" isReady e)
         (updateMigrationReadyToComplete "r1" true runner_example)
         [false; true; false])
      !! "r1" = Some running'
    ∧ WasReadyToComplete running' = 1
    ∧ ReadyToComplete running' = 0
    ∧ proposedMigrationConflictsWithRunningMigration running'
        (onlineDDL_of_row ready_plain_alter_row)
      = false.
Proof.
  apply (updateMigrationReadyToComplete_sticky "r1" [false; true; false]
           runner_example running_concurrent_alter
           (onlineDDL_of_row ready_plain_alter_row)).
  - reflexivity.
  - vm_compute. discriminate.
  - left. reflexivity.
Defined.

Lemma LaunchMigration_then_scheduled_witness :
  schema_migrations (scheduleNextMigration scheduler_example) !! 0%nat
  = Some postponed_launch_row
  ∧ ∃ r',
      schema_migrations
        (scheduleNextMigration
           (fst (LaunchMigration example_collaborators "q1" ""
                   scheduler_example))) !! 0%nat
      = Some r'
      ∧ postpone_launch r' = false
      ∧ migration_status r' = OnlineDDLStatusReady.
Proof.
  destruct (LaunchMigration_then_scheduled example_collaborators ""
              scheduler_example 0 postponed_launch_row)
    as (Hbefore & r' & Hafter & Hlaunch & Hready).
  - vm_compute. discriminate.
  - unfold unique_uuids. apply (bool_decide_unpack _). vm_compute. exact I.
  - reflexivity.
  - reflexivity.
  - reflexivity.
  - reflexivity.
  - vm_compute. discriminate.
  - reflexivity.
  - split; [exact Hbefore |]. exists r'. split; [exact Hafter |].
    split; [exact Hlaunch |]. apply Hready. split; [reflexivity |].
    intros j q Hj. lia.
Defined.

Lemma reviewStaleMigrations_fails_stale_witness :
  ∃ e',
    reviewStaleMigrations example_collaborators (λ _ _, 200) mixed_example
    = (e', None)
    ∧ migration_status <$> schema_migrations e'
      = [OnlineDDLStatusQueued; OnlineDDLStatusQueued; OnlineDDLStatusFailed;
         OnlineDDLStatusFailed].
Proof.
  destruct (reviewStaleMigrations_fails_stale example_collaborators
              (λ _ _, 200) mixed_example)
    as (e' & Hrun & _).
  { unfold unique_uuids. apply (bool_decide_unpack _). vm_compute. exact I. }
  exists e'. split; [exact Hrun |].
  assert (He' : e' = fst (reviewStaleMigrations example_collaborators
                            (λ _ _, 200) mixed_example))
    by (by rewrite Hrun).
  rewrite He'. vm_compute. reflexivity.
Defined.
